(** * SprintCode exam core

    A shallow embedding of the exam domain model of the SprintCode client
    (Question, Exam, ExamResult), of the response parser of the Gemini
    adapter and of the orchestrating ExamService, followed by the
    properties checked against them.

    Conventions of the embedding.
    - A method that mutates [this] is a function from the receiver to a
      pair: what the call produced (a value or a thrown exception) and the
      receiver afterwards.
    - JavaScript has a single number type, IEEE-754 binary64.  Counts,
      identifiers and option positions are integer valued and far below
      2^53, so they are carried as [Z]; where such a position can also be
      NaN (the parser's [charCodeAt] on an empty string) the type [index]
      adds that value.  The quotients (percentages) are binary64 values,
      taken from the Standard Library's [SpecFloat] with the binary64
      parameters, so that rounding, NaN and the infinities are the real
      ones.
    - Strings are byte strings; the embedding is exact on ASCII text.
    - The built-ins of the platform that the code calls and that are not
      its own ([JSON.parse], [Date.prototype.toISOString] and the [Date]
      constructor on a string) are parameters.  A reference JSON reader
      and a decimal date codec instantiate them where a concrete run is
      evaluated.
    - [new Date()] reads the clock; the reading is the argument [now]. *)

From Stdlib Require Import ZArith List String Ascii Bool Lia SpecFloat.
From Stdlib Require Import DecimalString DecimalZ DecimalPos.
Import ListNotations.
Open Scope string_scope.
Open Scope Z_scope.

(* ===================================================================== *)
(** ** The JavaScript fragment the sources rely on *)
(* ===================================================================== *)

Module JS.

(** Thrown values.  Only the constructor and the message of an error
    object are observed by the code. *)
Inductive exn :=
| Error (message : string)
| TypeError (message : string)
| SyntaxError (message : string)
| RangeError (message : string).

(** [parseError instanceof Error ? parseError.message : ...]: every
    built-in error class derives from [Error]. *)
Definition message_of (e : exn) : string :=
  match e with
  | Error m | TypeError m | SyntaxError m | RangeError m => m
  end.

(** How a call ends.  [Untyped] marks a run that leaves the typed
    fragment: a value of another runtime type flows through an [any]
    into a field that the class declares as [string] or [string[]].
    JavaScript does not stop there; the embedding makes no statement
    about such runs. *)
Inductive outcome (A : Type) :=
| Ok (a : A)
| Throw (e : exn)
| Untyped.
Arguments Ok {A} a.
Arguments Throw {A} e.
Arguments Untyped {A}.

Definition bind {A B} (m : outcome A) (k : A -> outcome B) : outcome B :=
  match m with
  | Ok a => k a
  | Throw e => Throw e
  | Untyped => Untyped
  end.

Fixpoint mapM {A B} (f : A -> outcome B) (l : list A) : outcome (list B) :=
  match l with
  | [] => Ok []
  | a :: l' =>
      bind (f a) (fun b => bind (mapM f l') (fun bs => Ok (b :: bs)))
  end.

Definition is_ok {A} (m : outcome A) : bool :=
  match m with Ok _ => true | _ => false end.

(** *** binary64 *)
Module Num.
Definition prec : Z := 53.
Definition emax : Z := 1024.
Definition double := spec_float.

Definition nan : double := S754_nan.
(** An integer literal, or the value of [array.length]. *)
Definition of_Z (z : Z) : double := binary_normalize prec emax z 0 false.
Definition of_nat (n : nat) : double := of_Z (Z.of_nat n).
Definition div : double -> double -> double := SFdiv prec emax.
Definition mul : double -> double -> double := SFmul prec emax.
(** [x >= y], [x < y], [x <= y]; all false when an operand is NaN. *)
Definition geb (x y : double) : bool := SFleb y x.
Definition ltb (x y : double) : bool := SFltb x y.
Definition leb (x y : double) : bool := SFleb x y.
Definition is_nan (x : double) : bool :=
  match x with S754_nan => true | _ => false end.
(** [x === y] on numbers: NaN differs from itself, the zeros agree. *)
Definition eqb (x y : double) : bool := SFeqb x y.

(** [x - y] and [Infinity]. *)
Definition sub : double -> double -> double := SFsub prec emax.
Definition infinity : double := S754_infinity false.

(** [Math.floor(x)].  A finite value with a negative exponent has a
    fractional part: its floor is an integer of magnitude below 2^53,
    which is a binary64 value.  Shifting right rounds towards minus
    infinity.  The other values are their own floor. *)
Definition floor (x : double) : double :=
  match x with
  | S754_finite s m e =>
      if e <? 0 then of_Z (Z.shiftl (cond_Zopp s (Zpos m)) e) else x
  | _ => x
  end.

(** [Math.max(a, b)]: NaN when an operand is NaN; the positive zero is
    the larger zero. *)
Definition max (a b : double) : double :=
  if is_nan a || is_nan b then nan
  else if ltb a b then b
  else if ltb b a then a
  else match a, b with
       | S754_zero true, S754_zero false => b
       | _, _ => a
       end.
End Num.

(** *** Integer-valued numbers that may be NaN *)
Inductive index :=
| NaN
| Int (z : Z).

Definition index_sub (i : index) (k : Z) : index :=
  match i with
  | NaN => NaN
  | Int z => Int (z - k)
  end.

(** [a[i]] on an array: [undefined] (here [None]) unless [i] is the
    position of an element. *)
Definition array_get {A} (a : list A) (i : index) : option A :=
  match i with
  | NaN => None
  | Int z => if z <? 0 then None else nth_error a (Z.to_nat z)
  end.

(** [String(n)] for an integer [n]. *)
Definition string_of_Z (z : Z) : string :=
  NilZero.string_of_int (Z.to_int z).

(** The binary64 value of an integer-valued number. *)
Definition double_of_index (i : index) : Num.double :=
  match i with
  | NaN => Num.nan
  | Int z => Num.of_Z z
  end.

End JS.

Import JS.

Declare Scope js_scope.
Delimit Scope js_scope with js.
Notation "x <- m ;; k" := (JS.bind m (fun x => k))
  (at level 61, m at next level, right associativity) : js_scope.

(* ===================================================================== *)
(** ** models/Question.ts *)
(* ===================================================================== *)

Module Question.

Inductive Difficulty := easy | medium | hard.

Record t := mk {
  _id : Z;
  _text : string;
  _options : list string;
  _correctIndex : index;
  _userAnswer : option Z;          (* [None] is [undefined] *)
  _difficulty : option Difficulty
}.

(** [constructor(id, text, options, correctIndex, difficulty?)]: five
    assignments, no check. *)
Definition new (id : Z) (text : string) (options : list string)
    (correctIndex : index) (difficulty : option Difficulty) : t :=
  {| _id := id; _text := text; _options := options;
     _correctIndex := correctIndex; _userAnswer := None;
     _difficulty := difficulty |}.

Definition id (q : t) : Z := _id q.
Definition text (q : t) : string := _text q.
Definition options (q : t) : list string := _options q.
Definition correctIndex (q : t) : index := _correctIndex q.
Definition difficulty (q : t) : option Difficulty := _difficulty q.
Definition userAnswer (q : t) : option Z := _userAnswer q.

Definition with_userAnswer (q : t) (a : option Z) : t :=
  {| _id := _id q; _text := _text q; _options := _options q;
     _correctIndex := _correctIndex q; _userAnswer := a;
     _difficulty := _difficulty q |}.

Definition invalid_answer : exn := Error "Invalid answer index".

(** [setUserAnswer(answerIndex)] *)
Definition setUserAnswer (answerIndex : Z) (q : t) : outcome unit * t :=
  if (0 <=? answerIndex) && (answerIndex <? Z.of_nat (List.length (_options q)))
  then (Ok tt, with_userAnswer q (Some answerIndex))
  else (Throw invalid_answer, q).

Definition isAnswered (q : t) : bool :=
  match _userAnswer q with
  | Some _ => true
  | None => false
  end.

(** [this._userAnswer === this._correctIndex] *)
Definition isCorrect (q : t) : bool :=
  match _userAnswer q, _correctIndex q with
  | Some a, Int c => a =? c
  | _, _ => false
  end.

(** [this._options[this._correctIndex]]; [None] is [undefined]. *)
Definition getCorrectAnswer (q : t) : outcome (option string) :=
  Ok (array_get (_options q) (_correctIndex q)).

(** [None] is [null] here: the method answers [null] when no answer is
    recorded. *)
Definition getUserAnswerText (q : t) : option string :=
  match _userAnswer q with
  | Some a => array_get (_options q) (Int a)
  | None => None
  end.

(** The record [toJSON] builds. *)
Module JSON.
Record t := mk {
  id : Z;
  text : string;
  options : list string;
  correctIndex : index;
  difficulty : option Difficulty;
  userAnswer : option Z
}.
End JSON.

Definition toJSON (q : t) : JSON.t :=
  {| JSON.id := _id q; JSON.text := _text q; JSON.options := _options q;
     JSON.correctIndex := _correctIndex q;
     JSON.difficulty := _difficulty q;
     JSON.userAnswer := _userAnswer q |}.

(** [static fromJSON(data)], on data of the shape [toJSON] produces. *)
Definition fromJSON (data : JSON.t) : outcome t :=
  let question :=
    new (JSON.id data) (JSON.text data) (JSON.options data)
        (JSON.correctIndex data) (JSON.difficulty data) in
  match JSON.userAnswer data with
  | Some a =>
      match setUserAnswer a question with
      | (Ok _, question') => Ok question'
      | (Throw e, _) => Throw e
      | (Untyped, _) => Untyped
      end
  | None => Ok question
  end.

(** The class invariant: a recorded answer is a position of [options]. *)
Definition wf (q : t) : Prop :=
  match _userAnswer q with
  | Some a => 0 <= a < Z.of_nat (List.length (_options q))
  | None => True
  end.

End Question.

(* ===================================================================== *)
(** ** Dates *)
(* ===================================================================== *)

Module Date.

(** A [Date] object holds a time value: a whole number of milliseconds
    since the epoch within the range below, or NaN (an invalid date). *)
Inductive t :=
| Valid (ms : Z)
| Invalid.

Definition limit : Z := 8640000000000000.
Definition inRange (ms : Z) : Prop := - limit <= ms <= limit.

(** [d.getTime()] *)
Definition getTime (d : t) : index :=
  match d with
  | Valid ms => Int ms
  | Invalid => NaN
  end.

(** The two built-ins the serialisation goes through.  ECMA-262 fixes
    that [new Date(d.toISOString())] has the time value of [d] for
    every valid [d]; [toISOString] throws a [RangeError] on an invalid
    one.  The development is parametric in the pair. *)
Record builtins := {
  toISOString_ms : Z -> string;
  parse : string -> t
}.

Definition toISOString (B : builtins) (d : t) : outcome string :=
  match d with
  | Valid ms => Ok (toISOString_ms B ms)
  | Invalid => Throw (RangeError "Invalid time value")
  end.

Record lawful (B : builtins) : Prop := {
  parse_toISOString :
    forall ms, inRange ms -> parse B (toISOString_ms B ms) = Valid ms;
  toISOString_nonempty :
    forall ms, inRange ms -> toISOString_ms B ms <> ""
}.

End Date.

(* ===================================================================== *)
(** ** models/Exam.ts *)
(* ===================================================================== *)

Module Exam.

Record t := mk {
  _questions : list Question.t;
  _title : string;
  _timeLimit : option Z;           (* minutes *)
  _startTime : option Date.t;
  _endTime : option Date.t
}.

Definition new (title : string) (questions : list Question.t)
    (timeLimit : option Z) : t :=
  {| _questions := questions; _title := title; _timeLimit := timeLimit;
     _startTime := None; _endTime := None |}.

Definition questions (e : t) : list Question.t := _questions e.
Definition title (e : t) : string := _title e.
Definition totalQuestions (e : t) : nat := List.length (_questions e).
Definition timeLimit (e : t) : option Z := _timeLimit e.
Definition startTime (e : t) : option Date.t := _startTime e.
Definition endTime (e : t) : option Date.t := _endTime e.

Definition with_questions (e : t) (qs : list Question.t) : t :=
  {| _questions := qs; _title := _title e; _timeLimit := _timeLimit e;
     _startTime := _startTime e; _endTime := _endTime e |}.

(** [start()] and [end()]: [now] is what [new Date()] reads off the
    clock. *)
Definition start (now : Z) (e : t) : t :=
  {| _questions := _questions e; _title := _title e;
     _timeLimit := _timeLimit e;
     _startTime := Some (Date.Valid now); _endTime := _endTime e |}.

Definition end_ (now : Z) (e : t) : t :=
  {| _questions := _questions e; _title := _title e;
     _timeLimit := _timeLimit e;
     _startTime := _startTime e; _endTime := Some (Date.Valid now) |}.

Definition isStarted (e : t) : bool :=
  match _startTime e with Some _ => true | None => false end.

Definition isEnded (e : t) : bool :=
  match _endTime e with Some _ => true | None => false end.

Definition getQuestion (questionId : Z) (e : t) : option Question.t :=
  find (fun q => Question.id q =? questionId) (_questions e).

(** The first question with the identifier answers the call; the list
    afterwards holds its new state at the same place. *)
Fixpoint answerFirst (questionId answerIndex : Z) (qs : list Question.t)
  : option (outcome unit * list Question.t) :=
  match qs with
  | [] => None
  | q :: qs' =>
      if Question.id q =? questionId
      then let (r, q') := Question.setUserAnswer answerIndex q in
           Some (r, q' :: qs')
      else match answerFirst questionId answerIndex qs' with
           | Some (r, qs'') => Some (r, q :: qs'')
           | None => None
           end
  end.

Definition answerQuestion (questionId answerIndex : Z) (e : t)
  : outcome unit * t :=
  match answerFirst questionId answerIndex (_questions e) with
  | None =>
      (Throw (Error ("Question with id " ++ string_of_Z questionId
                       ++ " not found")), e)
  | Some (r, qs) => (r, with_questions e qs)
  end.

Definition getAnsweredCount (e : t) : nat :=
  List.length (filter Question.isAnswered (_questions e)).

(** [(this.getAnsweredCount() / this.totalQuestions) * 100] *)
Definition getProgressPercentage (e : t) : Num.double :=
  Num.mul (Num.div (Num.of_nat (getAnsweredCount e))
                   (Num.of_nat (totalQuestions e)))
          (Num.of_Z 100).

(** [getElapsedTime()]:
    [Math.floor((endTime.getTime() - this._startTime.getTime()) / 1000)],
    the subtraction and the division in binary64 as the code has them. *)
Definition getElapsedTime (now : Z) (e : t) : Num.double :=
  match _startTime e with
  | None => Num.of_Z 0
  | Some st =>
      let endTime :=
        match _endTime e with
        | Some d => d
        | None => Date.Valid now
        end in
      Num.floor
        (Num.div (Num.sub (double_of_index (Date.getTime endTime))
                          (double_of_index (Date.getTime st)))
                 (Num.of_Z 1000))
  end.

Definition canSubmit (e : t) : bool :=
  Nat.eqb (getAnsweredCount e) (totalQuestions e).

(** [getRemainingTime()], in minutes.  A limit of 0 is falsy and counts
    as no limit. *)
Definition getRemainingTime (now : Z) (e : t) : Num.double :=
  match _timeLimit e, _startTime e with
  | Some limit, Some _ =>
      if limit =? 0 then Num.infinity
      else
        let elapsedMinutes :=
          Num.div (getElapsedTime now e) (Num.of_Z 60) in
        Num.max (Num.of_Z 0) (Num.sub (Num.of_Z limit) elapsedMinutes)
  | _, _ => Num.infinity
  end.

Module JSON.
Record t := mk {
  title : string;
  questions : list Question.JSON.t;
  timeLimit : option Z;
  startTime : option string;
  endTime : option string
}.
End JSON.

Section Serialization.
Variable B : Date.builtins.

(** [this._startTime?.toISOString()] *)
Definition optISO (d : option Date.t) : outcome (option string) :=
  match d with
  | None => Ok None
  | Some d =>
      match Date.toISOString B d with
      | Ok s => Ok (Some s)
      | Throw e => Throw e
      | Untyped => Untyped
      end
  end.

Definition toJSON (e : t) : outcome JSON.t :=
  (st <- optISO (_startTime e) ;;
   en <- optISO (_endTime e) ;;
   Ok {| JSON.title := _title e;
         JSON.questions := map Question.toJSON (_questions e);
         JSON.timeLimit := _timeLimit e;
         JSON.startTime := st;
         JSON.endTime := en |})%js.

(** [if (data.startTime) exam._startTime = new Date(data.startTime)]:
    a string is truthy unless it is empty. *)
Definition optDate (s : option string) : option Date.t :=
  match s with
  | Some s => if String.eqb s "" then None else Some (Date.parse B s)
  | None => None
  end.

Definition fromJSON (data : JSON.t) : outcome t :=
  (questions <- mapM Question.fromJSON (JSON.questions data) ;;
   let exam := new (JSON.title data) questions (JSON.timeLimit data) in
   Ok {| _questions := _questions exam; _title := _title exam;
         _timeLimit := _timeLimit exam;
         _startTime := optDate (JSON.startTime data);
         _endTime := optDate (JSON.endTime data) |})%js.
End Serialization.

(** What the public methods maintain: every question satisfies its
    invariant and the stamps are valid dates. *)
Definition validStamp (d : option Date.t) : Prop :=
  match d with
  | Some (Date.Valid ms) => Date.inRange ms
  | Some Date.Invalid => False
  | None => True
  end.

Definition wf (e : t) : Prop :=
  Forall Question.wf (_questions e)
  /\ validStamp (_startTime e) /\ validStamp (_endTime e).

End Exam.

(* ===================================================================== *)
(** ** models/ExamResult.ts *)
(* ===================================================================== *)

Module ExamResult.

Record t := mk {
  _exam : Exam.t;
  _score : Z;
  _percentage : Num.double;
  _grade : string;
  _correctCount : Z;
  _incorrectCount : Z;
  _completionTime : Num.double
}.

Definition calculateCorrectCount (exam : Exam.t) : Z :=
  Z.of_nat (List.length (filter Question.isCorrect (Exam.questions exam))).

(** [calculateGrade()], as a function of [this._percentage]. *)
Definition calculateGrade (percentage : Num.double) : string :=
  if Num.geb percentage (Num.of_Z 90) then "A"
  else if Num.geb percentage (Num.of_Z 80) then "B"
  else if Num.geb percentage (Num.of_Z 70) then "C"
  else if Num.geb percentage (Num.of_Z 60) then "D"
  else "F".

(** [constructor(exam)].  No statement of it throws; [now] is read only
    when the exam has a start but no end stamp. *)
Definition new (now : Z) (exam : Exam.t) : outcome t :=
  let correctCount := calculateCorrectCount exam in
  let incorrectCount := Z.of_nat (Exam.totalQuestions exam) - correctCount in
  let score := correctCount in
  let percentage :=
    Num.mul (Num.div (Num.of_Z correctCount)
                     (Num.of_nat (Exam.totalQuestions exam)))
            (Num.of_Z 100) in
  let grade := calculateGrade percentage in
  let completionTime := Exam.getElapsedTime now exam in
  Ok {| _exam := exam; _score := score; _percentage := percentage;
        _grade := grade; _correctCount := correctCount;
        _incorrectCount := incorrectCount;
        _completionTime := completionTime |}.

Definition exam (r : t) : Exam.t := _exam r.
Definition score (r : t) : Z := _score r.
Definition percentage (r : t) : Num.double := _percentage r.
Definition grade (r : t) : string := _grade r.
Definition correctCount (r : t) : Z := _correctCount r.
Definition incorrectCount (r : t) : Z := _incorrectCount r.
Definition completionTime (r : t) : Num.double := _completionTime r.

(** [isPassing(passingScore = 60)] *)
Definition isPassing (passingScore : option Num.double) (r : t) : bool :=
  Num.geb (_percentage r)
          (match passingScore with Some p => p | None => Num.of_Z 60 end).

Definition getIncorrectQuestions (r : t) : list Question.t :=
  filter (fun q => negb (Question.isCorrect q)) (Exam.questions (_exam r)).

Definition getCorrectQuestions (r : t) : list Question.t :=
  filter Question.isCorrect (Exam.questions (_exam r)).


(** [getGradeColor()] and [getGradeBorder()]: a [switch] on the grade. *)
Definition getGradeColor (r : t) : string :=
  if String.eqb (_grade r) "A" then "text-[#00ff88]"
  else if String.eqb (_grade r) "B" then "text-[#00d9ff]"
  else if String.eqb (_grade r) "C" then "text-[#ffbd2e]"
  else if String.eqb (_grade r) "D" then "text-[#ff9f43]"
  else "text-[#ff6b6b]".

Definition getGradeBorder (r : t) : string :=
  if String.eqb (_grade r) "A" then "border-[#00ff88]"
  else if String.eqb (_grade r) "B" then "border-[#00d9ff]"
  else if String.eqb (_grade r) "C" then "border-[#ffbd2e]"
  else if String.eqb (_grade r) "D" then "border-[#ff9f43]"
  else "border-[#ff6b6b]".

Module JSON.
Record t := mk {
  score : Z;
  percentage : Num.double;
  grade : string;
  correctCount : Z;
  incorrectCount : Z;
  completionTime : Num.double;
  isPassing : bool
}.
End JSON.

Definition toJSON (r : t) : JSON.t :=
  {| JSON.score := _score r;
     JSON.percentage := _percentage r;
     JSON.grade := _grade r;
     JSON.correctCount := _correctCount r;
     JSON.incorrectCount := _incorrectCount r;
     JSON.completionTime := _completionTime r;
     JSON.isPassing := isPassing None r |}.

End ExamResult.

(* ===================================================================== *)
(** ** String built-ins used by the response parser *)
(* ===================================================================== *)

Module Str.

Definition LF : ascii := ascii_of_nat 10.
Definition quote : ascii := ascii_of_nat 34.
Definition backslash : ascii := ascii_of_nat 92.

(** White space of [trim] and of the regular expression class [\s],
    on ASCII: TAB, LF, VT, FF, CR and the space. *)
Definition is_space (c : ascii) : bool :=
  let n := nat_of_ascii c in
  ((9 <=? n)%nat && (n <=? 13)%nat) || (n =? 32)%nat.

Fixpoint trimStart (s : string) : string :=
  match s with
  | EmptyString => EmptyString
  | String c s' => if is_space c then trimStart s' else s
  end.

Fixpoint trimEnd (s : string) : string :=
  match s with
  | EmptyString => EmptyString
  | String c s' =>
      match trimEnd s' with
      | EmptyString => if is_space c then EmptyString else String c EmptyString
      | kept => String c kept
      end
  end.

Definition trim (s : string) : string := trimEnd (trimStart s).

Definition startsWith (s prefix : string) : bool := String.prefix prefix s.

Fixpoint drop (n : nat) (s : string) : string :=
  match n, s with
  | O, _ => s
  | S n', String _ s' => drop n' s'
  | S _, EmptyString => EmptyString
  end.

Fixpoint take (n : nat) (s : string) : string :=
  match n, s with
  | S n', String c s' => String c (take n' s')
  | _, _ => EmptyString
  end.

(** The optional line feed after a fence in [/```\n?/]. *)
Definition dropLF (s : string) : string :=
  match s with
  | String c s' => if Ascii.eqb c LF then s' else s
  | EmptyString => s
  end.

(** [s.replace(/fence\n?/g, '')] for a literal, non-empty [fence]:
    matches are taken left to right and do not overlap.  Each step
    consumes a character, so [length s] steps are enough. *)
Fixpoint removeFences_steps (steps : nat) (fence s : string) : string :=
  match steps with
  | O => s
  | S steps' =>
      match s with
      | EmptyString => EmptyString
      | String c s' =>
          if String.prefix fence s
          then removeFences_steps steps' fence
                 (dropLF (drop (String.length fence) s))
          else String c (removeFences_steps steps' fence s')
      end
  end.

Definition removeFences (fence s : string) : string :=
  removeFences_steps (String.length s) fence s.

(** [s] begins with [\s*] followed by [d]: the number of characters up
    to and including [d]. *)
Fixpoint spacesThen (d : ascii) (s : string) : option nat :=
  match s with
  | EmptyString => None
  | String c s' =>
      if Ascii.eqb c d then Some 1%nat
      else if is_space c then option_map S (spacesThen d s')
      else None
  end.

(** The longest prefix of [body] that ends in [\}\s*\]]: its length. *)
Fixpoint closeLen (body : string) : option nat :=
  match body with
  | EmptyString => None
  | String c rest =>
      match closeLen rest with
      | Some n => Some (S n)
      | None =>
          if Ascii.eqb c "}"
          then option_map S (spacesThen "]" rest)
          else None
      end
  end.

(** A match of [/\[\s*\{[\s\S]*\}\s*\]/] that starts at the head of
    [s]: its length.  Both stars are greedy. *)
Definition matchHere (s : string) : option nat :=
  match s with
  | String c s' =>
      if Ascii.eqb c "["
      then match spacesThen "{" s' with
           | Some k =>
               match closeLen (drop k s') with
               | Some n => Some (1 + k + n)%nat
               | None => None
               end
           | None => None
           end
      else None
  | EmptyString => None
  end.

(** [s.match(/\[\s*\{[\s\S]*\}\s*\]/)]: the leftmost match. *)
Fixpoint arrayMatch (s : string) : option string :=
  match matchHere s with
  | Some n => Some (take n s)
  | None =>
      match s with
      | String _ s' => arrayMatch s'
      | EmptyString => None
      end
  end.

(** A string is modelled by its bytes.  On characters below 128 (ASCII)
    a byte is a code unit, and [toUpperCase], [toLowerCase] and
    [charCodeAt] below are those of JavaScript; a statement that reads
    the case or the code of a character says that the character is one
    of these. *)
Definition upper (c : ascii) : ascii :=
  let n := nat_of_ascii c in
  if (97 <=? n)%nat && (n <=? 122)%nat then ascii_of_nat (n - 32) else c.

(** [s.toUpperCase()] *)
Fixpoint toUpperCase (s : string) : string :=
  match s with
  | EmptyString => EmptyString
  | String c s' => String (upper c) (toUpperCase s')
  end.

(** [s.charAt(0)] *)
Definition charAt0 (s : string) : string :=
  match s with
  | String c _ => String c EmptyString
  | EmptyString => EmptyString
  end.

(** [s.charCodeAt(0)]: NaN on the empty string; the code unit of an
    ASCII character is its byte. *)
Definition charCodeAt0 (s : string) : index :=
  match s with
  | String c _ => Int (Z.of_nat (nat_of_ascii c))
  | EmptyString => NaN
  end.

Fixpoint occurs (c : ascii) (s : string) : bool :=
  match s with
  | EmptyString => false
  | String d s' => Ascii.eqb c d || occurs c s'
  end.

(** [t] occurs in [s] as a substring. *)
Fixpoint includes (s t : string) : bool :=
  String.prefix t s
  || match s with
     | String _ s' => includes s' t
     | EmptyString => false
     end.

Definition lower (c : ascii) : ascii :=
  let n := nat_of_ascii c in
  if (65 <=? n)%nat && (n <=? 90)%nat then ascii_of_nat (n + 32) else c.

Fixpoint toLowerCase (s : string) : string :=
  match s with
  | EmptyString => EmptyString
  | String c s' => String (lower c) (toLowerCase s')
  end.

(** [s.split(sep).pop()] for a one-character separator: what follows the
    last separator, the whole of [s] when it holds none. *)
Fixpoint lastSegment (sep : ascii) (s : string) : string :=
  match s with
  | EmptyString => EmptyString
  | String c s' =>
      if occurs sep s' then lastSegment sep s'
      else if Ascii.eqb c sep then s'
      else s
  end.

End Str.

(* ===================================================================== *)
(** ** JSON values *)
(* ===================================================================== *)

Module JSON.

(** What [JSON.parse] can return.  A number is kept as the decimal it
    was written as, [m] times ten to the [e]. *)
#[local] Set Warnings "-register-all".
Inductive value :=
| Null
| Bool (b : bool)
| Number (m e : Z)
| Str (s : string)
| Array (items : list value)
| Object (fields : list (string * value)).

(** [JSON.parse(text)] returns a value or throws a [SyntaxError]. *)
Inductive parsed :=
| Parsed (v : value)
| Rejected (message : string).

(** A repeated key keeps its last value. *)
Fixpoint lookup (key : string) (fields : list (string * value))
  : option value :=
  match fields with
  | [] => None
  | (k, v) :: rest =>
      match lookup key rest with
      | Some v' => Some v'
      | None => if String.eqb k key then Some v else None
      end
  end.

(** [item.key] for a key that no prototype defines; [None] is
    [undefined].  Reading a property of [null] throws. *)
Definition getProp (item : value) (key : string) : outcome (option value) :=
  match item with
  | Null =>
      Throw (TypeError ("Cannot read properties of null (reading '"
                          ++ key ++ "')"))
  | Object fields => Ok (lookup key fields)
  | _ => Ok None
  end.

(** [v.toUpperCase()] where [v] is what an [any] property held. *)
Definition call_toUpperCase (key : string) (v : option value)
  : outcome string :=
  match v with
  | Some (Str s) => Ok (Str.toUpperCase s)
  | None =>
      Throw (TypeError ("Cannot read properties of undefined (reading "
                          ++ "'toUpperCase')"))
  | Some Null =>
      Throw (TypeError ("Cannot read properties of null (reading "
                          ++ "'toUpperCase')"))
  | Some _ =>
      Throw (TypeError ("item." ++ key ++ ".toUpperCase is not a function"))
  end.

Definition truthy (v : option value) : bool :=
  match v with
  | None | Some Null | Some (Bool false) => false
  | Some (Number m _) => negb (m =? 0)
  | Some (Str s) => negb (String.eqb s EmptyString)
  | Some _ => true
  end.

(** [v || ''] flowing into a parameter declared [string]. *)
Definition orEmpty_string (v : option value) : outcome string :=
  if truthy v
  then match v with
       | Some (Str s) => Ok s
       | _ => Untyped
       end
  else Ok EmptyString.

(** A value flowing into a parameter declared [string[]]. *)
Definition as_strings (v : option value) : outcome (list string) :=
  match v with
  | Some (Array items) =>
      mapM (fun x => match x with Str s => Ok s | _ => Untyped end) items
  | _ => Untyped
  end.

End JSON.

(* ===================================================================== *)
(** ** A reference [JSON.parse] *)
(* ===================================================================== *)

(** The parser of the platform is a parameter of the response parser
    below.  This recursive-descent reader of the JSON grammar stands in
    for it wherever a concrete text has to be read; its messages follow
    the wording of V8.  The recursion is bounded by a step count of twice
    the length of the text plus two, more than the calls any text can
    cause. *)
Module JSONRef.

Import JSON.

Inductive res (A : Type) :=
| Done (a : A) (rest : string)
| Fail (rest : string).          (* the input left at the offending token *)
Arguments Done {A} a rest.
Arguments Fail {A} rest.

Definition is_ws (c : ascii) : bool :=
  let n := nat_of_ascii c in
  (n =? 32)%nat || (n =? 9)%nat || (n =? 10)%nat || (n =? 13)%nat.

Fixpoint skip_ws (s : string) : string :=
  match s with
  | String c s' => if is_ws c then skip_ws s' else s
  | EmptyString => s
  end.

Fixpoint expect (word s : string) : res unit :=
  match word, s with
  | EmptyString, _ => Done tt s
  | String a w, String b r => if Ascii.eqb a b then expect w r else Fail s
  | String _ _, EmptyString => Fail s
  end.

Definition literal (word : string) (v : value) (s : string) : res value :=
  match expect word s with
  | Done _ rest => Done v rest
  | Fail rest => Fail rest
  end.

Definition digit (c : ascii) : option Z :=
  let n := nat_of_ascii c in
  if (48 <=? n)%nat && (n <=? 57)%nat then Some (Z.of_nat (n - 48)) else None.

Definition hex (c : ascii) : option nat :=
  let n := nat_of_ascii c in
  if (48 <=? n)%nat && (n <=? 57)%nat then Some (n - 48)%nat
  else if (97 <=? n)%nat && (n <=? 102)%nat then Some (n - 87)%nat
  else if (65 <=? n)%nat && (n <=? 70)%nat then Some (n - 55)%nat
  else None.

(** The UTF-8 bytes of a code unit below 2^16. *)
Definition utf8 (n : nat) (tail : string) : string :=
  if (n <? 128)%nat then String (ascii_of_nat n) tail
  else if (n <? 2048)%nat then
    String (ascii_of_nat (192 + n / 64))
      (String (ascii_of_nat (128 + n mod 64)) tail)
  else
    String (ascii_of_nat (224 + n / 4096))
      (String (ascii_of_nat (128 + (n / 64) mod 64))
         (String (ascii_of_nat (128 + n mod 64)) tail)).

Definition escape (c : ascii) : option ascii :=
  let n := nat_of_ascii c in
  if (n =? 34)%nat then Some c            (* quote *)
  else if (n =? 92)%nat then Some c       (* backslash *)
  else if (n =? 47)%nat then Some c       (* slash *)
  else if (n =? 98)%nat then Some (ascii_of_nat 8)
  else if (n =? 102)%nat then Some (ascii_of_nat 12)
  else if (n =? 110)%nat then Some (ascii_of_nat 10)
  else if (n =? 114)%nat then Some (ascii_of_nat 13)
  else if (n =? 116)%nat then Some (ascii_of_nat 9)
  else None.

(** The characters of a string literal, after its opening quote. *)
Fixpoint string_body (s : string) : res string :=
  match s with
  | EmptyString => Fail s
  | String c r =>
      if Ascii.eqb c Str.quote then Done EmptyString r
      else if Ascii.eqb c Str.backslash then
        match r with
        | EmptyString => Fail r
        | String e r1 =>
            match escape e with
            | Some x =>
                match string_body r1 with
                | Done t rest => Done (String x t) rest
                | Fail rest => Fail rest
                end
            | None =>
                if Ascii.eqb e "u" then
                  match r1 with
                  | String h1 (String h2 (String h3 (String h4 r5))) =>
                      match hex h1, hex h2, hex h3, hex h4 with
                      | Some a, Some b, Some c', Some d =>
                          match string_body r5 with
                          | Done t rest =>
                              Done (utf8 (((a * 16 + b) * 16 + c') * 16 + d) t)
                                   rest
                          | Fail rest => Fail rest
                          end
                      | _, _, _, _ => Fail r1
                      end
                  | _ => Fail r1
                  end
                else Fail r
            end
        end
      else if (nat_of_ascii c <? 32)%nat then Fail s
      else match string_body r with
           | Done t rest => Done (String c t) rest
           | Fail rest => Fail rest
           end
  end.

(** A run of digits: its value after [acc], how many there were, and
    what follows. *)
Fixpoint digits (s : string) (acc : Z) (count : nat) : Z * nat * string :=
  match s with
  | String c r =>
      match digit c with
      | Some d => digits r (acc * 10 + d) (S count)
      | None => (acc, count, s)
      end
  | EmptyString => (acc, count, s)
  end.

Definition exponent (s : string) : res Z :=
  match s with
  | String c r =>
      if Ascii.eqb c "e" || Ascii.eqb c "E" then
        let '(neg, r1) :=
          match r with
          | String sg r' =>
              if Ascii.eqb sg "-" then (true, r')
              else if Ascii.eqb sg "+" then (false, r')
              else (false, r)
          | EmptyString => (false, r)
          end in
        match digits r1 0 0 with
        | (_, O, rest) => Fail rest
        | (x, _, rest) => Done (if neg then - x else x) rest
        end
      else Done 0 s
  | EmptyString => Done 0 s
  end.

Definition fraction (int : Z) (s : string) : res (Z * Z) :=
  match s with
  | String c r =>
      if Ascii.eqb c "." then
        match digits r int 0 with
        | (_, O, rest) => Fail rest
        | (m, n, rest) => Done (m, - Z.of_nat n) rest
        end
      else Done (int, 0) s
  | EmptyString => Done (int, 0) s
  end.

Definition number (s : string) : res value :=
  let '(neg, s1) :=
    match s with
    | String c r => if Ascii.eqb c "-" then (true, r) else (false, s)
    | EmptyString => (false, s)
    end in
  let int : res Z :=
    match s1 with
    | String c r =>
        if Ascii.eqb c "0" then Done 0 r
        else match digits s1 0 0 with
             | (_, O, rest) => Fail rest
             | (x, _, rest) => Done x rest
             end
    | EmptyString => Fail s1
    end in
  match int with
  | Fail rest => Fail rest
  | Done i rest =>
      match fraction i rest with
      | Fail rest' => Fail rest'
      | Done (m, e) rest' =>
          match exponent rest' with
          | Fail rest'' => Fail rest''
          | Done x rest'' =>
              Done (Number (if neg then - m else m) (e + x)) rest''
          end
      end
  end.

Fixpoint value_ (fuel : nat) (s : string) {struct fuel} : res value :=
  match fuel with
  | O => Fail s
  | S fuel' =>
      match skip_ws s with
      | EmptyString => Fail EmptyString
      | String c r as s1 =>
          if Ascii.eqb c Str.quote then
            match string_body r with
            | Done t rest => Done (Str t) rest
            | Fail rest => Fail rest
            end
          else if Ascii.eqb c "[" then
            match skip_ws r with
            | String d r' as r1 =>
                if Ascii.eqb d "]" then Done (Array []) r'
                else match elements fuel' r1 with
                     | Done l rest => Done (Array l) rest
                     | Fail rest => Fail rest
                     end
            | EmptyString => Fail EmptyString
            end
          else if Ascii.eqb c "{" then
            match skip_ws r with
            | String d r' as r1 =>
                if Ascii.eqb d "}" then Done (Object []) r'
                else match members fuel' r1 with
                     | Done l rest => Done (Object l) rest
                     | Fail rest => Fail rest
                     end
            | EmptyString => Fail EmptyString
            end
          else if Ascii.eqb c "n" then literal "null" Null s1
          else if Ascii.eqb c "t" then literal "true" (Bool true) s1
          else if Ascii.eqb c "f" then literal "false" (Bool false) s1
          else if Ascii.eqb c "-"
                  || match digit c with Some _ => true | None => false end
          then number s1
          else Fail s1
      end
  end

(** One or more values separated by commas, up to the closing bracket. *)
with elements (fuel : nat) (s : string) {struct fuel} : res (list value) :=
  match fuel with
  | O => Fail s
  | S fuel' =>
      match value_ fuel' s with
      | Fail rest => Fail rest
      | Done v rest =>
          match skip_ws rest with
          | String c r as r1 =>
              if Ascii.eqb c "]" then Done [v] r
              else if Ascii.eqb c "," then
                match elements fuel' r with
                | Done l rest' => Done (v :: l) rest'
                | Fail rest' => Fail rest'
                end
              else Fail r1
          | EmptyString => Fail EmptyString
          end
      end
  end

(** One or more [key : value] pairs, up to the closing brace. *)
with members (fuel : nat) (s : string) {struct fuel}
  : res (list (string * value)) :=
  match fuel with
  | O => Fail s
  | S fuel' =>
      match skip_ws s with
      | String q r as s1 =>
          if Ascii.eqb q Str.quote then
            match string_body r with
            | Fail rest => Fail rest
            | Done k rest =>
                match skip_ws rest with
                | String c r2 as r1 =>
                    if Ascii.eqb c ":" then
                      match value_ fuel' r2 with
                      | Fail rest' => Fail rest'
                      | Done v rest' =>
                          match skip_ws rest' with
                          | String d r4 as r3 =>
                              if Ascii.eqb d "}" then Done [(k, v)] r4
                              else if Ascii.eqb d "," then
                                match members fuel' r4 with
                                | Done l rest'' => Done ((k, v) :: l) rest''
                                | Fail rest'' => Fail rest''
                                end
                              else Fail r3
                          | EmptyString => Fail EmptyString
                          end
                      end
                    else Fail r1
                | EmptyString => Fail EmptyString
                end
            end
          else Fail s1
      | EmptyString => Fail EmptyString
      end
  end.

(** The reader with the wording of its rejections left open.  ECMA-262
    fixes when [JSON.parse] throws its [SyntaxError], not what the
    message says: [wording text rest] is the message for [text] when the
    reading stops with [rest] left. *)
Definition parseWith (wording : string -> string -> string) (text : string)
  : parsed :=
  match value_ (2 * String.length text + 2) text with
  | Fail rest => Rejected (wording text rest)
  | Done v rest =>
      match skip_ws rest with
      | EmptyString => Parsed v
      | rest' => Rejected (wording text rest')
      end
  end.

(** One wording, that of V8 before its version 10.2 (Node.js up to 18):
    the offending character and its position.  Later versions of V8
    quote the text around the character instead, other engines word it
    differently again; what is proved of the parser is proved for every
    [JSON.parse], and only the instances are run with this one. *)
Definition message (text rest : string) : string :=
  match rest with
  | EmptyString => "Unexpected end of JSON input"
  | String c _ =>
      "Unexpected token " ++ String c EmptyString ++ " in JSON at position "
        ++ string_of_Z (Z.of_nat (String.length text - String.length rest))
  end.

Definition parse : string -> parsed := parseWith message.

End JSONRef.

(* ===================================================================== *)
(** ** services/AIService.ts: the response parser *)
(* ===================================================================== *)

Module GeminiAIService.

(** A line written by [console.error]. *)
Inductive logged :=
| LogError (label : string) (message : string)
| LogText (label : string) (text : string).

(** The fence of a markdown code block. *)
Definition fence : string := "```".
Definition fence_json : string := "```json".

(** The first statements of [parseQuestionsFromResponse]: trim, remove
    the fences when the text starts with one, trim again. *)
Definition cleanResponse (responseText : string) : string :=
  let jsonText := Str.trim responseText in
  let jsonText :=
    if Str.startsWith jsonText fence_json
    then Str.removeFences fence (Str.removeFences fence_json jsonText)
    else if Str.startsWith jsonText fence
    then Str.removeFences fence jsonText
    else jsonText in
  Str.trim jsonText.

Definition invalidJSON (parseErrorMessage : string) : exn :=
  Error ("Invalid JSON response from AI. Please try again. Error: "
           ++ parseErrorMessage).

Definition notAnArray : exn :=
  Error "Invalid response format: expected array of questions".

(** The callback of [data.map]. *)
Definition toQuestion (index : nat) (item : JSON.value)
  : outcome Question.t :=
  (correctAnswer <- JSON.getProp item "correctAnswer" ;;
   upper <- JSON.call_toUpperCase "correctAnswer" correctAnswer ;;
   let correctAnswerLetter := Str.charAt0 upper in
   let correctIndex := index_sub (Str.charCodeAt0 correctAnswerLetter) 65 in
   question <- JSON.getProp item "question" ;;
   questionText <- JSON.orEmpty_string question ;;
   options <- JSON.getProp item "options" ;;
   options <- JSON.as_strings options ;;
   Ok (Question.new (Z.of_nat index + 1) questionText options
                    correctIndex None))%js.

(** [data.map((item, index) => ...)], from position [index] on. *)
Fixpoint mapFrom (index : nat) (data : list JSON.value)
  : outcome (list Question.t) :=
  match data with
  | [] => Ok []
  | item :: rest =>
      (q <- toQuestion index item ;;
       qs <- mapFrom (S index) rest ;;
       Ok (q :: qs))%js
  end.

Section Parser.
(** [JSON.parse] of the platform. *)
Variable JSON_parse : string -> JSON.parsed.

(** The [try]/[catch] around [JSON.parse]: what the console received
    and the data, or the error thrown. *)
Definition parseData (responseText jsonText : string)
  : list logged * outcome JSON.value :=
  match JSON_parse jsonText with
  | JSON.Parsed data => ([], Ok data)
  | JSON.Rejected parseError =>
      ([LogError "JSON Parse Error:" parseError;
        LogText "Raw Response:" responseText;
        LogText "Cleaned JSON Text:" jsonText],
       match Str.arrayMatch jsonText with
       | Some arrayMatch0 =>
           match JSON_parse arrayMatch0 with
           | JSON.Parsed data => Ok data
           | JSON.Rejected _ => Throw (invalidJSON parseError)
           end
       | None => Throw (invalidJSON parseError)
       end)
  end.

Definition parseQuestionsFromResponse (responseText : string)
  : list logged * outcome (list Question.t) :=
  let jsonText := cleanResponse responseText in
  let (log, data) := parseData responseText jsonText in
  (log,
   (data <- data ;;
    match data with
    | JSON.Array items => mapFrom 0 items
    | _ => Throw notAnArray
    end)%js).
End Parser.


(** What [getMimeType] reads of a [File]. *)
Record File := {
  name : string;
  type : string
}.

Definition validMimeTypes : list string :=
  ["image/png"; "image/jpeg"; "image/jpg"; "image/gif"; "image/webp";
   "application/pdf"].

(** [array.includes(x)] on strings. *)
Definition includes (l : list string) (x : string) : bool :=
  existsb (String.eqb x) l.

(** [getMimeType(file)] *)
Definition getMimeType (file : File) : string :=
  if includes validMimeTypes (type file) then type file
  else
    let extension := Str.toLowerCase (Str.lastSegment "." (name file)) in
    if String.eqb extension "pdf" then "application/pdf"
    else if includes ["jpg"; "jpeg"] extension then "image/jpeg"
    else if String.eqb extension "png" then "image/png"
    else if String.eqb extension "gif" then "image/gif"
    else "image/png".

(** The texts of the two [catch] blocks, line by line. *)
Definition lines (l : list string) : string :=
  String.concat (String Str.LF EmptyString) l.

Definition bullet : string :=
  String (ascii_of_nat 226)
    (String (ascii_of_nat 128) (String (ascii_of_nat 162) EmptyString)).

Definition rateLimit_analyze : string :=
  lines
    ["API Rate Limit Exceeded";
     "";
     "You have made too many requests to the Gemini API. "
       ++ "This can happen because:";
     bullet ++ " You are using the free tier with limited quota";
     bullet ++ " Multiple requests were made too quickly";
     "";
     "Solutions:";
     "1. Wait a few minutes and try again";
     "2. Use a different API key";
     "3. Upgrade to a paid plan for higher limits";
     "4. Try a smaller document or fewer questions";
     "";
     "Learn more: https://ai.google.dev/pricing"].

Definition rateLimit_generate : string :=
  lines
    ["API Rate Limit Exceeded";
     "";
     "You have made too many requests to the Gemini API.";
     "";
     "Solutions:";
     "1. Wait a few minutes and try again";
     "2. Use a different API key";
     "3. Reduce the number of questions to generate";
     "4. Upgrade to a paid plan for higher limits";
     "";
     "Learn more: https://ai.google.dev/pricing"].

Definition invalidKey : string :=
  lines
    ["Invalid API Key";
     "";
     "Please check your Gemini API key and make sure it is valid.";
     "Get your API key at: https://makersuite.google.com/app/apikey"].

(** The body of a [catch (error)] block: the message decides what is
    thrown instead. *)
Definition translate (rateLimit prefix : string) (error : exn) : exn :=
  if Str.includes (message_of error) "429" then Error rateLimit
  else if Str.includes (message_of error) "API key" then Error invalidKey
  else Error (prefix ++ message_of error).

Section Calls.
Variable JSON_parse : string -> JSON.parsed.

(** The [try]/[catch] of a call, given how the statements before the
    parsing ended: with the text of the model's response, or with an
    [Error] thrown by the model's client.  (The file reader rejects with
    an event, which is not an [Error]: that case is left to [Untyped].) *)
Definition guarded (label rateLimit prefix : string)
    (response : outcome string) : list logged * outcome (list Question.t) :=
  match response with
  | Ok responseText =>
      match parseQuestionsFromResponse JSON_parse responseText with
      | (log, Ok questions) => (log, Ok questions)
      | (log, Throw error) =>
          ((log ++ [LogError label (message_of error)])%list,
           Throw (translate rateLimit prefix error))
      | (log, Untyped) => (log, Untyped)
      end
  | Throw error =>
      ([LogError label (message_of error)],
       Throw (translate rateLimit prefix error))
  | Untyped => ([], Untyped)
  end.

(** [analyzeDocument(file)] *)
Definition analyzeDocument (response : outcome string)
  : list logged * outcome (list Question.t) :=
  guarded "Error analyzing document:" rateLimit_analyze
    "Failed to analyze document: " response.

(** [generateQuestions(topic, count, difficulty)] *)
Definition generateQuestions (response : outcome string)
  : list logged * outcome (list Question.t) :=
  guarded "Error generating questions:" rateLimit_generate
    "Failed to generate questions: " response.
End Calls.

End GeminiAIService.

(* ===================================================================== *)
(** ** services/ExamService.ts *)
(* ===================================================================== *)

Module ExamService.

(** The one piece of session state.  The injected AI service enters
    only through what its calls returned. *)
Record t := mk { currentExam : option Exam.t }.

Definition noQuestionsFound : exn := Error "No questions found in the document".
Definition noExamToComplete : exn := Error "No exam to complete".
Definition notAllAnswered : exn := Error "Not all questions have been answered".
Definition noExamInProgress : exn := Error "No exam in progress".

(** [createExamFromFile(file, title)]; [analysis] is how
    [await this.aiService.analyzeDocument(file)] ended. *)
Definition createExamFromFile (analysis : outcome (list Question.t))
    (now : Z) (title : string) (s : t) : outcome Exam.t * t :=
  match analysis with
  | Throw e => (Throw e, s)
  | Untyped => (Untyped, s)
  | Ok questions =>
      if (List.length questions =? 0)%nat
      then (Throw noQuestionsFound, s)
      else let exam := Exam.start now (Exam.new title questions None) in
           (Ok exam, {| currentExam := Some exam |})
  end.

Definition getCurrentExam (s : t) : option Exam.t := currentExam s.

Definition submitAnswer (questionId answerIndex : Z) (s : t)
  : outcome unit * t :=
  match currentExam s with
  | None => (Throw noExamInProgress, s)
  | Some exam =>
      let (r, exam') := Exam.answerQuestion questionId answerIndex exam in
      (r, {| currentExam := Some exam' |})
  end.

(** [completeExam()]; [now] is the clock reading [end()] takes. *)
Definition completeExam (now : Z) (s : t) : outcome ExamResult.t * t :=
  match currentExam s with
  | None => (Throw noExamToComplete, s)
  | Some exam =>
      if negb (Exam.canSubmit exam)
      then (Throw notAllAnswered, s)
      else let exam' := Exam.end_ now exam in
           (ExamResult.new now exam', {| currentExam := Some exam' |})
  end.

Record Progress := {
  answered : Z;
  total : Z;
  percentage : Num.double
}.

Definition getProgress (s : t) : Progress :=
  match currentExam s with
  | None => {| answered := 0; total := 0; percentage := Num.of_Z 0 |}
  | Some exam =>
      {| answered := Z.of_nat (Exam.getAnsweredCount exam);
         total := Z.of_nat (Exam.totalQuestions exam);
         percentage := Exam.getProgressPercentage exam |}
  end.

Definition resetExam (s : t) : t := {| currentExam := None |}.


Definition failedToGenerate : exn := Error "Failed to generate questions".
Definition noExamLoaded : exn := Error "No exam loaded".

(** [createExamFromTopic(topic, questionCount, difficulty, title?)];
    [generation] is how [await this.aiService.generateQuestions(...)]
    ended.  An absent and an empty title are both falsy. *)
Definition createExamFromTopic (generation : outcome (list Question.t))
    (now : Z) (topic : string) (title : option string) (s : t)
  : outcome Exam.t * t :=
  match generation with
  | Throw e => (Throw e, s)
  | Untyped => (Untyped, s)
  | Ok questions =>
      if (List.length questions =? 0)%nat
      then (Throw failedToGenerate, s)
      else
        let title' :=
          match title with
          | Some t => if String.eqb t EmptyString then topic ++ " - Exam" else t
          | None => topic ++ " - Exam"
          end in
        let exam := Exam.start now (Exam.new title' questions None) in
        (Ok exam, {| currentExam := Some exam |})
  end.

(** [startExam()] *)
Definition startExam (now : Z) (s : t) : outcome unit * t :=
  match currentExam s with
  | None => (Throw noExamLoaded, s)
  | Some exam => (Ok tt, {| currentExam := Some (Exam.start now exam) |})
  end.

End ExamService.

(* ===================================================================== *)
(** ** components/Exam.tsx and App.tsx: the handlers *)
(* ===================================================================== *)

Module ExamView.

(** The state of the component is the position of the question shown. *)
Definition handleNext (exam : Exam.t) (currentQuestionIndex : Z) : Z :=
  if currentQuestionIndex <? Z.of_nat (List.length (Exam.questions exam)) - 1
  then currentQuestionIndex + 1
  else currentQuestionIndex.

Definition handleBack (currentQuestionIndex : Z) : Z :=
  if 0 <? currentQuestionIndex
  then currentQuestionIndex - 1
  else currentQuestionIndex.

(** [questions[currentQuestionIndex]] *)
Definition currentQuestion (exam : Exam.t) (currentQuestionIndex : Z)
  : option Question.t :=
  array_get (Exam.questions exam) (Int currentQuestionIndex).

(** [currentQuestion.userAnswer], read on every render. *)
Definition selectedOption (exam : Exam.t) (currentQuestionIndex : Z)
  : outcome (option Z) :=
  match currentQuestion exam currentQuestionIndex with
  | Some q => Ok (Question.userAnswer q)
  | None =>
      Throw (TypeError ("Cannot read properties of undefined (reading "
                          ++ "'userAnswer')"))
  end.

(** [handleOptionChange(optionIndex)]:
    [exam.answerQuestion(currentQuestion.id, optionIndex)]. *)
Definition handleOptionChange (optionIndex : Z) (currentQuestionIndex : Z)
    (exam : Exam.t) : outcome unit * Exam.t :=
  match currentQuestion exam currentQuestionIndex with
  | Some q => Exam.answerQuestion (Question.id q) optionIndex exam
  | None =>
      (Throw (TypeError ("Cannot read properties of undefined (reading "
                           ++ "'id')")), exam)
  end.

(** [handleSubmit()]: whether [onSubmit()] is called; [confirmed] is what
    [window.confirm] answers when it is asked. *)
Definition handleSubmit (confirmed : bool) (exam : Exam.t) : bool :=
  let unansweredCount :=
    Z.of_nat (Exam.totalQuestions exam)
    - Z.of_nat (Exam.getAnsweredCount exam) in
  if 0 <? unansweredCount then confirmed else true.

End ExamView.

Module App.

(** [handleExamSubmit()], the [onSubmit] of the exam view: the exam is
    ended where it stands and the results view is shown. *)
Definition handleExamSubmit (now : Z) (currentExam : option Exam.t)
  : option Exam.t :=
  match currentExam with
  | Some exam => Some (Exam.end_ now exam)
  | None => None
  end.

(** The first statement of the results view: [new ExamResult(exam)]. *)
Definition results (now : Z) (exam : Exam.t) : outcome ExamResult.t :=
  ExamResult.new now exam.

End App.

(* ===================================================================== *)
(** ** Vocabulary of the statements *)
(* ===================================================================== *)

Module Shape.

(** The index the parser computes from the text of [correctAnswer]. *)
Definition letterIndex (correctAnswer : string) : index :=
  index_sub (Str.charCodeAt0 (Str.charAt0 (Str.toUpperCase correctAnswer))) 65.

(** An element of the response as the prompt asks for it: [correctAnswer]
    is a string, [options] an array of strings, [question] a string or
    something falsy ([text] is then empty).  Other properties, an [id]
    for one, may be present. *)
Record element (item : JSON.value) (text : string) (options : list string)
    (correctAnswer : string) : Prop := {
  has_correctAnswer :
    JSON.getProp item "correctAnswer" = Ok (Some (JSON.Str correctAnswer));
  has_question :
    exists v, JSON.getProp item "question" = Ok v
              /\ JSON.orEmpty_string v = Ok text;
  has_options :
    JSON.getProp item "options"
    = Ok (Some (JSON.Array (map JSON.Str options)))
}.

(** The questions [data.map] builds from such elements, from position
    [index] on. *)
Fixpoint questionsFrom (index : nat)
    (elements : list (string * list string * string)) : list Question.t :=
  match elements with
  | [] => []
  | (text, options, correctAnswer) :: rest =>
      Question.new (Z.of_nat index + 1) text options
                   (letterIndex correctAnswer) None
      :: questionsFrom (S index) rest
  end.

(** The back-tick, and a text between square brackets. *)
Definition tick : ascii := ascii_of_nat 96.
Definition arrayText (inner : string) : string := "[" ++ inner ++ "]".

(** [body] on lines of its own between an opening fence and the closing
    fence. *)
Definition fenced (opening body : string) : string :=
  opening ++ String Str.LF (body ++ String Str.LF GeminiAIService.fence).

(** No [fence] starts anywhere in [s]. *)
Fixpoint fenceFree (fence s : string) : bool :=
  negb (String.prefix fence s)
  && match s with
     | String _ s' => fenceFree fence s'
     | EmptyString => true
     end.

Definition elements (items : list JSON.value)
    (shapes : list (string * list string * string)) : Prop :=
  Forall2 (fun item '(text, options, correctAnswer) =>
             element item text options correctAnswer) items shapes.


(** White space only: what [\s*] matches. *)
Fixpoint blank (s : string) : bool :=
  match s with
  | EmptyString => true
  | String c s' => Str.is_space c && blank s'
  end.

(** What [\[\s*\{] and [\}\s*\]] match. *)
Definition opening (o : string) : Prop :=
  exists ws, blank ws = true /\ o = "[" ++ ws ++ "{".

Definition closing (c : string) : Prop :=
  exists ws, blank ws = true /\ c = "}" ++ ws ++ "]".

(** [m] is a match of [/\[\s*\{[\s\S]*\}\s*\]/] in [s] at position
    [i]. *)
Definition matchAt (s : string) (i : nat) (m : string) : Prop :=
  exists pre post o mid c,
    s = pre ++ m ++ post /\ String.length pre = i
    /\ m = o ++ mid ++ c /\ opening o /\ closing c.

(** The match that [s.match] returns: the leftmost one and, the star of
    [[\s\S]*] being greedy, the longest at its position. *)
Definition firstMatch (s m : string) : Prop :=
  exists i,
    matchAt s i m
    /\ (forall j m', matchAt s j m' -> (i <= j)%nat)
    /\ (forall m', matchAt s i m' ->
                   (String.length m' <= String.length m)%nat).

(** An element that has no text under [correctAnswer]: [null], or an
    item whose [correctAnswer] is absent or not a string. *)
Definition lacksAnswer (item : JSON.value) : Prop :=
  item = JSON.Null
  \/ exists v, JSON.getProp item "correctAnswer" = Ok v
               /\ forall s, v <> Some (JSON.Str s).

End Shape.

(* ===================================================================== *)
(** ** Sessions *)
(* ===================================================================== *)

Module Session.

(** One step of a session: a call on the service, or a call a view makes
    on the exam the service handed out, which is the object the service
    holds.  A reading of the clock ([new Date()]) is a valid time
    value. *)
Inductive step : ExamService.t -> ExamService.t -> Prop :=
| createFromFile analysis now title s :
    Date.inRange now ->
    step s (snd (ExamService.createExamFromFile analysis now title s))
| createFromTopic generation now topic title s :
    Date.inRange now ->
    step s (snd (ExamService.createExamFromTopic generation now topic title s))
| start now s :
    Date.inRange now ->
    step s (snd (ExamService.startExam now s))
| submit questionId answerIndex s :
    step s (snd (ExamService.submitAnswer questionId answerIndex s))
| complete now s :
    Date.inRange now ->
    step s (snd (ExamService.completeExam now s))
| reset s :
    step s (ExamService.resetExam s)
| viewAnswers questionId answerIndex s exam :
    ExamService.currentExam s = Some exam ->
    step s (ExamService.mk
              (Some (snd (Exam.answerQuestion questionId answerIndex exam))))
| viewEnds now s exam :
    Date.inRange now ->
    ExamService.currentExam s = Some exam ->
    step s (ExamService.mk (Some (Exam.end_ now exam))).

(** The states a session can be in, from a new service on. *)
Inductive reachable : ExamService.t -> Prop :=
| initial : reachable (ExamService.mk None)
| after s s' : reachable s -> step s s' -> reachable s'.

(** The exam in progress, if any, has a question, was started at a
    reading of the clock, and if it has ended, ended at one. *)
Definition ready (s : ExamService.t) : Prop :=
  match ExamService.currentExam s with
  | Some exam =>
      (0 < Exam.totalQuestions exam)%nat
      /\ (exists t0, Exam.startTime exam = Some (Date.Valid t0)
                     /\ Date.inRange t0)
      /\ Exam.validStamp (Exam.endTime exam)
  | None => True
  end.

End Session.

(* ===================================================================== *)
(** ** Sample data *)
(* ===================================================================== *)

Module Samples.

Definition fourOptions (a b c d : string) : list string :=
  ["A) " ++ a; "B) " ++ b; "C) " ++ c; "D) " ++ d].

Definition capital : Question.t :=
  Question.new 1 "What is the capital of France?"
    (fourOptions "Berlin" "Madrid" "Paris" "Rome") (Int 2) None.

Definition output : Question.t :=
  Question.new 2 "What is the output of this code: x = 5; y = x + 3; print(y)"
    (fourOptions "5" "8" "3" "Error") (Int 1) None.

Definition loop : Question.t :=
  Question.new 3
    ("What is the output of the following code: "
       ++ "for i in range(3): print(i)")
    (fourOptions "0 1 2" "1 2 3" "0 1 2 3" "Error") (Int 0)
    (Some Question.medium).

(** [capital] after [setUserAnswer(2)], [output] after
    [setUserAnswer(0)]. *)
Definition capital_answered : Question.t :=
  snd (Question.setUserAnswer 2 capital).
Definition output_answered : Question.t :=
  snd (Question.setUserAnswer 0 output).

(** 2023-11-14T22:13:20.000Z and 83.5 seconds later. *)
Definition t0 : Z := 1700000000000.
Definition t1 : Z := 1700000083500.

(** Three questions, two answered, started and ended. *)
Definition exam3 : Exam.t :=
  Exam.end_ t1
    (Exam.start t0
       (Exam.new "Test Bank Exam" [capital_answered; output_answered; loop]
                 (Some 30))).

Definition emptyExam : Exam.t := Exam.new "Empty" [] None.

(** A pair of date built-ins to run the serialisation with: the time
    value written in decimal.  (The ISO-8601 text of the platform is
    another such pair.) *)
Definition decimalDates : Date.builtins :=
  {| Date.toISOString_ms := string_of_Z;
     Date.parse := fun s =>
       match NilZero.int_of_string s with
       | Some d => Date.Valid (Z.of_int d)
       | None => Date.Invalid
       end |}.

(** A record whose stored answer is no position of its four options. *)
Definition corruptRecord : Question.JSON.t :=
  {| Question.JSON.id := 1;
     Question.JSON.text := Question.text capital;
     Question.JSON.options := Question.options capital;
     Question.JSON.correctIndex := Int 2;
     Question.JSON.difficulty := None;
     Question.JSON.userAnswer := Some 9 |}.

(** [quoted s] is [s] between double quotes. *)
Definition quoted (s : string) : string :=
  String Str.quote (s ++ String Str.quote EmptyString).

Definition elementText (id question a b c d correctAnswer : string) : string :=
  "{" ++ quoted "id" ++ ": " ++ id ++ ", "
      ++ quoted "question" ++ ": " ++ quoted question ++ ", "
      ++ quoted "options" ++ ": ["
      ++ quoted ("A) " ++ a) ++ ", " ++ quoted ("B) " ++ b) ++ ", "
      ++ quoted ("C) " ++ c) ++ ", " ++ quoted ("D) " ++ d) ++ "], "
      ++ quoted "correctAnswer" ++ ": " ++ quoted correctAnswer ++ "}".

Definition newline : string := String Str.LF EmptyString.

(** A response in a markdown fence: an array of two elements with the
    answers B and D; the elements carry identifiers of their own, 17 and
    4. *)
Definition fencedResponse : string :=
  "```json" ++ newline
    ++ "[" ++ newline
    ++ "  " ++ elementText "17" "What is the capital of Spain?"
                 "Berlin" "Madrid" "Paris" "Rome" "B" ++ "," ++ newline
    ++ "  " ++ elementText "4" "Which planet is the largest?"
                 "Mars" "Venus" "Earth" "Jupiter" "D" ++ newline
    ++ "]" ++ newline
    ++ "```" ++ newline.

(** A response whose answer letter is none of A to D. *)
Definition letterEResponse : string :=
  "[" ++ elementText "1" "Which option is right?"
           "one" "two" "three" "four" "E" ++ "]".

(** Two answers in prose. *)
Definition prose1 : string :=
  "Sorry, I cannot find any questions in this document.".
Definition prose2 : string :=
  "Sorry, I cannot read this file.".

(** A long answer in prose, and one with a remark in brackets. *)
Definition longProse : string :=
  "I could not find any exam questions in the document you uploaded. "
    ++ "It appears to be a scanned cover page without text. Please upload "
    ++ "the pages of the test bank that hold the questions and try again.".
Definition bracketedProse : string :=
  "Sorry [see the note], I cannot find any questions in this document.".

(** Prose around an array: the first parse fails, the salvage finds the
    array. *)
Definition wrappedResponse : string :=
  "Here are the questions: " ++ letterEResponse ++ " Good luck!".

(** Valid JSON followed by a stray character at position 429. *)
Fixpoint spaces (n : nat) : string :=
  match n with
  | O => EmptyString
  | S n' => String " " (spaces n')
  end.

Definition strayAt429 : string := "1" ++ spaces 428 ++ "x".

(** An array whose second element has no [correctAnswer]. *)
Definition missingAnswerResponse : string :=
  "[" ++ elementText "1" "Which option is right?"
           "one" "two" "three" "four" "a"
      ++ ", {" ++ quoted "question" ++ ": " ++ quoted "And this one?" ++ "}]".

End Samples.

(* ===================================================================== *)
(** * Properties *)
(* ===================================================================== *)

(** ** Order of binary64 values *)

Module NumFacts.

Lemma compare_Lt_Gt (x y : spec_float) :
  SFcompare x y = Some Lt -> SFcompare y x = Some Gt.
Proof.
  destruct x as [sx|sx| |sx mx ex], y as [sy|sy| |sy my ey]; simpl;
    try discriminate; try (destruct sx; discriminate || reflexivity);
    try (destruct sy; discriminate || reflexivity);
    try (destruct sx, sy; discriminate || reflexivity).
  destruct sx, sy; try discriminate; try reflexivity;
    rewrite (Z.compare_antisym ex ey);
    destruct (ex ?= ey); simpl; try discriminate; try reflexivity;
    fold (Pos.compare mx my); fold (Pos.compare my mx);
    rewrite (Pos.compare_antisym mx my);
    destruct (mx ?= my)%positive; simpl; discriminate || reflexivity.
Qed.

Lemma compare_Lt_trans (x y z : spec_float) :
  SFcompare x y = Some Lt -> SFcompare y z = Some Lt ->
  SFcompare x z = Some Lt.
Proof.
  destruct x as [sx|sx| |sx mx ex], y as [sy|sy| |sy my ey],
           z as [sz|sz| |sz mz ez]; simpl;
    try discriminate;
    try (destruct sx; discriminate
         || (destruct sy; discriminate
             || (destruct sz; discriminate || reflexivity)));
    try (destruct sx; discriminate
         || (destruct sz; discriminate
             || (destruct sy; discriminate || reflexivity)));
    try (destruct sy; discriminate
         || (destruct sx; discriminate
             || (destruct sz; discriminate || reflexivity))).
  all: try (destruct sx, sy; simpl; try discriminate; try reflexivity; fail).
  all: try (destruct sy, sz; simpl; try discriminate; try reflexivity; fail).
  all: try (destruct sx, sz; simpl; try discriminate; try reflexivity; fail).
  all: destruct sx, sy, sz; simpl; try discriminate; try reflexivity.
  all: fold (Pos.compare mx my); fold (Pos.compare my mz);
    fold (Pos.compare mx mz).
  all: intros H1 H2; injection H1 as H1; injection H2 as H2; f_equal.
  all: destruct (Z.compare_spec ex ey), (Z.compare_spec ey ez),
         (Z.compare_spec ex ez);
    try discriminate; try lia; try reflexivity.
  all: destruct (Pos.compare_spec mx my), (Pos.compare_spec my mz),
         (Pos.compare_spec mx mz);
    simpl in *; try discriminate; try lia; try reflexivity.
Qed.

(** [x < y] excludes [x >= y]. *)
Lemma ltb_not_geb (x y : Num.double) :
  Num.ltb x y = true -> Num.geb x y = false.
Proof.
  unfold Num.ltb, Num.geb, SFltb, SFleb. intros H.
  destruct (SFcompare x y) as [[]|] eqn:E; try discriminate.
  now rewrite (compare_Lt_Gt _ _ E).
Qed.

(** [x < y] and [y < z] exclude [x >= z]. *)
Lemma ltb_below (x y z : Num.double) :
  Num.ltb x y = true -> Num.ltb y z = true -> Num.geb x z = false.
Proof.
  intros Hxy Hyz. apply ltb_not_geb. revert Hxy Hyz.
  unfold Num.ltb, SFltb.
  destruct (SFcompare x y) as [[]|] eqn:E1; try discriminate.
  destruct (SFcompare y z) as [[]|] eqn:E2; try discriminate.
  now rewrite (compare_Lt_trans _ _ _ E1 E2).
Qed.

(** NaN is neither above nor below anything. *)
Lemma nan_geb (y : Num.double) : Num.geb Num.nan y = false.
Proof. unfold Num.geb, SFleb. now destruct y. Qed.

(** *** Rounding never invents a NaN *)

Lemma shr_1_nonneg r : 0 <= shr_m r -> 0 <= shr_m (shr_1 r).
Proof.
  destruct r as [m b s]. simpl.
  destruct m as [|[p|p|]|p]; simpl; lia.
Qed.

Lemma iter_pos_invariant {A} (P : A -> Prop) (f : A -> A) :
  (forall x, P x -> P (f x)) -> forall p x, P x -> P (iter_pos f p x).
Proof.
  intros Hf. induction p as [p IH|p IH|]; intros x Hx; simpl; auto.
Qed.

Lemma shr_fexp_nonneg m e l :
  0 <= m -> 0 <= shr_m (fst (shr_fexp Num.prec Num.emax m e l)).
Proof.
  intros Hm. unfold shr_fexp, shr.
  assert (H0 : 0 <= shr_m (shr_record_of_loc m l)).
  { destruct l as [|[]]; exact Hm. }
  destruct (_ - e) as [|p|p]; simpl; try exact H0.
  apply (iter_pos_invariant (fun r => 0 <= shr_m r));
    [apply shr_1_nonneg | exact H0].
Qed.

Lemma round_nearest_even_nonneg m l : 0 <= m -> 0 <= round_nearest_even m l.
Proof.
  intros Hm. destruct l as [|[]]; simpl; try lia.
  destruct (Z.even m); lia.
Qed.

Lemma binary_round_aux_not_nan s m e l :
  0 <= m -> binary_round_aux Num.prec Num.emax s m e l <> S754_nan.
Proof.
  intros Hm. unfold binary_round_aux.
  pose proof (shr_fexp_nonneg m e l Hm) as H1.
  destruct (shr_fexp Num.prec Num.emax m e l) as [mrs' e'] eqn:E1.
  simpl in H1.
  pose proof (shr_fexp_nonneg _ e' loc_Exact
                (round_nearest_even_nonneg _ (loc_of_shr_record mrs') H1))
    as H2.
  destruct (shr_fexp Num.prec Num.emax (round_nearest_even _ _) e' loc_Exact)
    as [mrs'' e''] eqn:E2.
  simpl in H2.
  destruct (shr_m mrs'') as [|p|p]; try discriminate; try lia.
  destruct (_ <=? _); discriminate.
Qed.

(** *** Integers below 2^53 are binary64 values *)

Lemma digits2_pos_bound p : forall n,
  0 <= n -> Zpos p < 2 ^ n -> Zpos (digits2_pos p) <= n.
Proof.
  induction p as [p IH|p IH|]; intros n Hn H; simpl.
  - assert (n <> 0) by (intros ->; simpl in H; lia).
    replace n with (Z.succ (n - 1)) in H by lia.
    rewrite Z.pow_succ_r in H by lia.
    specialize (IH (n - 1) ltac:(lia) ltac:(lia)). lia.
  - assert (n <> 0) by (intros ->; simpl in H; lia).
    replace n with (Z.succ (n - 1)) in H by lia.
    rewrite Z.pow_succ_r in H by lia.
    specialize (IH (n - 1) ltac:(lia) ltac:(lia)). lia.
  - assert (n <> 0) by (intros ->; simpl in H; lia). lia.
Qed.

Lemma digits2_pos_iter k : forall p,
  Zpos (digits2_pos (Pos.iter xO p k)) = Zpos (digits2_pos p) + Zpos k.
Proof.
  induction k as [|k IH] using Pos.peano_ind; intros p.
  - simpl. lia.
  - rewrite Pos.iter_succ. simpl. rewrite Pos2Z.inj_succ, IH. lia.
Qed.

Lemma binary_round_aux_canonical s m e :
  canonical_mantissa Num.prec Num.emax m e = true ->
  e <= Num.emax - Num.prec ->
  binary_round_aux Num.prec Num.emax s (Zpos m) e loc_Exact
  = S754_finite s m e.
Proof.
  intros Hc He. unfold canonical_mantissa in Hc. apply Z.eqb_eq in Hc.
  unfold binary_round_aux, shr_fexp.
  cbn [Zdigits2 shr_record_of_loc]. rewrite Hc, Z.sub_diag.
  cbn [shr shr_m loc_of_shr_record round_nearest_even Zdigits2
       shr_record_of_loc].
  rewrite Hc, Z.sub_diag. cbn [shr shr_m].
  apply Z.leb_le in He. now rewrite He.
Qed.

Lemma of_Z_finite p :
  Zpos p < 2 ^ 53 ->
  exists m e, Num.of_Z (Zpos p) = S754_finite false m e.
Proof.
  intros Hp. unfold Num.of_Z, binary_normalize, binary_round.
  pose proof (digits2_pos_bound p 53 ltac:(lia) Hp) as Hd.
  assert (Hf : fexp Num.prec Num.emax (Zpos (digits2_pos p) + 0)
               = Zpos (digits2_pos p) - 53).
  { unfold fexp, emin, Num.prec, Num.emax. lia. }
  rewrite Hf. unfold shl_align.
  destruct (Zpos (digits2_pos p) - 53 - 0) as [|k|k] eqn:Ek; try lia.
  - eexists _, _. apply binary_round_aux_canonical.
    + unfold canonical_mantissa. apply Z.eqb_eq. rewrite Hf. lia.
    + unfold Num.emax, Num.prec. lia.
  - eexists _, _. apply binary_round_aux_canonical.
    + unfold canonical_mantissa. apply Z.eqb_eq. rewrite digits2_pos_iter.
      unfold fexp, emin, Num.prec, Num.emax. lia.
    + unfold Num.emax, Num.prec. lia.
Qed.

(** *** The percentage of a count *)

(** [(c / t) * 100] is a number whenever [t] is positive: the quotient of
    two integers below 2^53 is zero, finite or infinite, and so is its
    product with 100. *)
Lemma percentage_not_nan c t :
  0 <= c < 2 ^ 53 -> 0 < t < 2 ^ 53 ->
  Num.is_nan (Num.mul (Num.div (Num.of_Z c) (Num.of_Z t)) (Num.of_Z 100))
  = false.
Proof.
  intros Hc Ht.
  destruct t as [|t|t]; try lia.
  destruct (of_Z_finite t (proj2 Ht)) as (mt & et & Et). rewrite Et.
  assert (Hq : exists sq,
             Num.div (Num.of_Z c) (S754_finite false mt et) = S754_zero sq
             \/ Num.div (Num.of_Z c) (S754_finite false mt et)
                = S754_infinity sq
             \/ exists m e, Num.div (Num.of_Z c) (S754_finite false mt et)
                            = S754_finite sq m e).
  { destruct c as [|c|c]; try lia.
    - exists false. left. reflexivity.
    - destruct (of_Z_finite c (proj2 Hc)) as (mc & ec & Ec). rewrite Ec.
      unfold Num.div, SFdiv.
      destruct (SFdiv_core_binary _ _ _ _ _ _) as [[mz ez] lz] eqn:Ed.
      assert (Hmz : 0 <= mz).
      { unfold SFdiv_core_binary in Ed.
        match type of Ed with
          (let '(q, r) := Z.div_eucl ?a ?b in _) = _ =>
            pose proof (Z.div_pos a b) as Hdiv; unfold Z.div in Hdiv;
            assert (Ha : 0 <= a)
              by (destruct (_ - _ - _); try lia; apply Z.shiftl_nonneg; lia);
            destruct (Z.div_eucl a b) as [q r]
        end.
        injection Ed as <- _ _. apply Hdiv; lia. }
      pose proof (binary_round_aux_not_nan (xorb false false) mz ez lz Hmz)
        as Hn.
      unfold binary_round_aux in *.
      destruct (shr_fexp _ _ mz ez lz) as [a b].
      destruct (shr_fexp _ _ _ b loc_Exact) as [a' b'].
      destruct (shr_m a'); [exists false; now left | | congruence].
      destruct (_ <=? _); exists false;
        [right; right; eauto | right; now left]. }
  destruct Hq as (sq & [-> | [-> | (m & e & ->)]]); try reflexivity.
  unfold Num.mul, Num.of_Z.
  change (binary_normalize Num.prec Num.emax 100 0 false)
    with (S754_finite false 7036874417766400 (-46)).
  unfold SFmul.
  pose proof (binary_round_aux_not_nan (xorb sq false)
                (Zpos (m * 7036874417766400)) (e + -46) loc_Exact ltac:(lia))
    as Hn.
  destruct (binary_round_aux _ _ _ _ _ _); try reflexivity. congruence.
Qed.

End NumFacts.

(** ** Question *)

Section QuestionFacts.
Import Question.

Lemma setUserAnswer_in_range (q : t) (i : Z) :
  0 <= i < Z.of_nat (List.length (options q)) ->
  setUserAnswer i q = (Ok tt, with_userAnswer q (Some i)).
Proof.
  intros [H0 H1]. unfold setUserAnswer, options in *.
  apply Z.leb_le in H0. apply Z.ltb_lt in H1. now rewrite H0, H1.
Qed.

Lemma setUserAnswer_out_of_range (q : t) (i : Z) :
  ~ (0 <= i < Z.of_nat (List.length (options q))) ->
  setUserAnswer i q = (Throw invalid_answer, q).
Proof.
  intros H. unfold setUserAnswer, options in *.
  destruct (0 <=? i) eqn:E0; simpl; [|reflexivity].
  destruct (i <? _) eqn:E1; [|reflexivity].
  apply Z.leb_le in E0. apply Z.ltb_lt in E1. lia.
Qed.

Lemma new_wf id text options correctIndex difficulty :
  wf (new id text options correctIndex difficulty).
Proof. exact I. Qed.

Lemma setUserAnswer_wf (q : t) (i : Z) :
  wf q -> wf (snd (setUserAnswer i q)).
Proof.
  intros Hq. unfold setUserAnswer.
  destruct (0 <=? i) eqn:E0; simpl; [|exact Hq].
  destruct (i <? _) eqn:E1; simpl; [|exact Hq].
  unfold wf; simpl. apply Z.leb_le in E0. apply Z.ltb_lt in E1. lia.
Qed.

End QuestionFacts.

(** C4.  For every question and every integer index, [setUserAnswer]
    throws the invalid-answer error exactly when the index lies outside
    [0, options.length); when it throws the question, and with it any
    answer recorded before, is unchanged; when it does not, the index is
    the recorded answer, [isAnswered()] is true and nothing else of the
    question changed. *)
Theorem setUserAnswer_validates (q : Question.t) (answerIndex : Z) :
  let len := Z.of_nat (List.length (Question.options q)) in
  let r := Question.setUserAnswer answerIndex q in
  (fst r = Throw Question.invalid_answer <-> ~ (0 <= answerIndex < len))
  /\ (~ (0 <= answerIndex < len) ->
      snd r = q /\ Question.userAnswer (snd r) = Question.userAnswer q)
  /\ (0 <= answerIndex < len ->
      fst r = Ok tt
      /\ Question.userAnswer (snd r) = Some answerIndex
      /\ Question.isAnswered (snd r) = true
      /\ snd r = Question.with_userAnswer q (Some answerIndex)).
Proof.
  intros len r. subst len r. repeat split.
  - intros H Hin. rewrite (setUserAnswer_in_range q answerIndex Hin) in H.
    discriminate.
  - intros H. now rewrite (setUserAnswer_out_of_range q answerIndex H).
  - now rewrite (setUserAnswer_out_of_range q answerIndex H).
  - now rewrite (setUserAnswer_out_of_range q answerIndex H).
  - now rewrite (setUserAnswer_in_range q answerIndex H).
  - now rewrite (setUserAnswer_in_range q answerIndex H).
  - now rewrite (setUserAnswer_in_range q answerIndex H).
  - now rewrite (setUserAnswer_in_range q answerIndex H).
Qed.

(** Instances: position 7 of a four-option question is refused and the
    answer recorded before stays; position 1 is stored. *)
Lemma setUserAnswer_validates_witness :
  fst (Question.setUserAnswer 7 Samples.capital_answered)
    = Throw Question.invalid_answer
  /\ Question.userAnswer
       (snd (Question.setUserAnswer 7 Samples.capital_answered))
     = Some 2
  /\ Question.isAnswered (snd (Question.setUserAnswer 1 Samples.capital))
     = true.
Proof.
  split; [| split].
  - apply (proj1 (setUserAnswer_validates Samples.capital_answered 7)).
    simpl. lia.
  - rewrite (proj2 (proj1 (proj2 (setUserAnswer_validates
                                    Samples.capital_answered 7))
                          ltac:(simpl; lia))).
    reflexivity.
  - apply (proj2 (proj2 (setUserAnswer_validates Samples.capital 1))).
    simpl. lia.
Defined.

(** ** ExamResult *)

Section GradeFacts.
Import ExamResult.

Lemma calculateGrade_A p :
  Num.geb p (Num.of_Z 90) = true -> calculateGrade p = "A".
Proof. intros H. unfold calculateGrade. now rewrite H. Qed.

Lemma calculateGrade_B p :
  Num.geb p (Num.of_Z 80) = true -> Num.ltb p (Num.of_Z 90) = true ->
  calculateGrade p = "B".
Proof.
  intros H80 H90. unfold calculateGrade.
  now rewrite (NumFacts.ltb_not_geb _ _ H90), H80.
Qed.

Lemma calculateGrade_C p :
  Num.geb p (Num.of_Z 70) = true -> Num.ltb p (Num.of_Z 80) = true ->
  calculateGrade p = "C".
Proof.
  intros H70 H80. unfold calculateGrade.
  rewrite (NumFacts.ltb_below p (Num.of_Z 80) (Num.of_Z 90) H80 eq_refl).
  now rewrite (NumFacts.ltb_not_geb _ _ H80), H70.
Qed.

Lemma calculateGrade_D p :
  Num.geb p (Num.of_Z 60) = true -> Num.ltb p (Num.of_Z 70) = true ->
  calculateGrade p = "D".
Proof.
  intros H60 H70. unfold calculateGrade.
  rewrite (NumFacts.ltb_below p (Num.of_Z 70) (Num.of_Z 90) H70 eq_refl).
  rewrite (NumFacts.ltb_below p (Num.of_Z 70) (Num.of_Z 80) H70 eq_refl).
  now rewrite (NumFacts.ltb_not_geb _ _ H70), H60.
Qed.

Lemma calculateGrade_F p :
  Num.ltb p (Num.of_Z 60) = true -> calculateGrade p = "F".
Proof.
  intros H60. unfold calculateGrade.
  rewrite (NumFacts.ltb_below p (Num.of_Z 60) (Num.of_Z 90) H60 eq_refl).
  rewrite (NumFacts.ltb_below p (Num.of_Z 60) (Num.of_Z 80) H60 eq_refl).
  rewrite (NumFacts.ltb_below p (Num.of_Z 60) (Num.of_Z 70) H60 eq_refl).
  now rewrite (NumFacts.ltb_not_geb _ _ H60).
Qed.

(** The grade does not distinguish NaN from a failing percentage. *)
Lemma calculateGrade_nan : calculateGrade Num.nan = "F".
Proof. reflexivity. Qed.

Lemma new_total now exam :
  exists r, new now exam = Ok r
            /\ exam = _exam r
            /\ _grade r = calculateGrade (_percentage r)
            /\ _percentage r =
                 Num.mul (Num.div (Num.of_Z (calculateCorrectCount exam))
                                  (Num.of_nat (Exam.totalQuestions exam)))
                         (Num.of_Z 100).
Proof. eexists. split; [reflexivity|]. simpl. auto. Qed.

End GradeFacts.

(** C1.  The grade stored in an ExamResult is [calculateGrade] of the
    percentage stored in it, and [calculateGrade] cuts the percentages
    into half-open intervals: at least 90 is A, at least 80 and below 90
    is B, at least 70 and below 80 is C, at least 60 and below 70 is D,
    below 60 is F.  At the boundaries listed: 90.0 is A, 89.9 is B, 80.0
    is B, 79.9 is C, 70.0 is C, 69.9 is D, 60.0 is D, 59.9 is F.  (The
    literal 89.9 is the binary64 value nearest to 899/10, which is what
    the correctly rounded division of 899 by 10 returns; likewise for
    the other three.) *)
Theorem grade_cutoffs :
  (forall now exam,
      exists r, ExamResult.new now exam = Ok r
                /\ ExamResult.grade r
                   = ExamResult.calculateGrade (ExamResult.percentage r))
  /\ (forall p : Num.double,
         (Num.geb p (Num.of_Z 90) = true -> ExamResult.calculateGrade p = "A")
         /\ (Num.geb p (Num.of_Z 80) = true -> Num.ltb p (Num.of_Z 90) = true ->
             ExamResult.calculateGrade p = "B")
         /\ (Num.geb p (Num.of_Z 70) = true -> Num.ltb p (Num.of_Z 80) = true ->
             ExamResult.calculateGrade p = "C")
         /\ (Num.geb p (Num.of_Z 60) = true -> Num.ltb p (Num.of_Z 70) = true ->
             ExamResult.calculateGrade p = "D")
         /\ (Num.ltb p (Num.of_Z 60) = true ->
             ExamResult.calculateGrade p = "F"))
  /\ ExamResult.calculateGrade (Num.of_Z 90) = "A"
  /\ ExamResult.calculateGrade (Num.div (Num.of_Z 899) (Num.of_Z 10)) = "B"
  /\ ExamResult.calculateGrade (Num.of_Z 80) = "B"
  /\ ExamResult.calculateGrade (Num.div (Num.of_Z 799) (Num.of_Z 10)) = "C"
  /\ ExamResult.calculateGrade (Num.of_Z 70) = "C"
  /\ ExamResult.calculateGrade (Num.div (Num.of_Z 699) (Num.of_Z 10)) = "D"
  /\ ExamResult.calculateGrade (Num.of_Z 60) = "D"
  /\ ExamResult.calculateGrade (Num.div (Num.of_Z 599) (Num.of_Z 10)) = "F".
Proof.
  split.
  { intros now exam. destruct (new_total now exam) as (r & Hr & _ & Hg & _).
    exists r. split; [exact Hr | exact Hg]. }
  split.
  { intros p. repeat split.
    - apply calculateGrade_A.
    - apply calculateGrade_B.
    - apply calculateGrade_C.
    - apply calculateGrade_D.
    - apply calculateGrade_F. }
  repeat split; vm_compute; reflexivity.
Qed.

(** An instance: 85 lies in [80, 90) and is graded B. *)
Lemma grade_cutoffs_witness :
  Num.geb (Num.of_Z 85) (Num.of_Z 80) = true
  /\ Num.ltb (Num.of_Z 85) (Num.of_Z 90) = true
  /\ ExamResult.calculateGrade (Num.of_Z 85) = "B".
Proof.
  split; [reflexivity | split; [reflexivity |]].
  apply (proj1 (proj2 (proj1 (proj2 grade_cutoffs) (Num.of_Z 85))));
    reflexivity.
Defined.

(** ** Exam *)

Section ExamFacts.
Import Exam.

Lemma getAnsweredCount_le (e : t) :
  (getAnsweredCount e <= totalQuestions e)%nat.
Proof. apply filter_length_le. Qed.

Lemma no_questions (e : t) : totalQuestions e = 0%nat -> _questions e = [].
Proof. unfold totalQuestions. now destruct (_questions e). Qed.

Lemma getAnsweredCount_empty (e : t) :
  totalQuestions e = 0%nat -> getAnsweredCount e = 0%nat.
Proof. intros H. unfold getAnsweredCount. now rewrite (no_questions e H). Qed.

Lemma end_questions now (e : t) : _questions (end_ now e) = _questions e.
Proof. reflexivity. Qed.

Lemma end_totalQuestions now (e : t) :
  totalQuestions (end_ now e) = totalQuestions e.
Proof. reflexivity. Qed.

Lemma canSubmit_iff (e : t) :
  canSubmit e = true <-> getAnsweredCount e = totalQuestions e.
Proof. unfold canSubmit. apply Nat.eqb_eq. Qed.

End ExamFacts.

(** C2, as the code has it.  For every exam [getProgressPercentage()] is
    the binary64 value of (answeredCount / totalQuestions) * 100, the
    division first.  With no question the quotient is 0/0: the method
    returns NaN; it does not return 0 and it does not throw.  With at
    least one question (and fewer than 2^32, as in every JavaScript
    array) the value is a number.  The count of answered questions never
    exceeds the total. *)
Theorem getProgressPercentage_value (e : Exam.t) :
  Exam.getProgressPercentage e
  = Num.mul (Num.div (Num.of_nat (Exam.getAnsweredCount e))
                     (Num.of_nat (Exam.totalQuestions e)))
            (Num.of_Z 100)
  /\ (Exam.getAnsweredCount e <= Exam.totalQuestions e)%nat
  /\ (Exam.totalQuestions e = 0%nat ->
      Exam.getProgressPercentage e = Num.nan
      /\ Num.eqb (Exam.getProgressPercentage e) (Num.of_Z 0) = false)
  /\ (0 < Z.of_nat (Exam.totalQuestions e) < 2 ^ 32 ->
      Num.is_nan (Exam.getProgressPercentage e) = false).
Proof.
  split; [reflexivity|]. split; [apply getAnsweredCount_le|]. split.
  - intros H. unfold Exam.getProgressPercentage.
    rewrite (getAnsweredCount_empty e H), H. split; reflexivity.
  - intros H. pose proof (getAnsweredCount_le e) as Hle.
    apply NumFacts.percentage_not_nan; lia.
Qed.

(** Instances: the exam without questions, and the sample of three. *)
Lemma getProgressPercentage_value_witness :
  Exam.totalQuestions Samples.emptyExam = 0%nat
  /\ Exam.getProgressPercentage Samples.emptyExam = Num.nan
  /\ Num.is_nan (Exam.getProgressPercentage Samples.exam3) = false.
Proof.
  split; [reflexivity|]. split.
  - apply (proj1 (proj2 (proj2 (getProgressPercentage_value
                                  Samples.emptyExam)))).
    reflexivity.
  - apply (proj2 (proj2 (proj2 (getProgressPercentage_value Samples.exam3)))).
    vm_compute. split; reflexivity.
Defined.

(** C2 as stated fails: on the exam without questions the method returns
    NaN, which is not 0. *)
Lemma getProgressPercentage_empty_not_zero :
  Exam.totalQuestions Samples.emptyExam = 0%nat
  /\ Exam.getProgressPercentage Samples.emptyExam = Num.nan
  /\ Exam.getProgressPercentage Samples.emptyExam <> Num.of_Z 0
  /\ Num.eqb (Exam.getProgressPercentage Samples.emptyExam) (Num.of_Z 0)
     = false.
Proof. repeat split; try reflexivity. discriminate. Qed.

(** Two of three answered: 66.66666666666666, the binary64 product of
    0.6666666666666666 and 100 (200/3 would round to
    66.66666666666667). *)
Example getProgressPercentage_exam3 :
  Exam.getProgressPercentage Samples.exam3
  = S754_finite false 4691249611844266 (-46)
  /\ Num.div (Num.of_Z 200) (Num.of_Z 3)
     = S754_finite false 4691249611844267 (-46).
Proof. split; reflexivity. Qed.

Lemma calculateCorrectCount_bounds (exam : Exam.t) :
  0 <= ExamResult.calculateCorrectCount exam
    <= Z.of_nat (Exam.totalQuestions exam).
Proof.
  unfold ExamResult.calculateCorrectCount, Exam.questions, Exam.totalQuestions.
  pose proof (filter_length_le Question.isCorrect (Exam._questions exam)).
  lia.
Qed.

(** C3, as the code has it.  The constructor of ExamResult completes on
    every exam, also on one without questions, for which it stores the
    counts 0 and 0, the percentage NaN and the grade F; for an exam with
    at least one question (and fewer than 2^32) the percentage is a
    number.  The empty case is refused earlier: [createExamFromFile]
    throws when the analysis found no question, and leaves the service
    without that exam. *)
Theorem ExamResult_new_completes (now : Z) (exam : Exam.t) :
  (exists r, ExamResult.new now exam = Ok r)
  /\ (Exam.totalQuestions exam = 0%nat ->
      exists r, ExamResult.new now exam = Ok r
                /\ ExamResult.percentage r = Num.nan
                /\ ExamResult.grade r = "F"
                /\ ExamResult.correctCount r = 0
                /\ ExamResult.incorrectCount r = 0)
  /\ (0 < Z.of_nat (Exam.totalQuestions exam) < 2 ^ 32 ->
      exists r, ExamResult.new now exam = Ok r
                /\ Num.is_nan (ExamResult.percentage r) = false)
  /\ (forall title s,
         ExamService.createExamFromFile (Ok []) now title s
         = (Throw ExamService.noQuestionsFound, s)).
Proof.
  split; [eexists; reflexivity|]. split; [| split].
  - intros H. eexists. split; [reflexivity|].
    unfold ExamResult.percentage, ExamResult.grade, ExamResult.correctCount,
      ExamResult.incorrectCount, ExamResult.calculateCorrectCount,
      Exam.questions; simpl.
    rewrite (no_questions exam H), H. simpl. repeat split.
  - intros H. eexists. split; [reflexivity|].
    unfold ExamResult.percentage; simpl.
    pose proof (calculateCorrectCount_bounds exam) as Hb.
    apply NumFacts.percentage_not_nan; lia.
  - reflexivity.
Qed.

(** An instance: the result of the exam without questions. *)
Lemma ExamResult_new_completes_witness :
  Exam.totalQuestions Samples.emptyExam = 0%nat
  /\ exists r, ExamResult.new 0 Samples.emptyExam = Ok r
               /\ ExamResult.percentage r = Num.nan
               /\ ExamResult.grade r = "F"
               /\ ExamResult.correctCount r = 0
               /\ ExamResult.incorrectCount r = 0.
Proof.
  split; [reflexivity|].
  apply (proj1 (proj2 (ExamResult_new_completes 0 Samples.emptyExam))).
  reflexivity.
Defined.

(** C3 as stated fails: the construction from the exam without questions
    throws nothing; it returns a result whose percentage is NaN. *)
Lemma ExamResult_new_empty_no_error :
  Exam.totalQuestions Samples.emptyExam = 0%nat
  /\ (forall e, ExamResult.new 0 Samples.emptyExam <> Throw e)
  /\ exists r, ExamResult.new 0 Samples.emptyExam = Ok r
               /\ Num.is_nan (ExamResult.percentage r) = true.
Proof.
  split; [reflexivity|]. split; [discriminate|].
  eexists. split; reflexivity.
Qed.

(** ** ExamService *)

(** C8.  [completeExam()] throws the no-exam error when the service has
    no current exam and the incomplete-exam error when the current exam's
    [canSubmit()] is false, in both cases leaving the service as it was.
    Otherwise it calls [end()] on the current exam, which stamps it with
    the clock reading, and returns the ExamResult of that exam; its
    counts of correct and incorrect answers add up to the total and its
    percentage is the binary64 value of (correct answers / total
    questions) * 100, the quotient taken first. *)
Theorem completeExam_spec (now : Z) (s : ExamService.t) :
  (ExamService.currentExam s = None ->
   ExamService.completeExam now s = (Throw ExamService.noExamToComplete, s))
  /\ (forall exam,
         ExamService.currentExam s = Some exam ->
         Exam.canSubmit exam = false ->
         ExamService.completeExam now s = (Throw ExamService.notAllAnswered, s))
  /\ (forall exam,
         ExamService.currentExam s = Some exam ->
         Exam.canSubmit exam = true ->
         exists r,
           ExamService.completeExam now s
           = (Ok r, ExamService.mk (Some (Exam.end_ now exam)))
           /\ ExamResult.exam r = Exam.end_ now exam
           /\ Exam.endTime (ExamResult.exam r) = Some (Date.Valid now)
           /\ Exam.questions (ExamResult.exam r) = Exam.questions exam
           /\ ExamResult.correctCount r
              = Z.of_nat (List.length (filter Question.isCorrect
                                              (Exam.questions exam)))
           /\ ExamResult.correctCount r + ExamResult.incorrectCount r
              = Z.of_nat (Exam.totalQuestions exam)
           /\ ExamResult.percentage r
              = Num.mul (Num.div (Num.of_Z (ExamResult.correctCount r))
                                 (Num.of_nat (Exam.totalQuestions exam)))
                        (Num.of_Z 100)).
Proof.
  unfold ExamService.completeExam. repeat split.
  - intros H. now rewrite H.
  - intros exam H Hc. now rewrite H, Hc.
  - intros exam H Hc. rewrite H, Hc. simpl.
    eexists. split; [reflexivity|]. repeat split.
    unfold ExamResult.correctCount, ExamResult.incorrectCount; simpl.
    rewrite end_totalQuestions. lia.
Qed.

(** Instances.  With one question left open the call throws; once the
    third question is answered it returns a result with two correct
    answers of three, 66.66666666666666 percent, grade D. *)
Lemma completeExam_spec_witness :
  ExamService.completeExam Samples.t1 (ExamService.mk None)
    = (Throw ExamService.noExamToComplete, ExamService.mk None)
  /\ ExamService.completeExam Samples.t1 (ExamService.mk (Some Samples.exam3))
     = (Throw ExamService.notAllAnswered,
        ExamService.mk (Some Samples.exam3))
  /\ exists r,
      ExamService.completeExam Samples.t1
        (snd (ExamService.submitAnswer 3 0
                (ExamService.mk (Some Samples.exam3))))
      = (Ok r,
         ExamService.mk
           (Some (Exam.end_ Samples.t1
                    (snd (Exam.answerQuestion 3 0 Samples.exam3)))))
      /\ ExamResult.correctCount r = 2
      /\ ExamResult.percentage r = S754_finite false 4691249611844266 (-46)
      /\ ExamResult.grade r = "D".
Proof.
  split; [| split].
  - apply (proj1 (completeExam_spec Samples.t1 (ExamService.mk None))).
    reflexivity.
  - apply (proj1 (proj2 (completeExam_spec Samples.t1
                           (ExamService.mk (Some Samples.exam3))))
             Samples.exam3); reflexivity.
  - destruct (proj2 (proj2 (completeExam_spec Samples.t1
                    (snd (ExamService.submitAnswer 3 0
                            (ExamService.mk (Some Samples.exam3))))))
                (snd (Exam.answerQuestion 3 0 Samples.exam3))
                eq_refl eq_refl) as (r & Hr & _ & _ & _ & Hc & _ & Hp).
    exists r. split; [exact Hr|].
    injection Hr as Hr. subst r. repeat split.
Defined.

(** C9.  An exam without questions can be submitted: zero answered equals
    zero in total.  The guard of [completeExam()] therefore lets it pass;
    the call ends the exam, constructs the ExamResult and returns it. *)
Theorem canSubmit_empty_exam (exam : Exam.t) :
  Exam.totalQuestions exam = 0%nat ->
  Exam.canSubmit exam = true
  /\ forall now s,
      ExamService.currentExam s = Some exam ->
      exists r,
        ExamService.completeExam now s
        = (Ok r, ExamService.mk (Some (Exam.end_ now exam)))
        /\ ExamResult.new now (Exam.end_ now exam) = Ok r
        /\ ExamResult.exam r = Exam.end_ now exam.
Proof.
  intros H.
  assert (Hc : Exam.canSubmit exam = true).
  { apply canSubmit_iff. now rewrite (getAnsweredCount_empty exam H). }
  split; [exact Hc|].
  intros now s Hs. unfold ExamService.completeExam. rewrite Hs, Hc. simpl.
  eexists. repeat split.
Qed.

Lemma canSubmit_empty_exam_witness :
  Exam.canSubmit Samples.emptyExam = true
  /\ exists r,
      ExamService.completeExam Samples.t0
        (ExamService.mk (Some Samples.emptyExam))
      = (Ok r, ExamService.mk (Some (Exam.end_ Samples.t0 Samples.emptyExam))).
Proof.
  destruct (canSubmit_empty_exam Samples.emptyExam eq_refl) as [Hc Hr].
  split; [exact Hc|].
  destruct (Hr Samples.t0 (ExamService.mk (Some Samples.emptyExam)) eq_refl)
    as (r & Hrun & _).
  exists r. exact Hrun.
Defined.

(** ** Serialisation *)

Lemma decimalDates_lawful : Date.lawful Samples.decimalDates.
Proof.
  assert (R : forall ms,
             Date.parse Samples.decimalDates
               (Date.toISOString_ms Samples.decimalDates ms) = Date.Valid ms).
  { intros ms. simpl. unfold string_of_Z.
    rewrite NilZero.isi.
    - now rewrite DecimalZ.of_to.
    - destruct ms; simpl; try discriminate.
      intros H. injection H as H. now apply Unsigned.to_uint_nonnil in H.
    - destruct ms; simpl; try discriminate.
      intros H. injection H as H. now apply Unsigned.to_uint_nonnil in H. }
  split.
  - intros ms _. apply R.
  - intros ms _ H. specialize (R ms). rewrite H in R. discriminate.
Qed.

Section Roundtrip.
Variable B : Date.builtins.
Hypothesis B_lawful : Date.lawful B.

Lemma Question_roundtrip (q : Question.t) :
  Question.wf q -> Question.fromJSON (Question.toJSON q) = Ok q.
Proof.
  destruct q as [id text options correctIndex [a|] difficulty];
    unfold Question.wf, Question.fromJSON, Question.toJSON; simpl; intros H.
  - rewrite setUserAnswer_in_range by exact H. reflexivity.
  - reflexivity.
Qed.

Lemma Questions_roundtrip (qs : list Question.t) :
  Forall Question.wf qs ->
  mapM Question.fromJSON (map Question.toJSON qs) = Ok qs.
Proof.
  induction 1 as [|q qs Hq _ IH]; simpl; [reflexivity|].
  now rewrite (Question_roundtrip q Hq), IH.
Qed.

Lemma stamp_roundtrip (d : option Date.t) :
  Exam.validStamp d ->
  exists s, Exam.optISO B d = Ok s /\ Exam.optDate B s = d.
Proof.
  destruct d as [[ms|]|]; simpl; intros H.
  - exists (Some (Date.toISOString_ms B ms)). split; [reflexivity|].
    simpl.
    destruct (String.eqb_spec (Date.toISOString_ms B ms) EmptyString) as [E|_].
    + now apply (Date.toISOString_nonempty B B_lawful ms H) in E.
    + now rewrite (Date.parse_toISOString B B_lawful ms H).
  - contradiction.
  - exists None. split; reflexivity.
Qed.

Lemma Exam_roundtrip (e : Exam.t) :
  Exam.wf e ->
  exists data, Exam.toJSON B e = Ok data /\ Exam.fromJSON B data = Ok e.
Proof.
  intros (Hq & Hs & He).
  destruct (stamp_roundtrip _ Hs) as (st & Hst & Hst').
  destruct (stamp_roundtrip _ He) as (en & Hen & Hen').
  unfold Exam.toJSON. rewrite Hst, Hen. simpl.
  eexists. split; [reflexivity|].
  unfold Exam.fromJSON; simpl.
  rewrite (Questions_roundtrip _ Hq); simpl.
  rewrite Hst', Hen'. now destruct e.
Qed.

(** A stored answer goes through [setUserAnswer]: the deserialisation
    throws what the live call on the rebuilt question throws. *)
Lemma fromJSON_validates (data : Question.JSON.t) (a : Z) :
  Question.JSON.userAnswer data = Some a ->
  let fresh :=
    Question.new (Question.JSON.id data) (Question.JSON.text data)
      (Question.JSON.options data) (Question.JSON.correctIndex data)
      (Question.JSON.difficulty data) in
  (forall e, Question.fromJSON data = Throw e
             <-> fst (Question.setUserAnswer a fresh) = Throw e)
  /\ (~ (0 <= a < Z.of_nat (List.length (Question.JSON.options data))) ->
      Question.fromJSON data = Throw Question.invalid_answer).
Proof.
  intros Ha fresh. unfold Question.fromJSON. rewrite Ha. fold fresh.
  split.
  - intros e. destruct (Question.setUserAnswer a fresh) as [[u|e'|] q'];
      simpl; split; congruence.
  - intros H. rewrite (setUserAnswer_out_of_range fresh a) by exact H.
    reflexivity.
Qed.

End Roundtrip.

(** C5.  With date built-ins that obey the round-trip law of the
    language, serialising and deserialising a question that satisfies the
    class invariant (with or without a recorded answer) gives that
    question back, and doing so with an exam whose questions satisfy it
    and whose stamps are valid dates gives that exam back: title,
    questions, time limit and both stamps, to the millisecond and so to
    the second.  A stored answer is passed to [setUserAnswer]: the
    deserialisation of a record with a recorded answer throws exactly
    what the live call throws, the invalid-answer error when the index is
    out of range. *)
Theorem serialization_roundtrip (B : Date.builtins) :
  Date.lawful B ->
  (forall q, Question.wf q -> Question.fromJSON (Question.toJSON q) = Ok q)
  /\ (forall e, Exam.wf e ->
        exists data, Exam.toJSON B e = Ok data
                     /\ Exam.fromJSON B data = Ok e)
  /\ (forall data a,
         Question.JSON.userAnswer data = Some a ->
         let fresh :=
           Question.new (Question.JSON.id data) (Question.JSON.text data)
             (Question.JSON.options data) (Question.JSON.correctIndex data)
             (Question.JSON.difficulty data) in
         (forall e, Question.fromJSON data = Throw e
                    <-> fst (Question.setUserAnswer a fresh) = Throw e)
         /\ (~ (0 <= a < Z.of_nat (List.length (Question.JSON.options data))) ->
             Question.fromJSON data = Throw Question.invalid_answer)).
Proof.
  intros HB. split; [|split].
  - apply Question_roundtrip.
  - apply Exam_roundtrip, HB.
  - apply fromJSON_validates.
Qed.

(** An exam of three questions, two answered and one open, with both
    stamps set, comes back from its serialised form; so does a question
    with a recorded answer; a record with the stored answer 9 for four
    options is refused with the error of [setUserAnswer]. *)
Lemma serialization_roundtrip_witness :
  Question.fromJSON (Question.toJSON Samples.capital_answered)
    = Ok Samples.capital_answered
  /\ (exists data,
         Exam.toJSON Samples.decimalDates Samples.exam3 = Ok data
         /\ Exam.fromJSON Samples.decimalDates data = Ok Samples.exam3)
  /\ Question.fromJSON Samples.corruptRecord = Throw Question.invalid_answer.
Proof.
  destruct (serialization_roundtrip Samples.decimalDates decimalDates_lawful)
    as (HQ & HE & HC).
  split; [| split].
  - apply HQ. vm_compute. split; [discriminate | reflexivity].
  - apply HE. split; [| split].
    + repeat constructor; vm_compute; try split; discriminate || reflexivity.
    + vm_compute. split; discriminate.
    + vm_compute. split; discriminate.
  - apply (proj2 (HC Samples.corruptRecord 9 eq_refl)). simpl. lia.
Defined.

(** ** The response parser *)

Section ParserFacts.
Import GeminiAIService Shape.

Lemma as_strings_Str (options : list string) :
  JSON.as_strings (Some (JSON.Array (map JSON.Str options))) = Ok options.
Proof.
  simpl. induction options as [|o os IH]; simpl; [reflexivity|].
  now rewrite IH.
Qed.

Lemma toQuestion_element index item text options correctAnswer :
  element item text options correctAnswer ->
  toQuestion index item
  = Ok (Question.new (Z.of_nat index + 1) text options
                     (letterIndex correctAnswer) None).
Proof.
  intros [Ha (v & Hv & Ht) Ho]. unfold toQuestion.
  rewrite Ha; simpl. rewrite Hv; simpl. rewrite Ht; simpl.
  rewrite Ho. unfold bind at 1. now rewrite as_strings_Str.
Qed.

Lemma mapFrom_elements items shapes :
  elements items shapes ->
  forall index, mapFrom index items = Ok (questionsFrom index shapes).
Proof.
  induction 1 as [|item [[text options] correctAnswer] items shapes H _ IH];
    intros index; simpl; [reflexivity|].
  now rewrite (toQuestion_element index item _ _ _ H), IH.
Qed.

Lemma questionsFrom_ids shapes : forall index,
  map Question.id (questionsFrom index shapes)
  = map Z.of_nat (seq (S index) (List.length shapes)).
Proof.
  induction shapes as [|[[text options] correctAnswer] shapes IH];
    intros index; simpl; [reflexivity|].
  rewrite IH. f_equal. unfold Question.id; simpl. lia.
Qed.

Lemma questionsFrom_correctIndex shapes : forall index,
  map Question.correctIndex (questionsFrom index shapes)
  = map (fun '(_, _, correctAnswer) => letterIndex correctAnswer) shapes.
Proof.
  induction shapes as [|[[text options] correctAnswer] shapes IH];
    intros index; simpl; [reflexivity|].
  now rewrite IH.
Qed.

(** The index is the code of the upper-cased first character less 65. *)
Lemma letterIndex_first (c : ascii) (rest : string) :
  letterIndex (String c rest)
  = Int (Z.of_nat (nat_of_ascii (Str.upper c)) - 65).
Proof. reflexivity. Qed.

Lemma letterIndex_empty : letterIndex EmptyString = NaN.
Proof. reflexivity. Qed.

(** *** What the cleaning keeps *)

Lemma occurs_trimStart c s :
  Str.occurs c s = false -> Str.occurs c (Str.trimStart s) = false.
Proof.
  induction s as [|d s IH]; simpl; [easy|].
  intros H. apply orb_false_iff in H as [H1 H2].
  destruct (Str.is_space d); [auto|]. simpl. now rewrite H1, H2.
Qed.

Lemma occurs_trimEnd c s :
  Str.occurs c s = false -> Str.occurs c (Str.trimEnd s) = false.
Proof.
  induction s as [|d s IH]; simpl; [easy|].
  intros H. apply orb_false_iff in H as [H1 H2]. specialize (IH H2).
  destruct (Str.trimEnd s).
  - destruct (Str.is_space d); simpl; [reflexivity|]. now rewrite H1.
  - simpl in *. now rewrite H1, IH.
Qed.

Lemma occurs_drop c n : forall s,
  Str.occurs c s = false -> Str.occurs c (Str.drop n s) = false.
Proof.
  induction n as [|n IH]; intros [|d s]; simpl; try easy.
  intros H. apply orb_false_iff in H as [_ H2]. auto.
Qed.

Lemma occurs_dropLF c s :
  Str.occurs c s = false -> Str.occurs c (Str.dropLF s) = false.
Proof.
  destruct s as [|d s]; simpl; [easy|].
  intros H. destruct (Ascii.eqb d Str.LF); [|exact H].
  now apply orb_false_iff in H as [_ H2].
Qed.

Lemma occurs_removeFences_steps c fence steps : forall s,
  Str.occurs c s = false ->
  Str.occurs c (Str.removeFences_steps steps fence s) = false.
Proof.
  induction steps as [|steps IH]; intros s H; simpl; [exact H|].
  destruct s as [|d s]; [reflexivity|].
  destruct (String.prefix fence (String d s)).
  - apply IH, occurs_dropLF, occurs_drop, H.
  - simpl in *. apply orb_false_iff in H as [H1 H2].
    now rewrite H1, (IH s H2).
Qed.

Lemma occurs_cleanResponse c s :
  Str.occurs c s = false -> Str.occurs c (cleanResponse s) = false.
Proof.
  intros H. unfold cleanResponse, Str.trim, Str.removeFences.
  apply occurs_trimEnd, occurs_trimStart.
  assert (Ht : Str.occurs c (Str.trimEnd (Str.trimStart s)) = false)
    by now apply occurs_trimEnd, occurs_trimStart.
  destruct (Str.startsWith _ fence_json).
  - now repeat apply occurs_removeFences_steps.
  - destruct (Str.startsWith _ fence);
      [now apply occurs_removeFences_steps | exact Ht].
Qed.

(** Without an opening bracket there is nothing to salvage. *)
Lemma arrayMatch_no_bracket s :
  Str.occurs "[" s = false -> Str.arrayMatch s = None.
Proof.
  induction s as [|d s IH]; [reflexivity|].
  intros H.
  change (Ascii.eqb "[" d || Str.occurs "[" s = false) in H.
  apply orb_false_iff in H as [H1 H2].
  change (match Str.matchHere (String d s) with
          | Some n => Some (Str.take n (String d s))
          | None => Str.arrayMatch s
          end = None).
  unfold Str.matchHere. rewrite Ascii.eqb_sym, H1. auto.
Qed.

End ParserFacts.

(** *** The cleaning of fenced and bare array texts *)

Section CleanFacts.
Import GeminiAIService Shape.

Lemma length_drop n : forall s,
  String.length (Str.drop n s) = (String.length s - n)%nat.
Proof. induction n as [|n IH]; intros [|c s]; simpl; auto. Qed.

Lemma length_dropLF s : (String.length (Str.dropLF s) <= String.length s)%nat.
Proof.
  destruct s as [|c s]; simpl; [lia|].
  destruct (Ascii.eqb c Str.LF); simpl; lia.
Qed.

(** More steps than characters change nothing. *)
Lemma removeFences_steps_enough fence :
  fence <> EmptyString ->
  forall n m s, (String.length s <= n)%nat -> (String.length s <= m)%nat ->
  Str.removeFences_steps n fence s = Str.removeFences_steps m fence s.
Proof.
  intros Hf.
  assert (Hlen : (1 <= String.length fence)%nat)
    by (destruct fence; [congruence | simpl; lia]).
  induction n as [|n IH]; intros m s Hn Hm.
  - destruct s; [|simpl in Hn; lia]. now destruct m.
  - destruct s as [|c s]; [now destruct m|].
    destruct m as [|m]; [simpl in Hm; lia|].
    simpl in Hn, Hm. cbn [Str.removeFences_steps].
    destruct (String.prefix fence (String c s)).
    + pose proof (length_dropLF (Str.drop (String.length fence) (String c s))).
      pose proof (length_drop (String.length fence) (String c s)).
      simpl String.length in *. apply IH; lia.
    + f_equal. apply IH; lia.
Qed.

Lemma removeFences_steps_free fence n : forall s,
  fenceFree fence s = true -> Str.removeFences_steps n fence s = s.
Proof.
  induction n as [|n IH]; intros s H; [reflexivity|].
  destruct s as [|c s]; [reflexivity|].
  cbn [Str.removeFences_steps]. cbn [fenceFree] in H.
  apply andb_true_iff in H as [H1 H2]. apply negb_true_iff in H1.
  rewrite H1. f_equal. auto.
Qed.

Lemma prefix_other_head a f c s :
  Ascii.eqb a c = false -> String.prefix (String a f) (String c s) = false.
Proof.
  intros H. simpl. destruct (ascii_dec a c) as [->|_]; [|reflexivity].
  rewrite Ascii.eqb_refl in H. discriminate.
Qed.

Lemma fenceFree_app f body tail :
  Str.occurs tick body = false ->
  fenceFree (String tick f) tail = true ->
  fenceFree (String tick f) (body ++ tail) = true.
Proof.
  intros Hb Ht. induction body as [|c body IH]; [exact Ht|].
  change (Ascii.eqb tick c || Str.occurs tick body = false) in Hb.
  apply orb_false_iff in Hb as [Hc Hb].
  change (negb (String.prefix (String tick f) (String c (body ++ tail)))
          && fenceFree (String tick f) (body ++ tail) = true).
  now rewrite (prefix_other_head _ _ _ _ Hc), (IH Hb).
Qed.

(** The closing fence after a body without back-ticks. *)
Lemma removeFences_closing body :
  Str.occurs tick body = false ->
  forall n, (String.length body + 4 <= n)%nat ->
  Str.removeFences_steps n fence (body ++ String Str.LF fence)
  = body ++ String Str.LF EmptyString.
Proof.
  intros Hb. induction body as [|c body IH]; intros n Hn.
  - do 4 (destruct n as [|n]; [simpl in Hn; lia|]). now destruct n.
  - change (Ascii.eqb tick c || Str.occurs tick body = false) in Hb.
    apply orb_false_iff in Hb as [Hc Hb].
    destruct n as [|n]; [simpl in Hn; lia|].
    change ((String c body) ++ String Str.LF fence)
      with (String c (body ++ String Str.LF fence)).
    cbn [Str.removeFences_steps].
    unfold fence at 1. rewrite (prefix_other_head _ _ _ _ Hc).
    simpl in Hn. rewrite IH by (exact Hb || lia). reflexivity.
Qed.

Lemma trimEnd_keep t :
  Str.trimEnd t = t -> t <> EmptyString ->
  forall s, Str.trimEnd (s ++ t) = s ++ t.
Proof.
  intros Ht Hne. induction s as [|d s IH]; [exact Ht|].
  change (match Str.trimEnd (s ++ t) with
          | EmptyString =>
              if Str.is_space d then EmptyString else String d EmptyString
          | kept => String d kept
          end = String d (s ++ t)).
  rewrite IH. destruct s; [destruct t; [congruence|]|]; reflexivity.
Qed.

Lemma trimEnd_app_space c :
  Str.is_space c = true ->
  forall s, Str.trimEnd (s ++ String c EmptyString) = Str.trimEnd s.
Proof.
  intros Hc. induction s as [|d s IH]; simpl; [now rewrite Hc|].
  now rewrite IH.
Qed.

Lemma string_length_app s t :
  String.length (s ++ t) = (String.length s + String.length t)%nat.
Proof. induction s; simpl; auto. Qed.

Lemma string_app_assoc s t u : (s ++ t) ++ u = s ++ (t ++ u).
Proof. induction s; simpl; congruence. Qed.

Lemma occurs_app c s t :
  Str.occurs c (s ++ t) = Str.occurs c s || Str.occurs c t.
Proof.
  induction s as [|d s IH]; simpl; [reflexivity|].
  now rewrite IH, orb_assoc.
Qed.

Lemma trim_arrayText inner : Str.trim (arrayText inner) = arrayText inner.
Proof.
  unfold Str.trim, arrayText. cbn [Str.trimStart append].
  change (Str.is_space "[") with false. cbv iota.
  change (String "[" (inner ++ "]"))
    with ((String "[" EmptyString) ++ (inner ++ "]")).
  rewrite <- string_app_assoc. apply trimEnd_keep; [reflexivity | discriminate].
Qed.

Lemma trim_arrayText_LF inner :
  Str.trim (arrayText inner ++ String Str.LF EmptyString) = arrayText inner.
Proof.
  unfold Str.trim. 
  change (Str.trimStart (arrayText inner ++ String Str.LF EmptyString))
    with (arrayText inner ++ String Str.LF EmptyString).
  rewrite trimEnd_app_space by reflexivity.
  apply (trim_arrayText inner).
Qed.

Lemma trimEnd_fenced p body :
  Str.trimEnd (p ++ (body ++ String Str.LF fence))
  = p ++ (body ++ String Str.LF fence).
Proof.
  rewrite <- !string_app_assoc.
  apply trimEnd_keep; [reflexivity | discriminate].
Qed.

Lemma trim_fenced_json body :
  Str.trim (fenced fence_json body) = fenced fence_json body.
Proof.
  unfold Str.trim, fenced.
  change (Str.trimStart (fence_json ++ ?x)) with (fence_json ++ x).
  change (fence_json ++ String Str.LF ?x)
    with ((fence_json ++ String Str.LF EmptyString) ++ x).
  apply trimEnd_fenced.
Qed.

Lemma trim_fenced_plain body :
  Str.trim (fenced fence body) = fenced fence body.
Proof.
  unfold Str.trim, fenced.
  change (Str.trimStart (fence ++ ?x)) with (fence ++ x).
  change (fence ++ String Str.LF ?x)
    with ((fence ++ String Str.LF EmptyString) ++ x).
  apply trimEnd_fenced.
Qed.

(** The first replacement takes the opening [json] fence and its line
    feed and leaves the rest, closing fence included. *)
Lemma removeFences_opening_json body :
  Str.occurs tick body = false ->
  Str.removeFences fence_json (fenced fence_json body)
  = body ++ String Str.LF fence.
Proof.
  intros Hb. unfold Str.removeFences, fenced.
  change (String.length (fence_json ++ String Str.LF ?x))
    with (S (7 + String.length x)).
  cbn [Str.removeFences_steps].
  change (fence_json ++ String Str.LF ?x)
    with (String tick (String tick (String tick ("json" ++ String Str.LF x)))).
  change (String.prefix fence_json
            (String tick (String tick (String tick
               ("json" ++ String Str.LF ?x))))) with true.
  cbv iota.
  change (Str.dropLF (Str.drop (String.length fence_json)
            (String tick (String tick (String tick
               ("json" ++ String Str.LF ?x)))))) with x.
  apply removeFences_steps_free.
  apply fenceFree_app; [exact Hb | reflexivity].
Qed.

(** The replacement of the plain fence takes the opening fence with its
    line feed and the closing fence. *)
Lemma removeFences_plain body :
  Str.occurs tick body = false ->
  Str.removeFences fence (fenced fence body)
  = body ++ String Str.LF EmptyString.
Proof.
  intros Hb. unfold Str.removeFences, fenced.
  change (String.length (fence ++ String Str.LF ?x))
    with (S (3 + String.length x)).
  cbn [Str.removeFences_steps].
  change (fence ++ String Str.LF ?x)
    with (String tick (String tick (String tick (String Str.LF x)))).
  change (String.prefix fence
            (String tick (String tick (String tick (String Str.LF ?x)))))
    with true.
  cbv iota.
  change (Str.dropLF (Str.drop (String.length fence)
            (String tick (String tick (String tick (String Str.LF ?x))))))
    with x.
  apply removeFences_closing; [exact Hb|].
  rewrite string_length_app. simpl. lia.
Qed.

(** A JSON array text in a [json] fence, in a plain fence, or bare:
    cleaning returns the array text. *)
Lemma cleanResponse_array inner :
  Str.occurs tick inner = false ->
  cleanResponse (fenced fence_json (arrayText inner)) = arrayText inner
  /\ cleanResponse (fenced fence (arrayText inner)) = arrayText inner
  /\ cleanResponse (arrayText inner) = arrayText inner.
Proof.
  intros Hi.
  assert (Ha : Str.occurs tick (arrayText inner) = false).
  { unfold arrayText. simpl. rewrite occurs_app, Hi. reflexivity. }
  split; [| split]; unfold cleanResponse.
  - rewrite trim_fenced_json.
    change (Str.startsWith (fenced fence_json ?x) fence_json) with true.
    cbv iota. rewrite (removeFences_opening_json _ Ha).
    unfold Str.removeFences.
    rewrite (removeFences_closing _ Ha)
      by (rewrite string_length_app; simpl; lia).
    apply trim_arrayText_LF.
  - rewrite trim_fenced_plain.
    change (Str.startsWith (fenced fence ?x) fence_json) with false.
    change (Str.startsWith (fenced fence ?x) fence) with true.
    cbv iota. rewrite (removeFences_plain _ Ha).
    apply trim_arrayText_LF.
  - rewrite trim_arrayText.
    change (Str.startsWith (arrayText inner) fence_json) with false.
    change (Str.startsWith (arrayText inner) fence) with false.
    cbv iota. apply trim_arrayText.
Qed.

End CleanFacts.

Section ParserRuns.
Import GeminiAIService Shape.
Variable JSON_parse : string -> JSON.parsed.

(** A response that cleans to an array of well-formed elements. *)
Lemma parse_elements responseText items shapes :
  JSON_parse (cleanResponse responseText) = JSON.Parsed (JSON.Array items) ->
  elements items shapes ->
  parseQuestionsFromResponse JSON_parse responseText
  = ([], Ok (questionsFrom 0 shapes)).
Proof.
  intros Hp He. unfold parseQuestionsFromResponse, parseData.
  rewrite Hp. simpl. now rewrite (mapFrom_elements items shapes He).
Qed.

(** A response that [JSON.parse] rejects: the three lines on the console,
    then the salvage. *)
Lemma parseData_rejected responseText message :
  JSON_parse (cleanResponse responseText) = JSON.Rejected message ->
  parseData JSON_parse responseText (cleanResponse responseText)
  = ([LogError "JSON Parse Error:" message;
      LogText "Raw Response:" responseText;
      LogText "Cleaned JSON Text:" (cleanResponse responseText)],
     match Str.arrayMatch (cleanResponse responseText) with
     | Some sub =>
         match JSON_parse sub with
         | JSON.Parsed data => Ok data
         | JSON.Rejected _ => Throw (invalidJSON message)
         end
     | None => Throw (invalidJSON message)
     end).
Proof. intros H. unfold parseData. now rewrite H. Qed.

End ParserRuns.

(** C6.  When the response, cleaned of its markdown fence, parses to an
    array whose elements have the asked-for shape, the parser returns one
    question per element, in order, and logs nothing.  The identifier of
    the question at position i is i + 1, whatever the element says about
    identifiers; its correctIndex is the code of the upper-cased first
    character of [correctAnswer] less 65, so that A, B, C, D (in either
    case) give 0, 1, 2, 3.  The cleaning returns an array text (one
    without back-ticks) as it is, whether it comes in a [json] fence, in
    a plain fence or bare.  The fenced two-element sample with the
    answers B and D, read by the reference parser, gives the identifiers
    1 and 2 and the indices 1 and 3, although its elements are labelled
    17 and 4. *)
Theorem parse_valid_array :
  (forall (JSON_parse : string -> JSON.parsed) responseText items shapes,
      JSON_parse (GeminiAIService.cleanResponse responseText)
        = JSON.Parsed (JSON.Array items) ->
      Shape.elements items shapes ->
      GeminiAIService.parseQuestionsFromResponse JSON_parse responseText
        = ([], Ok (Shape.questionsFrom 0 shapes))
      /\ List.length (Shape.questionsFrom 0 shapes) = List.length items
      /\ map Question.id (Shape.questionsFrom 0 shapes)
         = map Z.of_nat (seq 1 (List.length items))
      /\ map Question.correctIndex (Shape.questionsFrom 0 shapes)
         = map (fun '(_, _, correctAnswer) => Shape.letterIndex correctAnswer)
               shapes)
  /\ (forall rest,
         Shape.letterIndex (String "A" rest) = Int 0
         /\ Shape.letterIndex (String "B" rest) = Int 1
         /\ Shape.letterIndex (String "C" rest) = Int 2
         /\ Shape.letterIndex (String "D" rest) = Int 3
         /\ Shape.letterIndex (String "a" rest) = Int 0
         /\ Shape.letterIndex (String "b" rest) = Int 1
         /\ Shape.letterIndex (String "c" rest) = Int 2
         /\ Shape.letterIndex (String "d" rest) = Int 3)
  /\ (forall inner,
         Str.occurs Shape.tick inner = false ->
         GeminiAIService.cleanResponse
           (Shape.fenced GeminiAIService.fence_json (Shape.arrayText inner))
         = Shape.arrayText inner
         /\ GeminiAIService.cleanResponse
              (Shape.fenced GeminiAIService.fence (Shape.arrayText inner))
            = Shape.arrayText inner
         /\ GeminiAIService.cleanResponse (Shape.arrayText inner)
            = Shape.arrayText inner)
  /\ (exists q1 q2,
         GeminiAIService.parseQuestionsFromResponse JSONRef.parse
           Samples.fencedResponse = ([], Ok [q1; q2])
         /\ Question.id q1 = 1 /\ Question.correctIndex q1 = Int 1
         /\ Question.id q2 = 2 /\ Question.correctIndex q2 = Int 3).
Proof.
  split; [| split; [| split; [exact cleanResponse_array |]]].
  - intros JSON_parse responseText items shapes Hp He.
    assert (Hlen : List.length shapes = List.length items).
    { clear Hp. induction He; simpl; congruence. }
    split; [exact (parse_elements JSON_parse _ _ _ Hp He)|]. split; [| split].
    + rewrite <- Hlen, <- (length_map Question.id), questionsFrom_ids.
      now rewrite length_map, length_seq.
    + rewrite <- Hlen. apply questionsFrom_ids.
    + apply questionsFrom_correctIndex.
  - intros rest. repeat split.
  - do 2 eexists. split; [vm_compute; reflexivity|]. repeat split.
Qed.

(** The hypotheses hold of the fenced sample and the reference parser. *)
Lemma parse_valid_array_witness :
  exists items shapes,
    JSONRef.parse (GeminiAIService.cleanResponse Samples.fencedResponse)
      = JSON.Parsed (JSON.Array items)
    /\ Shape.elements items shapes
    /\ GeminiAIService.parseQuestionsFromResponse JSONRef.parse
         Samples.fencedResponse
       = ([], Ok (Shape.questionsFrom 0 shapes))
    /\ map Question.id (Shape.questionsFrom 0 shapes) = [1; 2]
    /\ map Question.correctIndex (Shape.questionsFrom 0 shapes)
       = [Int 1; Int 3].
Proof.
  assert (Hp : { items |
      JSONRef.parse (GeminiAIService.cleanResponse Samples.fencedResponse)
      = JSON.Parsed (JSON.Array items) }).
  { eexists. vm_compute. reflexivity. }
  destruct Hp as [items Hp].
  assert (He : Shape.elements items
      [("What is the capital of Spain?",
        Samples.fourOptions "Berlin" "Madrid" "Paris" "Rome", "B");
       ("Which planet is the largest?",
        Samples.fourOptions "Mars" "Venus" "Earth" "Jupiter", "D")]).
  { vm_compute in Hp. injection Hp as Hp. subst items.
    repeat constructor; try (eexists; split; reflexivity). }
  destruct (proj1 parse_valid_array JSONRef.parse Samples.fencedResponse
              items _ Hp He) as (Hrun & _ & Hid & Hci).
  exists items. eexists. split; [exact Hp|]. split; [exact He|].
  split; [exact Hrun|]. split; reflexivity.
Defined.

Section SalvageFacts.
Import Shape.

Lemma take_drop n : forall s, Str.take n s ++ Str.drop n s = s.
Proof.
  induction n as [|n IH]; intros [|c s]; simpl; try reflexivity.
  now rewrite IH.
Qed.

Lemma length_take n : forall s,
  (n <= String.length s)%nat -> String.length (Str.take n s) = n.
Proof.
  induction n as [|n IH]; intros [|c s] H; simpl in *; try lia.
  rewrite IH; lia.
Qed.

Lemma drop_app pre : forall t, Str.drop (String.length pre) (pre ++ t) = t.
Proof. induction pre as [|c pre IH]; intros t; simpl; auto. Qed.

Lemma take_app pre : forall t, Str.take (String.length pre) (pre ++ t) = pre.
Proof.
  induction pre as [|c pre IH]; intros t; simpl.
  - now destruct t.
  - now rewrite IH.
Qed.

Lemma drop_past ws d body :
  Str.drop (S (String.length ws)) (ws ++ String d body) = body.
Proof. induction ws as [|c ws IH]; simpl; auto. Qed.

Lemma spacesThen_sound d : forall s k,
  Str.is_space d = false ->
  Str.spacesThen d s = Some k ->
  exists ws rest,
    blank ws = true /\ s = ws ++ String d rest
    /\ k = S (String.length ws).
Proof.
  induction s as [|c s IH]; intros k Hd H; simpl in H; [discriminate|].
  destruct (Ascii.eqb_spec c d) as [->|Hne].
  - injection H as <-. exists EmptyString, s. auto.
  - destruct (Str.is_space c) eqn:Ec; [|discriminate].
    destruct (Str.spacesThen d s) as [k'|] eqn:Ek; [|discriminate].
    injection H as <-.
    destruct (IH k' Hd eq_refl) as (ws & rest & Hb & -> & ->).
    exists (String c ws), rest. simpl. rewrite Ec, Hb. auto.
Qed.

Lemma spacesThen_complete d rest : forall ws,
  Str.is_space d = false ->
  blank ws = true ->
  Str.spacesThen d (ws ++ String d rest) = Some (S (String.length ws)).
Proof.
  induction ws as [|c ws IH]; intros Hd Hb; simpl.
  - now rewrite Ascii.eqb_refl.
  - simpl in Hb. apply andb_prop in Hb. destruct Hb as [Hc Hb].
    destruct (Ascii.eqb_spec c d) as [->|Hne]; [congruence|].
    now rewrite Hc, IH.
Qed.

(** White space and [x] cannot hide a [y] that is neither. *)
Lemma blank_before x y r t : forall ws mid,
  blank ws = true -> Str.is_space y = false -> y <> x ->
  ws ++ String x r = mid ++ String y t ->
  (String.length ws < String.length mid)%nat.
Proof.
  induction ws as [|c ws IH]; intros [|c' mid] Hb Hy Hne H; simpl in *.
  - injection H as -> _. congruence.
  - lia.
  - injection H as -> _. apply andb_prop in Hb. destruct Hb. congruence.
  - injection H as -> H. apply andb_prop in Hb. destruct Hb as [_ Hb].
    specialize (IH mid Hb Hy Hne H). lia.
Qed.

Lemma closing_length c : closing c -> (2 <= String.length c)%nat.
Proof.
  intros (ws & _ & ->). simpl. rewrite string_length_app. simpl. lia.
Qed.

Lemma closeLen_sound : forall body n,
  Str.closeLen body = Some n ->
  exists mid c rest,
    closing c /\ body = mid ++ c ++ rest
    /\ n = (String.length mid + String.length c)%nat.
Proof.
  induction body as [|ch r IH]; intros n H; simpl in H; [discriminate|].
  destruct (Str.closeLen r) as [n'|] eqn:En.
  - injection H as <-.
    destruct (IH n' eq_refl) as (mid & c & rest & Hc & -> & ->).
    exists (String ch mid), c, rest. auto.
  - destruct (Ascii.eqb_spec ch "}") as [->|]; [|discriminate].
    destruct (Str.spacesThen "]" r) as [k|] eqn:Ek; [|discriminate].
    injection H as <-.
    destruct (spacesThen_sound "]" r k eq_refl Ek)
      as (ws & rest & Hb & -> & ->).
    exists EmptyString, ("}" ++ ws ++ "]"), rest.
    split; [now exists ws|]. split.
    + simpl. now rewrite string_app_assoc.
    + simpl. rewrite string_length_app. simpl. lia.
Qed.

Lemma closeLen_max c rest : forall mid,
  closing c ->
  exists n,
    Str.closeLen (mid ++ c ++ rest) = Some n
    /\ (String.length mid + String.length c <= n)%nat.
Proof.
  intros mid Hc. induction mid as [|ch mid IH].
  - destruct Hc as (ws & Hb & ->). simpl.
    rewrite string_app_assoc. simpl.
    destruct (Str.closeLen (ws ++ String "]" rest)) as [n'|] eqn:En.
    + exists (S n'). split; [reflexivity|].
      destruct (closeLen_sound _ _ En) as (mid1 & c1 & rest1 & Hc1 & E1 & ->).
      destruct Hc1 as (ws1 & _ & ->). simpl in E1.
      pose proof (blank_before "]" "}" rest _ ws mid1 Hb eq_refl
                    ltac:(discriminate) E1).
      rewrite string_length_app. simpl. rewrite string_length_app. simpl.
      lia.
    + rewrite (spacesThen_complete "]" rest ws eq_refl Hb). simpl.
      eexists. split; [reflexivity|].
      rewrite string_length_app. simpl. lia.
  - destruct IH as (n & Hn & Hle). simpl. rewrite Hn.
    exists (S n). split; [reflexivity | lia].
Qed.

Lemma matchHere_sound s n :
  Str.matchHere s = Some n ->
  exists o mid c rest,
    opening o /\ closing c /\ s = (o ++ mid ++ c) ++ rest
    /\ n = String.length (o ++ mid ++ c).
Proof.
  unfold Str.matchHere. destruct s as [|ch s]; [discriminate|].
  destruct (Ascii.eqb_spec ch "[") as [->|]; [|discriminate].
  destruct (Str.spacesThen "{" s) as [k|] eqn:Ek; [|discriminate].
  destruct (spacesThen_sound "{" s k eq_refl Ek) as (ws & body & Hb & -> & ->).
  rewrite drop_past.
  destruct (Str.closeLen body) as [n2|] eqn:En; [|discriminate].
  intros H. injection H as <-.
  destruct (closeLen_sound body n2 En) as (mid & c & rest & Hc & -> & ->).
  exists ("[" ++ ws ++ "{"), mid, c, rest.
  split; [now exists ws|]. split; [exact Hc|]. split.
  - simpl. f_equal. rewrite !string_app_assoc. reflexivity.
  - simpl. rewrite ?string_length_app. simpl. rewrite ?string_length_app.
    simpl. lia.
Qed.

Lemma matchHere_complete o mid c rest :
  opening o -> closing c ->
  exists n,
    Str.matchHere ((o ++ mid ++ c) ++ rest) = Some n
    /\ (String.length (o ++ mid ++ c) <= n)%nat.
Proof.
  intros (ws & Hb & ->) Hc. unfold Str.matchHere. simpl.
  rewrite !string_app_assoc. simpl.
  rewrite (spacesThen_complete "{" _ ws eq_refl Hb).
  rewrite drop_past.
  destruct (closeLen_max c rest mid Hc) as (n & -> & Hle).
  eexists. split; [reflexivity|].
  rewrite ?string_length_app. simpl. rewrite ?string_length_app. simpl.
  rewrite ?string_length_app. lia.
Qed.

Lemma arrayMatch_found : forall s m,
  Str.arrayMatch s = Some m ->
  exists pre post,
    s = pre ++ m ++ post
    /\ Str.matchHere (Str.drop (String.length pre) s)
       = Some (String.length m)
    /\ forall j, (j < String.length pre)%nat ->
                 Str.matchHere (Str.drop j s) = None.
Proof.
  assert (Hhere : forall s n, Str.matchHere s = Some n ->
            s = EmptyString ++ Str.take n s ++ Str.drop n s
            /\ Str.matchHere (Str.drop 0 s)
               = Some (String.length (Str.take n s))).
  { intros s n Hn. split; [simpl; now rewrite take_drop|].
    destruct (matchHere_sound s n Hn) as (o & mid & c & rest & _ & _ & E & L).
    rewrite length_take; [now destruct s|].
    rewrite E, string_length_app. lia. }
  induction s as [|ch s IH]; intros m H.
  - discriminate.
  - cbn [Str.arrayMatch] in H.
    destruct (Str.matchHere (String ch s)) as [n|] eqn:En.
    + injection H as <-.
      destruct (Hhere _ _ En) as [E L].
      exists EmptyString, (Str.drop n (String ch s)).
      split; [exact E|]. split; [exact L|].
      intros j Hj. simpl in Hj. lia.
    + destruct (IH m H) as (pre & post & -> & Hm & Hbefore).
      exists (String ch pre), post. split; [reflexivity|]. split.
      * exact Hm.
      * intros [|j] Hj; [exact En|]. simpl in Hj. apply Hbefore. lia.
Qed.

Lemma arrayMatch_none : forall s,
  Str.arrayMatch s = None ->
  forall j, Str.matchHere (Str.drop j s) = None.
Proof.
  induction s as [|ch s IH]; intros H j.
  - now destruct j.
  - cbn [Str.arrayMatch] in H.
    destruct (Str.matchHere (String ch s)) as [n|] eqn:En; [discriminate|].
    destruct j as [|j]; [exact En | exact (IH H j)].
Qed.

Lemma matchAt_here s i m :
  matchAt s i m ->
  exists n, Str.matchHere (Str.drop i s) = Some n
            /\ (String.length m <= n)%nat.
Proof.
  intros (pre & post & o & mid & c & -> & <- & -> & Ho & Hc).
  rewrite drop_app. now apply matchHere_complete.
Qed.

(** [arrayMatch] is the match of the regular expression. *)
Lemma arrayMatch_firstMatch s :
  match Str.arrayMatch s with
  | Some m => firstMatch s m
  | None => forall i m, ~ matchAt s i m
  end.
Proof.
  destruct (Str.arrayMatch s) as [m|] eqn:E.
  - destruct (arrayMatch_found s m E) as (pre & post & Es & Hm & Hbefore).
    destruct (matchHere_sound _ _ Hm)
      as (o & mid & c & rest & Ho & Hc & Ed & Hlen).
    assert (Em : m = o ++ mid ++ c).
    { rewrite Es, drop_app in Ed.
      apply (f_equal (Str.take (String.length m))) in Ed.
      rewrite take_app, Hlen, take_app in Ed. exact Ed. }
    exists (String.length pre). split; [|split].
    + exists pre, post, o, mid, c. auto.
    + intros j m' Hj.
      destruct (Nat.lt_ge_cases j (String.length pre)) as [Hlt|]; [|lia].
      destruct (matchAt_here s j m' Hj) as (n & Hn & _).
      rewrite (Hbefore j Hlt) in Hn. discriminate.
    + intros m' Hm'.
      destruct (matchAt_here s _ m' Hm') as (n & Hn & Hle).
      rewrite Hm in Hn. injection Hn as <-. exact Hle.
  - intros i m Hm.
    destruct (matchAt_here s i m Hm) as (n & Hn & _).
    rewrite (arrayMatch_none s E i) in Hn. discriminate.
Qed.

Lemma prefix_length t : forall s,
  String.prefix t s = true -> (String.length t <= String.length s)%nat.
Proof.
  induction t as [|a t IH]; intros [|b s] H; simpl in *; try lia;
    try discriminate.
  destruct (ascii_dec a b); [|discriminate]. specialize (IH s H). lia.
Qed.

(** A text holds no text longer than itself. *)
Lemma includes_length t : forall s,
  Str.includes s t = true -> (String.length t <= String.length s)%nat.
Proof.
  induction s as [|c s IH]; intros H.
  - change (String.prefix t EmptyString || false = true) in H.
    rewrite orb_false_r in H. now apply prefix_length in H.
  - change (String.prefix t (String c s) || Str.includes s t = true) in H.
    apply orb_prop in H. destruct H as [H|H].
    + now apply prefix_length in H.
    + specialize (IH H). simpl. lia.
Qed.

End SalvageFacts.

(** C7, as the code has it.  Let [JSON.parse] reject the cleaned
    response with some message.  If the response holds no opening bracket
    (prose, no array), the parser throws an [Error] whose message is the
    fixed text followed by the message of the parse error, and nothing
    else: neither the parse error itself nor the raw response is put
    into it.  The error depends on the response through that message
    only, so that a response longer than the whole message is not
    carried by it; the parse error, the raw response and the cleaned
    text are written to the console.  Before it throws, the parser tries
    a salvage: the match of [/\[\s*\{[\s\S]*\}\s*\]/] in the cleaned
    text, which is the leftmost match and the longest at its position
    (from the first opening bracket that white space and an opening
    brace follow, to the last closing brace that white space and a
    closing bracket follow), is parsed again; its value is used when
    that succeeds, and the same error, with the message of the first
    failure, is thrown when it fails or when there is no match. *)
Theorem prose_rejected (JSON_parse : string -> JSON.parsed)
    (responseText message : string) :
  JSON_parse (GeminiAIService.cleanResponse responseText)
    = JSON.Rejected message ->
  let jsonText := GeminiAIService.cleanResponse responseText in
  let console :=
    [GeminiAIService.LogError "JSON Parse Error:" message;
     GeminiAIService.LogText "Raw Response:" responseText;
     GeminiAIService.LogText "Cleaned JSON Text:" jsonText] in
  let text :=
    "Invalid JSON response from AI. Please try again. Error: " ++ message in
  let malformed := Error text in
  (Str.occurs "[" responseText = false ->
   GeminiAIService.parseQuestionsFromResponse JSON_parse responseText
   = (console, Throw malformed))
  /\ (Str.arrayMatch jsonText = None ->
      GeminiAIService.parseQuestionsFromResponse JSON_parse responseText
      = (console, Throw malformed))
  /\ (forall sub,
         Str.arrayMatch jsonText = Some sub ->
         GeminiAIService.parseData JSON_parse responseText jsonText
         = (console,
            match JSON_parse sub with
            | JSON.Parsed data => Ok data
            | JSON.Rejected _ => Throw malformed
            end))
  /\ match Str.arrayMatch jsonText with
     | Some sub => Shape.firstMatch jsonText sub
     | None => forall i m, ~ Shape.matchAt jsonText i m
     end
  /\ (forall other,
         JSON_parse (GeminiAIService.cleanResponse other)
           = JSON.Rejected message ->
         Str.arrayMatch (GeminiAIService.cleanResponse other) = None ->
         Str.arrayMatch jsonText = None ->
         snd (GeminiAIService.parseQuestionsFromResponse JSON_parse other)
         = snd (GeminiAIService.parseQuestionsFromResponse JSON_parse
                  responseText))
  /\ ((String.length text < String.length responseText)%nat ->
      Str.includes text responseText = false).
Proof.
  intros Hrej jsonText console text malformed.
  pose proof (parseData_rejected JSON_parse responseText message Hrej) as Hd.
  fold jsonText console in Hd.
  assert (Hnone : Str.arrayMatch jsonText = None ->
            GeminiAIService.parseQuestionsFromResponse JSON_parse responseText
            = (console, Throw malformed)).
  { intros Hm. unfold GeminiAIService.parseQuestionsFromResponse.
    fold jsonText. cbv zeta. rewrite Hd, Hm. reflexivity. }
  split; [| split; [| split; [| split; [| split]]]].
  - intros Hno. apply Hnone, arrayMatch_no_bracket.
    now apply occurs_cleanResponse.
  - exact Hnone.
  - intros sub Hm. rewrite Hd, Hm. reflexivity.
  - apply arrayMatch_firstMatch.
  - intros other Hother Hmo Hm. rewrite (Hnone Hm).
    unfold GeminiAIService.parseQuestionsFromResponse. cbv zeta.
    rewrite (parseData_rejected JSON_parse other message Hother), Hmo.
    reflexivity.
  - intros Hlen.
    destruct (Str.includes text responseText) eqn:E; [|reflexivity].
    apply includes_length in E. lia.
Qed.

(** Instances, with the reference reader and its wording as the
    [JSON.parse]: a prose answer is refused with the message of the
    parse error, and prose around an array is salvaged. *)
Lemma prose_rejected_witness :
  GeminiAIService.parseQuestionsFromResponse JSONRef.parse Samples.prose1
  = ([GeminiAIService.LogError "JSON Parse Error:"
        (JSONRef.message Samples.prose1 Samples.prose1);
      GeminiAIService.LogText "Raw Response:" Samples.prose1;
      GeminiAIService.LogText "Cleaned JSON Text:" Samples.prose1],
     Throw (Error ("Invalid JSON response from AI. Please try again. Error: "
                     ++ JSONRef.message Samples.prose1 Samples.prose1)))
  /\ snd (GeminiAIService.parseData JSONRef.parse Samples.wrappedResponse
            (GeminiAIService.cleanResponse Samples.wrappedResponse))
     = match JSONRef.parse Samples.letterEResponse with
       | JSON.Parsed data => Ok data
       | JSON.Rejected _ => Untyped
       end
  /\ Shape.firstMatch Samples.wrappedResponse Samples.letterEResponse.
Proof.
  split; [|split].
  - apply (proj1 (prose_rejected JSONRef.parse Samples.prose1
                    (JSONRef.message Samples.prose1 Samples.prose1) eq_refl)).
    reflexivity.
  - rewrite (proj1 (proj2 (proj2 (prose_rejected JSONRef.parse
                             Samples.wrappedResponse
                             (JSONRef.message Samples.wrappedResponse
                                Samples.wrappedResponse)
                             eq_refl)))
               Samples.letterEResponse eq_refl).
    reflexivity.
  - exact (proj1 (proj2 (proj2 (proj2 (prose_rejected JSONRef.parse
                             Samples.wrappedResponse
                             (JSONRef.message Samples.wrappedResponse
                                Samples.wrappedResponse)
                             eq_refl))))).
Defined.

(** C7 as stated fails: the error thrown for a prose answer need not
    carry the raw response.  The long sample, prose without a bracket,
    is refused by every [JSON.parse] that rejects it, and whenever the
    message of the parse error has at most a hundred characters (that of
    the reference reader has) the [Error] thrown does not contain the
    response.  Nor is the salvage the first bracketed substring: the
    second sample holds one, and nothing is extracted from it. *)
Lemma prose_error_without_raw_text :
  Str.occurs "[" Samples.longProse = false
  /\ (forall (JSON_parse : string -> JSON.parsed) message,
         JSON_parse (GeminiAIService.cleanResponse Samples.longProse)
           = JSON.Rejected message ->
         (String.length message <= 100)%nat ->
         exists text,
           snd (GeminiAIService.parseQuestionsFromResponse JSON_parse
                  Samples.longProse) = Throw (Error text)
           /\ Str.includes text Samples.longProse = false)
  /\ (exists message,
         JSONRef.parse (GeminiAIService.cleanResponse Samples.longProse)
           = JSON.Rejected message
         /\ (String.length message <= 100)%nat)
  /\ Str.includes Samples.bracketedProse "[see the note]" = true
  /\ Str.arrayMatch (GeminiAIService.cleanResponse Samples.bracketedProse)
     = None.
Proof.
  split; [vm_compute; reflexivity|].
  split; [|split; [|split; vm_compute; reflexivity]].
  2:{ eexists. split; [vm_compute; reflexivity|]. vm_compute. lia. }
  intros JSON_parse message Hrej Hlen.
  assert (Hno : Str.occurs "[" Samples.longProse = false)
    by (vm_compute; reflexivity).
  assert (Hrun : GeminiAIService.parseQuestionsFromResponse JSON_parse
                   Samples.longProse
                 = ([GeminiAIService.LogError "JSON Parse Error:" message;
                     GeminiAIService.LogText "Raw Response:"
                       Samples.longProse;
                     GeminiAIService.LogText "Cleaned JSON Text:"
                       (GeminiAIService.cleanResponse Samples.longProse)],
                    Throw (Error
                      ("Invalid JSON response from AI. Please try again. "
                         ++ "Error: " ++ message)))).
  { unfold GeminiAIService.parseQuestionsFromResponse. cbv zeta.
    rewrite (parseData_rejected JSON_parse _ message Hrej).
    rewrite (arrayMatch_no_bracket _
               (occurs_cleanResponse _ _ Hno)).
    reflexivity. }
  eexists. split; [rewrite Hrun; reflexivity|].
  match goal with
  | |- Str.includes ?t ?r = false =>
      destruct (Str.includes t r) eqn:E; [|reflexivity];
      apply includes_length in E
  end.
  rewrite string_length_app in E.
  change (String.length Samples.longProse) with 197%nat in E.
  rewrite string_length_app in E.
  change (String.length
            "Invalid JSON response from AI. Please try again. ")
    with 49%nat in E.
  change (String.length "Error: ") with 7%nat in E. lia.
Qed.

(** C10.  The callback of the parser takes the first character of the
    upper-cased [correctAnswer], subtracts 65 from its code and passes
    the difference to the constructor, which stores it unchecked: the
    call returns a question for every element of the asked-for shape
    whose [correctAnswer] begins with an ASCII character.  When the
    difference is no position of the options (for the letters E to Z and
    at most four options it is between 4 and 25, past the end)
    [getCorrectAnswer()] does not throw; it returns [undefined], the
    value of an out-of-bounds read. *)
Theorem letter_not_validated (index : nat) (item : JSON.value)
    (text : string) (options : list string) (c : ascii) (rest : string) :
  Shape.element item text options (String c rest) ->
  (nat_of_ascii c < 128)%nat ->
  let k := Z.of_nat (nat_of_ascii (Str.upper c)) - 65 in
  exists q,
    GeminiAIService.toQuestion index item = Ok q
    /\ Question.correctIndex q = Int k
    /\ Question.options q = options
    /\ (k < 0 \/ Z.of_nat (List.length options) <= k ->
        Question.getCorrectAnswer q = Ok None)
    /\ ((69 <= nat_of_ascii (Str.upper c) <= 90)%nat ->
        (List.length options <= 4)%nat ->
        4 <= k <= 25 /\ Question.getCorrectAnswer q = Ok None).
Proof.
  intros He _ k.
  eexists. split; [exact (toQuestion_element index _ _ _ _ He)|].
  split; [reflexivity|]. split; [reflexivity|].
  assert (Hout : k < 0 \/ Z.of_nat (List.length options) <= k ->
                 Question.getCorrectAnswer
                   (Question.new (Z.of_nat index + 1) text options
                      (Shape.letterIndex (String c rest)) None) = Ok None).
  { intros Hk. unfold Question.getCorrectAnswer. f_equal.
    rewrite letterIndex_first. fold k. simpl.
    destruct (Z.ltb_spec k 0) as [_|Hge]; [reflexivity|].
    apply nth_error_None. lia. }
  split; [exact Hout|].
  intros Hc Hlen. split; [subst k; lia|]. apply Hout. subst k. lia.
Qed.

(** An instance: the element of the sample whose answer is the letter E
    becomes a question with correctIndex 4 and four options. *)
Lemma letter_not_validated_witness :
  exists q,
    GeminiAIService.parseQuestionsFromResponse JSONRef.parse
      Samples.letterEResponse = ([], Ok [q])
    /\ Question.correctIndex q = Int 4
    /\ List.length (Question.options q) = 4%nat
    /\ Question.getCorrectAnswer q = Ok None.
Proof.
  assert (Hp : { item |
      JSONRef.parse (GeminiAIService.cleanResponse Samples.letterEResponse)
      = JSON.Parsed (JSON.Array [item]) }).
  { eexists. vm_compute. reflexivity. }
  destruct Hp as [item Hp].
  assert (He : Shape.element item "Which option is right?"
                 (Samples.fourOptions "one" "two" "three" "four")
                 (String "E" EmptyString)).
  { vm_compute in Hp. injection Hp as Hp. subst item.
    constructor; try (eexists; split; reflexivity); reflexivity. }
  destruct (letter_not_validated 0 item _ _ _ _ He
              ltac:(vm_compute; lia))
    as (q & Hq & Hci & Ho & _ & Hget).
  exists q. split.
  - unfold GeminiAIService.parseQuestionsFromResponse,
      GeminiAIService.parseData.
    rewrite Hp. simpl. now rewrite Hq.
  - split; [exact Hci|]. split; [now rewrite Ho|].
    apply Hget; vm_compute; lia.
Defined.

(* ===================================================================== *)
(** * The models, the adapter, the service and the views at large *)
(* ===================================================================== *)

(** ** Questions *)

Section QuestionAnswers.
Import Question.

Lemma array_get_in_range {A} (l : list A) (i : Z) :
  0 <= i < Z.of_nat (List.length l) -> exists x, array_get l (Int i) = Some x.
Proof.
  intros [H0 H1]. unfold array_get.
  destruct (Z.ltb_spec i 0) as [|_]; [lia|].
  destruct (nth_error l (Z.to_nat i)) as [x|] eqn:E; [now exists x|].
  apply nth_error_None in E. lia.
Qed.

Lemma isCorrect_isAnswered (q : t) : isCorrect q = true -> isAnswered q = true.
Proof.
  unfold isCorrect, isAnswered.
  destruct (_userAnswer q); [reflexivity | discriminate].
Qed.

End QuestionAnswers.

(** X1.  A correct question is an answered one; and after an answer
    with a valid index the question is correct exactly when that index is
    its correct index. *)
Theorem isCorrect_after_answer (q : Question.t) (i : Z) :
  (Question.isCorrect q = true -> Question.isAnswered q = true)
  /\ (0 <= i < Z.of_nat (List.length (Question.options q)) ->
      (Question.isCorrect (snd (Question.setUserAnswer i q)) = true
       <-> Question.correctIndex q = Int i)).
Proof.
  split; [apply isCorrect_isAnswered|].
  intros H. rewrite (setUserAnswer_in_range q i H).
  unfold Question.isCorrect, Question.correctIndex; simpl.
  destruct (Question._correctIndex q) as [|c].
  - split; discriminate.
  - rewrite Z.eqb_eq. split; [intros ->; reflexivity | congruence].
Qed.

Lemma isCorrect_after_answer_witness :
  Question.isCorrect (snd (Question.setUserAnswer 2 Samples.capital)) = true
  /\ Question.isCorrect (snd (Question.setUserAnswer 1 Samples.capital)) = false.
Proof.
  split.
  - apply (proj2 (isCorrect_after_answer Samples.capital 2)); [simpl; lia|].
    reflexivity.
  - destruct (Question.isCorrect (snd (Question.setUserAnswer 1 Samples.capital)))
      eqn:E; [|reflexivity].
    apply (proj2 (isCorrect_after_answer Samples.capital 1)) in E;
      [discriminate | simpl; lia].
Defined.

(** X2.  On a well-formed question, the text of the user's answer is
    one of the options when the question is answered and is absent when
    it is not; on a correct question it is the text of the correct
    answer. *)
Theorem answer_texts (q : Question.t) :
  Question.wf q ->
  (Question.isAnswered q = true ->
   exists t, Question.getUserAnswerText q = Some t /\ In t (Question.options q))
  /\ (Question.isAnswered q = false -> Question.getUserAnswerText q = None)
  /\ (Question.isCorrect q = true ->
      exists t, Question.getCorrectAnswer q = Ok (Some t)
                /\ Question.getUserAnswerText q = Some t).
Proof.
  unfold Question.wf, Question.isAnswered, Question.getUserAnswerText,
    Question.isCorrect, Question.getCorrectAnswer, Question.options.
  destruct (Question._userAnswer q) as [a|]; intros Hwf.
  - destruct (array_get_in_range (Question._options q) a Hwf) as [t Ht].
    split; [| split].
    + intros _. exists t. split; [exact Ht|].
      unfold array_get in Ht. destruct (a <? 0); [discriminate|].
      now apply nth_error_In in Ht.
    + discriminate.
    + destruct (Question._correctIndex q) as [|c]; [discriminate|].
      intros E. apply Z.eqb_eq in E. subst c. exists t. now rewrite Ht.
  - split; [discriminate | split; [reflexivity | discriminate]].
Qed.

Lemma answer_texts_witness :
  Question.getUserAnswerText Samples.capital_answered = Some "C) Paris"
  /\ Question.getCorrectAnswer Samples.capital_answered = Ok (Some "C) Paris").
Proof.
  assert (Hwf : Question.wf Samples.capital_answered)
    by (vm_compute; split; [discriminate | reflexivity]).
  destruct (proj2 (proj2 (answer_texts Samples.capital_answered Hwf)) eq_refl)
    as (t & Hc & Hu).
  split; [rewrite Hu | rewrite Hc]; vm_compute in Hu; congruence.
Defined.

(** X3.  [Question.fromJSON] either returns a question or throws
    "Invalid answer index", the latter exactly when the record carries a
    [userAnswer] outside its options; a question it returns is
    well-formed and serialises back to the record. *)
Theorem fromJSON_sound (data : Question.JSON.t) :
  (forall q, Question.fromJSON data = Ok q ->
             Question.wf q /\ Question.toJSON q = data)
  /\ (Question.fromJSON data = Throw Question.invalid_answer
      <-> exists a,
          Question.JSON.userAnswer data = Some a
          /\ ~ (0 <= a < Z.of_nat (List.length (Question.JSON.options data))))
  /\ ((exists q, Question.fromJSON data = Ok q)
      \/ Question.fromJSON data = Throw Question.invalid_answer).
Proof.
  destruct data as [id text options correctIndex difficulty [a|]];
    unfold Question.fromJSON; simpl.
  - set (fresh := Question.new id text options correctIndex difficulty).
    destruct (Z.le_gt_cases 0 a) as [H0|H0];
      [destruct (Z.lt_ge_cases a (Z.of_nat (List.length options))) as [H1|H1]|].
    + rewrite (setUserAnswer_in_range fresh a) by (simpl; lia).
      split; [| split].
      * intros q E. injection E as <-. split; [|reflexivity].
        unfold Question.wf; simpl. lia.
      * split; [discriminate|]. intros (a' & E & Hn). injection E as <-. lia.
      * left. eexists. reflexivity.
    + rewrite (setUserAnswer_out_of_range fresh a) by (simpl; lia).
      split; [| split].
      * discriminate.
      * split; [|reflexivity]. intros _. exists a. split; [reflexivity | lia].
      * now right.
    + rewrite (setUserAnswer_out_of_range fresh a) by (simpl; lia).
      split; [| split].
      * discriminate.
      * split; [|reflexivity]. intros _. exists a. split; [reflexivity | lia].
      * now right.
  - split; [| split].
    + intros q E. injection E as <-. split; [exact I | reflexivity].
    + split; [discriminate|]. intros (a & E & _). discriminate.
    + left. eexists. reflexivity.
Qed.

Lemma fromJSON_sound_witness :
  Question.fromJSON Samples.corruptRecord = Throw Question.invalid_answer
  /\ Question.wf Samples.capital_answered.
Proof.
  split.
  - apply (proj1 (proj2 (fromJSON_sound Samples.corruptRecord))).
    exists 9. split; [reflexivity | simpl; lia].
  - apply (proj1 (fromJSON_sound (Question.toJSON Samples.capital_answered))
             Samples.capital_answered).
    reflexivity.
Defined.

(** ** Exams *)

Section ExamAnswers.
Import Exam.

Lemma setUserAnswer_id i q :
  Question.id (snd (Question.setUserAnswer i q)) = Question.id q.
Proof.
  unfold Question.setUserAnswer.
  destruct (_ && _); reflexivity.
Qed.

Lemma setUserAnswer_failed i q e :
  fst (Question.setUserAnswer i q) = Throw e ->
  snd (Question.setUserAnswer i q) = q.
Proof.
  unfold Question.setUserAnswer.
  destruct (_ && _); [discriminate | reflexivity].
Qed.

Lemma answerFirst_none questionId i qs :
  answerFirst questionId i qs = None
  <-> find (fun q => Question.id q =? questionId) qs = None.
Proof.
  induction qs as [|q qs IH]; simpl; [tauto|].
  destruct (Question.id q =? questionId).
  - destruct (Question.setUserAnswer i q). split; discriminate.
  - destruct (answerFirst questionId i qs) as [[r qs']|].
    + split; [discriminate|]. intros H. apply IH in H. discriminate.
    + tauto.
Qed.

(** What [answerFirst] does to the list when a question has the
    identifier. *)
Lemma answerFirst_some questionId i qs q :
  find (fun q => Question.id q =? questionId) qs = Some q ->
  exists qs',
    answerFirst questionId i qs = Some (fst (Question.setUserAnswer i q), qs')
    /\ find (fun q => Question.id q =? questionId) qs'
       = Some (snd (Question.setUserAnswer i q))
    /\ map Question.id qs' = map Question.id qs
    /\ (forall other, other <> questionId ->
        find (fun q => Question.id q =? other) qs'
        = find (fun q => Question.id q =? other) qs)
    /\ (snd (Question.setUserAnswer i q) = q -> qs' = qs)
    /\ (List.length (filter Question.isAnswered qs')
        + (if Question.isAnswered q then 1 else 0)
        = List.length (filter Question.isAnswered qs)
          + (if Question.isAnswered (snd (Question.setUserAnswer i q))
             then 1 else 0))%nat
    /\ (Forall Question.wf qs -> Forall Question.wf qs').
Proof.
  induction qs as [|q0 qs IH]; simpl; [discriminate|].
  destruct (Question.id q0 =? questionId) eqn:E.
  - intros H. injection H as ->.
    pose proof (setUserAnswer_id i q) as Hid.
    pose proof (setUserAnswer_wf q i) as Hw.
    destruct (Question.setUserAnswer i q) as [r q']. simpl in *.
    exists (q' :: qs). simpl. rewrite Hid, E. simpl.
    repeat split; try congruence.
    + intros other Hne. apply Z.eqb_eq in E. rewrite E.
      destruct (Z.eqb_spec questionId other); [congruence | reflexivity].
    + destruct (Question.isAnswered q'), (Question.isAnswered q); simpl; lia.
    + intros Hwf. inversion Hwf; subst. constructor; auto.
  - intros H. destruct (IH H) as (qs' & Ha & Hf & Hm & Hfl & Hsame & Hc & Hwf).
    exists (q0 :: qs'). rewrite Ha. simpl. rewrite E. simpl.
    repeat split; try congruence.
    + intros other Hne. now rewrite (Hfl other Hne).
    + intros Hs. now rewrite (Hsame Hs).
    + destruct (Question.isAnswered q0); simpl; lia.
    + intros Hall. inversion Hall; subst. constructor; auto.
Qed.

Lemma filter_all {A} (p : A -> bool) (l : list A) :
  List.length (filter p l) = List.length l <-> forallb p l = true.
Proof.
  induction l as [|x l IH]; simpl; [tauto|].
  pose proof (filter_length_le p l) as Hle.
  destruct (p x); simpl.
  - rewrite <- IH. lia.
  - split; [lia | discriminate].
Qed.

End ExamAnswers.

(** X4.  [answerQuestion] throws "Question with id N not found", and
    leaves the exam as it was, exactly when no question has the
    identifier. *)
Theorem answerQuestion_not_found (questionId answerIndex : Z) (e : Exam.t) :
  let notFound :=
    Error ("Question with id " ++ string_of_Z questionId ++ " not found") in
  (Exam.getQuestion questionId e = None ->
   Exam.answerQuestion questionId answerIndex e = (Throw notFound, e))
  /\ (fst (Exam.answerQuestion questionId answerIndex e) = Throw notFound ->
      Exam.getQuestion questionId e = None).
Proof.
  intros notFound. unfold Exam.answerQuestion, Exam.getQuestion. split.
  - intros H. apply (answerFirst_none questionId answerIndex) in H.
    now rewrite H.
  - destruct (find _ (Exam._questions e)) as [q|] eqn:Ef; [|reflexivity].
    destruct (answerFirst_some questionId answerIndex _ q Ef)
      as (qs' & Ha & _).
    rewrite Ha. simpl. unfold Question.setUserAnswer.
    destruct (_ && _); simpl; discriminate.
Qed.

Lemma answerQuestion_not_found_witness :
  Exam.answerQuestion 7 0 Samples.exam3
  = (Throw (Error "Question with id 7 not found"), Samples.exam3).
Proof.
  apply (proj1 (answerQuestion_not_found 7 0 Samples.exam3)). reflexivity.
Defined.

(** X5.  When a question has the identifier, [answerQuestion] ends as
    [setUserAnswer] on the first such question does; that question holds
    the new state; the other identifiers, the order of the questions,
    the title, the limit and the stamps are untouched; and a call that
    throws leaves the exam as it was. *)
Theorem answerQuestion_found (questionId answerIndex : Z) (e : Exam.t)
    (q : Question.t) :
  Exam.getQuestion questionId e = Some q ->
  let r := Exam.answerQuestion questionId answerIndex e in
  fst r = fst (Question.setUserAnswer answerIndex q)
  /\ Exam.getQuestion questionId (snd r)
     = Some (snd (Question.setUserAnswer answerIndex q))
  /\ (forall other, other <> questionId ->
      Exam.getQuestion other (snd r) = Exam.getQuestion other e)
  /\ map Question.id (Exam.questions (snd r))
     = map Question.id (Exam.questions e)
  /\ Exam.title (snd r) = Exam.title e
  /\ Exam.timeLimit (snd r) = Exam.timeLimit e
  /\ Exam.startTime (snd r) = Exam.startTime e
  /\ Exam.endTime (snd r) = Exam.endTime e
  /\ (forall err, fst r = Throw err -> snd r = e).
Proof.
  unfold Exam.getQuestion, Exam.answerQuestion. intros Hq.
  destruct (answerFirst_some questionId answerIndex _ q Hq)
    as (qs' & Ha & Hf & Hm & Ho & Hsame & _).
  rewrite Ha. simpl. repeat split; try assumption.
  intros err Herr. rewrite (Hsame (setUserAnswer_failed _ _ _ Herr)).
  now destruct e.
Qed.

Lemma answerQuestion_found_witness :
  fst (Exam.answerQuestion 3 1 Samples.exam3) = Ok tt
  /\ option_map Question.userAnswer
       (Exam.getQuestion 3 (snd (Exam.answerQuestion 3 1 Samples.exam3)))
     = Some (Some 1)
  /\ snd (Exam.answerQuestion 3 4 Samples.exam3) = Samples.exam3.
Proof.
  destruct (answerQuestion_found 3 1 Samples.exam3 Samples.loop eq_refl)
    as (H1 & H2 & _).
  destruct (answerQuestion_found 3 4 Samples.exam3 Samples.loop eq_refl)
    as (_ & _ & _ & _ & _ & _ & _ & _ & H3).
  split; [rewrite H1; reflexivity|].
  split; [rewrite H2; reflexivity|].
  apply (H3 Question.invalid_answer). reflexivity.
Defined.

(** X6.  Well-formedness buys itself: an exam built from well-formed
    questions is well-formed, the questions the parser builds are
    well-formed, and answering, starting and ending keep a well-formed
    exam well-formed. *)
Theorem Exam_wf_preserved :
  (forall title questions timeLimit,
      Forall Question.wf questions ->
      Exam.wf (Exam.new title questions timeLimit))
  /\ (forall index shapes,
         Forall Question.wf (Shape.questionsFrom index shapes))
  /\ (forall e,
         Exam.wf e ->
         (forall questionId answerIndex,
             Exam.wf (snd (Exam.answerQuestion questionId answerIndex e)))
         /\ (forall now, Date.inRange now ->
                         Exam.wf (Exam.start now e)
                         /\ Exam.wf (Exam.end_ now e))).
Proof.
  split; [| split].
  - intros title questions timeLimit H. repeat split; assumption.
  - intros index shapes. revert index.
    induction shapes as [|[[text options] answer] shapes IH]; intros index;
      simpl; constructor; [exact I | apply IH].
  - intros e (Hq & Hs & He). split.
    + intros questionId answerIndex. unfold Exam.answerQuestion.
      destruct (find (fun q => Question.id q =? questionId) (Exam._questions e))
        as [q|] eqn:Ef.
      * destruct (answerFirst_some questionId answerIndex _ q Ef)
          as (qs' & Ha & _ & _ & _ & _ & _ & Hwf).
        rewrite Ha. simpl. repeat split; auto.
      * apply (answerFirst_none questionId answerIndex) in Ef. rewrite Ef.
        repeat split; assumption.
    + intros now Hnow. repeat split; simpl; auto; apply Hnow.
Qed.

Lemma Exam_wf_preserved_witness :
  Exam.wf (Exam.end_ Samples.t1
             (snd (Exam.answerQuestion 3 1
                     (Exam.start Samples.t0
                        (Exam.new "Sample"
                           (Shape.questionsFrom 0
                              [("One?", Samples.fourOptions "a" "b" "c" "d", "B");
                               ("Two?", Samples.fourOptions "a" "b" "c" "d", "C");
                               ("Three?", Samples.fourOptions "a" "b" "c" "d", "A")])
                           None))))).
Proof.
  destruct Exam_wf_preserved as (Hnew & Hfresh & Hstep).
  assert (R0 : Date.inRange Samples.t0) by (vm_compute; split; discriminate).
  assert (R1 : Date.inRange Samples.t1) by (vm_compute; split; discriminate).
  apply Hstep; [|exact R1].
  apply Hstep. apply Hstep; [|exact R0].
  apply Hnew, Hfresh.
Defined.

(** X7.  A valid answer raises the answered count by one when the
    question was unanswered and leaves it otherwise; an invalid one
    leaves it; the number of questions never changes. *)
Theorem answeredCount_step (questionId answerIndex : Z) (e : Exam.t)
    (q : Question.t) :
  Exam.getQuestion questionId e = Some q ->
  let e' := snd (Exam.answerQuestion questionId answerIndex e) in
  (0 <= answerIndex < Z.of_nat (List.length (Question.options q)) ->
   Exam.getAnsweredCount e'
   = (Exam.getAnsweredCount e + (if Question.isAnswered q then 0 else 1))%nat)
  /\ (~ (0 <= answerIndex < Z.of_nat (List.length (Question.options q))) ->
      Exam.getAnsweredCount e' = Exam.getAnsweredCount e)
  /\ Exam.totalQuestions e' = Exam.totalQuestions e.
Proof.
  unfold Exam.getQuestion, Exam.answerQuestion, Exam.getAnsweredCount,
    Exam.totalQuestions.
  intros Hq.
  destruct (answerFirst_some questionId answerIndex _ q Hq)
    as (qs' & Ha & _ & Hm & _ & _ & Hc & _).
  rewrite Ha. simpl. split; [| split].
  - intros Hin. rewrite (setUserAnswer_in_range q answerIndex Hin) in Hc.
    unfold Question.isAnswered in *. simpl in Hc.
    destruct (Question._userAnswer q); lia.
  - intros Hout. rewrite (setUserAnswer_out_of_range q answerIndex Hout) in Hc.
    simpl in Hc. destruct (Question.isAnswered q); lia.
  - rewrite <- (length_map Question.id qs'), Hm. apply length_map.
Qed.

Lemma answeredCount_step_witness :
  Exam.getAnsweredCount (snd (Exam.answerQuestion 3 1 Samples.exam3)) = 3%nat
  /\ Exam.getAnsweredCount (snd (Exam.answerQuestion 1 0 Samples.exam3)) = 2%nat.
Proof.
  split.
  - rewrite (proj1 (answeredCount_step 3 1 Samples.exam3 Samples.loop eq_refl));
      [reflexivity | simpl; lia].
  - rewrite (proj1 (answeredCount_step 1 0 Samples.exam3
                      Samples.capital_answered eq_refl));
      [reflexivity | simpl; lia].
Defined.

(** X8.  [canSubmit()] holds exactly when every question is answered;
    it fails exactly when some question is not. *)
Theorem canSubmit_all_answered (e : Exam.t) :
  (Exam.canSubmit e = true
   <-> forall q, In q (Exam.questions e) -> Question.isAnswered q = true)
  /\ (Exam.canSubmit e = false
      <-> exists q, In q (Exam.questions e) /\ Question.isAnswered q = false).
Proof.
  assert (H : Exam.canSubmit e = true
              <-> forallb Question.isAnswered (Exam.questions e) = true).
  { rewrite canSubmit_iff. apply filter_all. }
  split.
  - rewrite H. apply forallb_forall.
  - rewrite <- not_true_iff_false, H, forallb_forall. split.
    + intros Hn.
      destruct (forallb Question.isAnswered (Exam.questions e)) eqn:E.
      * exfalso. apply Hn. now apply forallb_forall.
      * clear Hn. induction (Exam.questions e) as [|q l IH];
          [discriminate|]. simpl in E.
        destruct (Question.isAnswered q) eqn:Eq.
        -- destruct (IH E) as (q' & Hin & Hq'). exists q'. split;
             [now right | exact Hq'].
        -- exists q. split; [now left | exact Eq].
    + intros (q & Hin & Hq) Hall. rewrite (Hall q Hin) in Hq. discriminate.
Qed.

Lemma canSubmit_all_answered_witness :
  Exam.canSubmit Samples.exam3 = false
  /\ Exam.canSubmit (snd (Exam.answerQuestion 3 1 Samples.exam3)) = true.
Proof.
  split.
  - apply (proj2 (canSubmit_all_answered Samples.exam3)).
    exists Samples.loop. split; [simpl; tauto | reflexivity].
  - apply (proj1 (canSubmit_all_answered _)).
    intros q [<-|[<-|[<-|[]]]]; reflexivity.
Defined.

(** ** Whole seconds in binary64 *)

Section ElapsedFacts.

Lemma iter_pos_nat {A} (f : A -> A) : forall p x,
  iter_pos f p x = Nat.iter (Pos.to_nat p) f x.
Proof.
  induction p as [p IH|p IH|]; intros x; cbn [iter_pos].
  - rewrite !IH, Pos2Nat.inj_xI.
    replace (S (2 * Pos.to_nat p))%nat
      with (Pos.to_nat p + S (Pos.to_nat p))%nat by lia.
    rewrite Nat.iter_add. f_equal. now rewrite Nat.iter_succ_r.
  - rewrite !IH, Pos2Nat.inj_xO.
    replace (2 * Pos.to_nat p)%nat with (Pos.to_nat p + Pos.to_nat p)%nat
      by lia.
    now rewrite Nat.iter_add.
  - reflexivity.
Qed.

Definition exact (m : Z) : shr_record :=
  {| shr_m := m; shr_r := false; shr_s := false |}.

Lemma shr_1_exact m : 0 <= m -> shr_1 (exact (2 * m)) = exact m.
Proof.
  intros H. unfold exact. destruct m as [|p|p]; try lia; reflexivity.
Qed.

Lemma iter_shr_1_exact (k : nat) : forall m,
  0 <= m -> Nat.iter k shr_1 (exact (m * 2 ^ Z.of_nat k)) = exact m.
Proof.
  induction k as [|k IH]; intros m Hm.
  - simpl. now rewrite Z.mul_1_r.
  - rewrite Nat.iter_succ_r.
    replace (m * 2 ^ Z.of_nat (S k)) with (2 * (m * 2 ^ Z.of_nat k))
      by (rewrite Nat2Z.inj_succ, Z.pow_succ_r by lia; ring).
    rewrite shr_1_exact by (apply Z.mul_nonneg_nonneg; lia).
    now apply IH.
Qed.

(** Shifting right by [k + j] a mantissa that ends in [k] zeros. *)
Lemma shr_exact m e k j :
  0 <= m -> 0 <= k -> 0 <= j ->
  shr (exact (m * 2 ^ k)) e (k + j) = shr (exact m) (e + k) j.
Proof.
  intros Hm Hk Hj. unfold shr.
  destruct k as [|k|k]; try lia.
  - simpl. rewrite Z.mul_1_r, Z.add_0_r. reflexivity.
  - destruct j as [|j|j]; try lia.
    + rewrite Z.add_0_r. rewrite iter_pos_nat.
      replace (Zpos k) with (Z.of_nat (Pos.to_nat k)) at 1
        by apply positive_nat_Z.
      now rewrite iter_shr_1_exact.
    + change (Zpos k + Zpos j) with (Zpos (k + j)).
      rewrite !iter_pos_nat, Pos2Nat.inj_add, Nat.add_comm, Nat.iter_add.
      replace (Zpos k) with (Z.of_nat (Pos.to_nat k)) at 1
        by apply positive_nat_Z.
      rewrite iter_shr_1_exact by exact Hm. f_equal. lia.
Qed.

Lemma iter_xO_Z k : forall p, Zpos (Pos.iter xO p k) = Zpos p * 2 ^ Zpos k.
Proof.
  induction k as [|k IH] using Pos.peano_ind; intros p.
  - simpl. lia.
  - rewrite Pos.iter_succ, Pos2Z.inj_xO, IH.
    replace (Zpos (Pos.succ k)) with (Z.succ (Zpos k)) by lia.
    rewrite Z.pow_succ_r by lia. ring.
Qed.

Lemma digits2_pos_succ p :
  Zpos (Pos.succ (digits2_pos p)) = Zpos (digits2_pos p) + 1.
Proof. lia. Qed.

Lemma digits2_pos_lower p : 2 ^ (Zpos (digits2_pos p) - 1) <= Zpos p.
Proof.
  induction p as [p IH|p IH|]; cbn [digits2_pos];
    [| | simpl; lia];
    rewrite digits2_pos_succ;
    replace (Zpos (digits2_pos p) + 1 - 1)
      with (Z.succ (Zpos (digits2_pos p) - 1)) by lia;
    rewrite Z.pow_succ_r by lia; lia.
Qed.

Lemma digits2_pos_upper p : Zpos p < 2 ^ Zpos (digits2_pos p).
Proof.
  induction p as [p IH|p IH|]; cbn [digits2_pos];
    [| | simpl; lia];
    rewrite digits2_pos_succ, Z.add_1_r, Z.pow_succ_r by lia; lia.
Qed.

Lemma digits2_pos_unique p n :
  2 ^ (n - 1) <= Zpos p < 2 ^ n -> Zpos (digits2_pos p) = n.
Proof.
  intros [Hl Hu].
  assert (0 <= n).
  { destruct (Z.lt_ge_cases n 0) as [Hn|]; [|lia].
    rewrite Z.pow_neg_r in Hu by lia. lia. }
  pose proof (NumFacts.digits2_pos_bound p n ltac:(lia) Hu).
  pose proof (digits2_pos_upper p) as Hu'.
  destruct (Z.lt_ge_cases (Zpos (digits2_pos p)) n) as [Hlt|]; [|lia].
  exfalso.
  assert (2 ^ Zpos (digits2_pos p) <= 2 ^ (n - 1))
    by (apply Z.pow_le_mono_r; lia).
  lia.
Qed.


Lemma fexp_digits d : 1 <= d -> fexp Num.prec Num.emax d = d - 53.
Proof. intros H. unfold fexp, emin, Num.prec, Num.emax. lia. Qed.

(** The binary64 value of a positive integer below 2^53: the integer
    itself, with a mantissa of 53 digits. *)
Lemma binary_round_exact s p :
  Zpos p < 2 ^ 53 ->
  exists m,
    binary_round Num.prec Num.emax s p 0
    = S754_finite s m (Zpos (digits2_pos p) - 53)
    /\ Zpos m = Zpos p * 2 ^ (53 - Zpos (digits2_pos p))
    /\ Zpos (digits2_pos m) = 53.
Proof.
  intros Hp. unfold binary_round.
  pose proof (NumFacts.digits2_pos_bound p 53 ltac:(lia) Hp) as Hd.
  rewrite Z.add_0_r, fexp_digits by lia. unfold shl_align.
  destruct (Zpos (digits2_pos p) - 53 - 0) as [|k|k] eqn:Ek; try lia.
  - exists p. split; [|split].
    + replace (Zpos (digits2_pos p) - 53) with 0 by lia.
      apply NumFacts.binary_round_aux_canonical.
      * unfold canonical_mantissa. apply Z.eqb_eq.
        rewrite Z.add_0_r, fexp_digits by lia. lia.
      * unfold Num.emax, Num.prec. lia.
    + replace (53 - Zpos (digits2_pos p)) with 0 by lia. lia.
    + lia.
  - exists (Pos.iter xO p k).
    assert (Hdk : Zpos (digits2_pos (Pos.iter xO p k)) = 53)
      by (rewrite NumFacts.digits2_pos_iter; lia).
    split; [|split].
    + apply NumFacts.binary_round_aux_canonical.
      * unfold canonical_mantissa. apply Z.eqb_eq. rewrite Hdk.
        unfold fexp, emin, Num.prec, Num.emax. lia.
      * unfold Num.emax, Num.prec. lia.
    + rewrite iter_xO_Z. f_equal. f_equal. lia.
    + exact Hdk.
Qed.

Lemma pos_scaled q p k :
  0 < k -> Zpos q = Zpos p * 2 ^ k -> q = Pos.iter xO p (Z.to_pos k).
Proof.
  intros Hk H. apply Pos2Z.inj. rewrite iter_xO_Z, H.
  now rewrite Z2Pos.id by lia.
Qed.

Lemma binary_round_aux_first s m e l m' e' l' :
  shr_fexp Num.prec Num.emax m e l = shr_fexp Num.prec Num.emax m' e' l' ->
  binary_round_aux Num.prec Num.emax s m e l
  = binary_round_aux Num.prec Num.emax s m' e' l'.
Proof. intros H. unfold binary_round_aux. now rewrite H. Qed.

Lemma shr_fexp_exact m e :
  shr_fexp Num.prec Num.emax (Zpos m) e loc_Exact
  = shr (exact (Zpos m)) e
        (fexp Num.prec Num.emax (Zpos (digits2_pos m) + e) - e).
Proof. reflexivity. Qed.

(** The same integer written with [k] more binary zeros and the exponent
    [-k] has the same binary64 value. *)
Lemma binary_round_scaled s q p k :
  0 <= k -> Zpos q = Zpos p * 2 ^ k ->
  binary_round Num.prec Num.emax s q (- k)
  = binary_round Num.prec Num.emax s p 0.
Proof.
  intros Hk Hq.
  destruct (Z.eq_dec k 0) as [->|Hk0].
  { rewrite Z.pow_0_r, Z.mul_1_r in Hq. injection Hq as ->. reflexivity. }
  assert (Hqp : q = Pos.iter xO p (Z.to_pos k)) by (apply pos_scaled; lia).
  assert (Hdq : Zpos (digits2_pos q) = Zpos (digits2_pos p) + k).
  { rewrite Hqp, NumFacts.digits2_pos_iter. rewrite Z2Pos.id by lia. lia. }
  set (d := Zpos (digits2_pos p)) in *.
  assert (Hd : 1 <= d) by (unfold d; lia).
  unfold binary_round. fold d.
  rewrite Hdq, Z.add_0_r.
  replace (d + k + - k) with d by lia.
  rewrite fexp_digits by lia. unfold shl_align.
  destruct (Z.lt_ge_cases (d - 53 + k) 0) as [Hneg|Hnn].
  - (* both are shifted left to 53 digits *)
    destruct (d - 53 - - k) as [|j|j] eqn:Ej; try lia.
    destruct (d - 53 - 0) as [|i|i] eqn:Ei; try lia.
    replace (Pos.iter xO q j) with (Pos.iter xO p i); [reflexivity|].
    apply Pos2Z.inj. rewrite !iter_xO_Z, Hq, <- Z.mul_assoc.
    rewrite <- Z.pow_add_r by lia. f_equal. f_equal. lia.
  - (* the scaled one is shifted right, exactly *)
    destruct (d - 53 - - k) as [|j|j] eqn:Ej; try lia;
      destruct (d - 53 - 0) as [|i|i] eqn:Ei; try lia;
      apply binary_round_aux_first; rewrite !shr_fexp_exact;
      rewrite ?NumFacts.digits2_pos_iter, ?Hdq; fold d.
    + replace (d + k + - k) with d by lia.
      replace (d + Zpos i + (d - 53)) with (53 + (d - 53)) by lia.
      rewrite !fexp_digits by lia.
      replace (53 + (d - 53) - 53 - (d - 53)) with 0 by lia.
      replace (d - 53 - - k) with ((d - 53 + k) + 0) by lia.
      replace (Zpos q) with (Zpos (Pos.iter xO p i) * 2 ^ (d - 53 + k)).
      * rewrite shr_exact by lia. f_equal. lia.
      * rewrite iter_xO_Z, Hq, <- Z.mul_assoc, <- Z.pow_add_r by lia.
        f_equal. f_equal. lia.
    + replace (d + k + - k) with d by lia.
      rewrite Z.add_0_r, !fexp_digits by lia.
      replace (d - 53 - - k) with (k + (d - 53)) by lia.
      rewrite Hq, shr_exact by lia.
      replace (- k + k) with 0 by lia.
      replace (d - 53 - 0) with (d - 53) by lia. reflexivity.
    + replace (d + k + - k) with d by lia.
      rewrite Z.add_0_r, !fexp_digits by lia.
      replace (d - 53 - - k) with (k + (d - 53)) by lia.
      rewrite Hq, shr_exact by lia.
      replace (- k + k) with 0 by lia.
      replace (d - 53 - 0) with (d - 53) by lia. reflexivity.
    + replace (d + k + - k) with d by lia.
      replace (d + Zpos i + (d - 53)) with (53 + (d - 53)) by lia.
      rewrite !fexp_digits by lia.
      replace (53 + (d - 53) - 53 - (d - 53)) with 0 by lia.
      replace (d - 53 - - k) with ((d - 53 + k) + 0) by lia.
      replace (Zpos q) with (Zpos (Pos.iter xO p i) * 2 ^ (d - 53 + k)).
      * rewrite shr_exact by lia. f_equal. lia.
      * rewrite iter_xO_Z, Hq, <- Z.mul_assoc, <- Z.pow_add_r by lia.
        f_equal. f_equal. lia.
Qed.


(** The binary64 value of a non-zero integer of magnitude below 2^53. *)
Lemma of_Z_exact z :
  z <> 0 -> Z.abs z < 2 ^ 53 ->
  exists m,
    Num.of_Z z = S754_finite (z <? 0) m (Zdigits2 z - 53)
    /\ cond_Zopp (z <? 0) (Zpos m) = z * 2 ^ (53 - Zdigits2 z)
    /\ Zpos (digits2_pos m) = 53
    /\ 1 <= Zdigits2 z <= 53.
Proof.
  intros Hz Hb. destruct z as [|p|p]; [congruence| |].
  - destruct (binary_round_exact false p Hb) as (m & H1 & H2 & H3).
    exists m. split; [exact H1|]. split; [exact H2|]. split; [exact H3|].
    simpl. pose proof (NumFacts.digits2_pos_bound p 53 ltac:(lia) Hb). lia.
  - destruct (binary_round_exact true p Hb) as (m & H1 & H2 & H3).
    exists m. split; [exact H1|]. split; [|split; [exact H3|]].
    + change (Zneg p <? 0) with true. cbn [cond_Zopp Zdigits2].
      rewrite H2. change (Zneg p) with (- Zpos p). ring.
    + simpl. pose proof (NumFacts.digits2_pos_bound p 53 ltac:(lia) Hb). lia.
Qed.

Lemma shl_align_value m e e' :
  e' <= e -> Zpos (fst (shl_align m e e')) = Zpos m * 2 ^ (e - e').
Proof.
  intros H. unfold shl_align.
  destruct (e' - e) as [|k|k] eqn:E; try lia.
  - replace (e - e') with 0 by lia. now rewrite Z.pow_0_r, Z.mul_1_r.
  - cbn [fst]. rewrite iter_xO_Z. f_equal. f_equal. lia.
Qed.

Lemma cond_Zopp_mul b x y : cond_Zopp b (x * y) = cond_Zopp b x * y.
Proof. destruct b; simpl; ring. Qed.

Lemma binary_normalize_scaled z k :
  0 <= k ->
  binary_normalize Num.prec Num.emax (z * 2 ^ k) (- k) false = Num.of_Z z.
Proof.
  intros Hk. unfold Num.of_Z.
  assert (Hp : 0 < 2 ^ k) by (apply Z.pow_pos_nonneg; lia).
  destruct z as [|p|p].
  - reflexivity.
  - destruct (Zpos p * 2 ^ k) as [|q|q] eqn:E; try lia.
    simpl. now apply binary_round_scaled.
  - destruct (Zneg p * 2 ^ k) as [|q|q] eqn:E; try lia.
    simpl. apply binary_round_scaled; [exact Hk|]. lia.
Qed.

(** The difference of two integers below 2^53 in magnitude is computed
    as the binary64 value of their difference. *)
Lemma sub_of_Z a b :
  Z.abs a < 2 ^ 53 -> Z.abs b < 2 ^ 53 ->
  Num.sub (Num.of_Z a) (Num.of_Z b) = Num.of_Z (a - b).
Proof.
  intros Ha Hb.
  destruct (Z.eq_dec b 0) as [->|Hb0].
  { rewrite Z.sub_0_r. change (Num.of_Z 0) with (S754_zero false).
    destruct (Z.eq_dec a 0) as [->|Ha0]; [reflexivity|].
    destruct (of_Z_exact a Ha0 Ha) as (m & -> & _). reflexivity. }
  destruct (of_Z_exact b Hb0 Hb) as (mb & Eb & Vb & Db & Rb).
  destruct (Z.eq_dec a 0) as [->|Ha0].
  { change (Num.of_Z 0) with (S754_zero false). rewrite Eb.
    assert (Hnb : - b <> 0) by lia.
    assert (Hab : Z.abs (- b) < 2 ^ 53) by lia.
    destruct (of_Z_exact (- b) Hnb Hab) as (m' & E' & V' & _).
    cbn [Z.sub Z.add]. replace (0 - b) with (- b) by lia. rewrite E'.
    unfold Num.sub, SFsub.
    assert (Hd : Zdigits2 (- b) = Zdigits2 b) by (now destruct b).
    rewrite Hd in *.
    assert (Hs : (- b <? 0) = negb (b <? 0)).
    { destruct (Z.ltb_spec b 0), (Z.ltb_spec (- b) 0); simpl; lia. }
    rewrite Hs in *. f_equal.
    assert (Zpos m' = Zpos mb); [|congruence].
    destruct (b <? 0); simpl in *; nia. }
  destruct (of_Z_exact a Ha0 Ha) as (ma & Ea & Va & Da & Ra).
  rewrite Ea, Eb. unfold Num.sub, SFsub.
  set (ea := Zdigits2 a - 53) in *. set (eb := Zdigits2 b - 53) in *.
  set (ez := Z.min ea eb).
  rewrite <- (binary_normalize_scaled (a - b) (- ez)) by (unfold ez; lia).
  rewrite Z.opp_involutive. f_equal.
  assert (Hza : cond_Zopp (a <? 0) (Zpos (fst (shl_align ma ea ez)))
                = a * 2 ^ (- ez)).
  { rewrite shl_align_value by (unfold ez; lia).
    rewrite cond_Zopp_mul, Va, <- Z.mul_assoc, <- Z.pow_add_r
      by (unfold ea, ez; lia).
    f_equal. f_equal. unfold ea. lia. }
  assert (Hzb : cond_Zopp (b <? 0) (Zpos (fst (shl_align mb eb ez)))
                = b * 2 ^ (- ez)).
  { rewrite shl_align_value by (unfold ez; lia).
    rewrite cond_Zopp_mul, Vb, <- Z.mul_assoc, <- Z.pow_add_r
      by (unfold eb, ez; lia).
    f_equal. f_equal. unfold eb. lia. }
  rewrite Hza, Hzb. ring.
Qed.


Lemma div_between a b k : 0 < b -> k * b <= a < k * b + b -> a / b = k.
Proof.
  intros Hb H. symmetry. apply (Z.div_unique a b k (a - k * b)); lia.
Qed.

(** Rounding a quotient by 1000 at a precision of at least ten binary
    digits does not move its floor. *)
Lemma floor_round_fine N P q r' d :
  0 < N -> 1024 <= P -> N * P = 1000 * q + r' -> 0 <= r' < 1000 ->
  0 <= d <= 1 -> (r' = 0 -> d = 0) ->
  (q + d) / P = N / 1000 /\ (- (q + d)) / P = (- N) / 1000.
Proof.
  intros HN HP Hq Hr Hd Hex.
  pose proof (Z.div_mod N 1000 ltac:(lia)) as Hdm.
  pose proof (Z.mod_pos_bound N 1000 ltac:(lia)) as Hm.
  set (k := N / 1000) in *. set (rho := N mod 1000) in *.
  assert (HX : N * P = 1000 * (k * P) + rho * P) by (rewrite Hdm; ring).
  assert (HY0 : 0 <= rho * P) by nia.
  assert (HY1 : rho * P <= 999 * P) by nia.
  assert (HY2 : 1 <= rho -> P <= rho * P) by nia.
  set (X := k * P) in *. set (Y := rho * P) in *.
  split.
  - apply div_between; lia.
  - destruct (Z.eq_dec rho 0) as [E|E].
    + assert (Y = 0) by (unfold Y; rewrite E; ring).
      assert (- N = (- k) * 1000) by lia.
      replace (- N / 1000) with (- k)
        by (symmetry; apply div_between; lia).
      apply div_between; [lia|].
      replace (- k * P) with (- X) by (unfold X; ring). lia.
    + replace (- N / 1000) with (- k - 1)
        by (symmetry; apply div_between; lia).
      apply div_between; [lia|].
      replace ((- k - 1) * P) with (- X - P) by (unfold X; ring). lia.
Qed.

Lemma floor_round_coarse N P q r' qh b d :
  0 < N -> 512 <= P -> N * (2 * P) = 1000 * q + r' -> 0 <= r' < 1000 ->
  q = 2 * qh + b -> 0 <= b <= 1 -> 0 <= d <= 1 ->
  (d = 1 -> b = 1) -> (b = 1 -> r' <> 0 -> d = 1) ->
  (qh + d) / P = N / 1000 /\ (- (qh + d)) / P = (- N) / 1000.
Proof.
  intros HN HP Hq Hr Hqh Hb Hd Hup Hgt.
  pose proof (Z.div_mod N 1000 ltac:(lia)) as Hdm.
  pose proof (Z.mod_pos_bound N 1000 ltac:(lia)) as Hm.
  set (k := N / 1000) in *. set (rho := N mod 1000) in *.
  assert (HX : N * (2 * P) = 2000 * (k * P) + 2 * (rho * P))
    by (rewrite Hdm; ring).
  assert (HY0 : 0 <= rho * P) by nia.
  assert (HY1 : rho * P <= 999 * P) by nia.
  assert (HY2 : 1 <= rho -> P <= rho * P) by nia.
  set (X := k * P) in *. set (Y := rho * P) in *.
  split.
  - apply div_between; lia.
  - destruct (Z.eq_dec rho 0) as [E|E].
    + assert (Y = 0) by (unfold Y; rewrite E; ring).
      replace (- N / 1000) with (- k)
        by (symmetry; apply div_between; lia).
      apply div_between; [lia|].
      replace (- k * P) with (- X) by (unfold X; ring). lia.
    + replace (- N / 1000) with (- k - 1)
        by (symmetry; apply div_between; lia).
      apply div_between; [lia|].
      replace ((- k - 1) * P) with (- X - P) by (unfold X; ring). lia.
Qed.

Lemma loc_of_shr_record_of_loc m l :
  loc_of_shr_record (shr_record_of_loc m l) = l.
Proof. now destruct l as [|[]]. Qed.

Lemma shr_m_of_loc m l : shr_m (shr_record_of_loc m l) = m.
Proof. now destruct l as [|[]]. Qed.

Lemma Zdigits2_unique z n :
  2 ^ (n - 1) <= z < 2 ^ n -> 0 < z -> Zdigits2 z = n.
Proof.
  intros H Hz. destruct z as [|p|p]; try lia.
  now apply digits2_pos_unique.
Qed.

(** The last step of the rounding: a mantissa of 53 digits is kept, the
    mantissa 2^53 is written with 2^52. *)
Lemma round_finish s M e :
  2 ^ 52 <= M <= 2 ^ 53 -> -1074 <= e <= 970 ->
  exists m E,
    (let '(mrs, e') := shr_fexp Num.prec Num.emax M e loc_Exact in
     match shr_m mrs with
     | Z0 => S754_zero s
     | Zpos m => if e' <=? Num.emax - Num.prec
                 then S754_finite s m e' else S754_infinity s
     | Zneg _ => S754_nan
     end) = S754_finite s m E
    /\ 0 <= E - e <= 1
    /\ Zpos m * 2 ^ (E - e) = M.
Proof.
  intros HM He. unfold shr_fexp.
  destruct (Z.eq_dec M (2 ^ 53)) as [->|Hne].
  - change (Zdigits2 (2 ^ 53)) with 54.
    unfold fexp, emin, Num.prec, Num.emax.
    replace (Z.max (54 + e - 53) (3 - 1024 - 53) - e) with 1 by lia.
    cbn [shr_record_of_loc shr iter_pos]. simpl shr_m.
    destruct (Z.leb_spec (e + 1) (1024 - 53)) as [_|H]; [|lia].
    exists 4503599627370496%positive, (e + 1).
    split; [reflexivity|]. split; [lia|].
    replace (e + 1 - e) with 1 by lia. reflexivity.
  - rewrite (Zdigits2_unique M 53) by lia.
    unfold fexp, emin, Num.prec, Num.emax.
    replace (Z.max (53 + e - 53) (3 - 1024 - 53) - e) with 0 by lia.
    cbn [shr_record_of_loc shr shr_m].
    destruct M as [|m|m]; try lia.
    destruct (Z.leb_spec e (1024 - 53)) as [_|H]; [|lia].
    exists m, e. split; [reflexivity|]. split; [lia|].
    rewrite Z.sub_diag. lia.
Qed.

Lemma round_nearest_even_step m l :
  round_nearest_even m l = m \/ round_nearest_even m l = m + 1.
Proof.
  destruct l as [|[]]; simpl; auto. destruct (Z.even m); auto.
Qed.

(** Rounding a mantissa of 53 digits. *)
Lemma binary_round_aux_53 s q e l :
  2 ^ 52 <= q < 2 ^ 53 -> -1074 <= e <= 970 ->
  exists m E,
    binary_round_aux Num.prec Num.emax s q e l = S754_finite s m E
    /\ 0 <= E - e <= 1
    /\ Zpos m * 2 ^ (E - e) = round_nearest_even q l.
Proof.
  intros Hq He. unfold binary_round_aux.
  unfold shr_fexp at 1. rewrite (Zdigits2_unique q 53) by lia.
  unfold fexp at 1, emin, Num.prec at 1 2, Num.emax at 1.
  replace (Z.max (53 + e - 53) (3 - 1024 - 53) - e) with 0 by lia.
  cbn [shr]. rewrite shr_m_of_loc, loc_of_shr_record_of_loc.
  apply round_finish; [|exact He].
  destruct (round_nearest_even_step q l) as [-> | ->]; lia.
Qed.

(** Rounding a mantissa of 54 digits: one digit is shifted out first. *)
Lemma binary_round_aux_54 s q e l :
  2 ^ 53 <= q < 2 ^ 54 -> -1074 <= e <= 969 ->
  exists m E,
    binary_round_aux Num.prec Num.emax s q e l = S754_finite s m E
    /\ 0 <= E - (e + 1) <= 1
    /\ Zpos m * 2 ^ (E - (e + 1))
       = round_nearest_even (q / 2)
           (loc_of_shr_record (shr_1 (shr_record_of_loc q l))).
Proof.
  intros Hq He. unfold binary_round_aux.
  unfold shr_fexp at 1. rewrite (Zdigits2_unique q 54) by lia.
  unfold fexp at 1, emin, Num.prec at 1 2, Num.emax at 1.
  replace (Z.max (54 + e - 53) (3 - 1024 - 53) - e) with 1 by lia.
  cbn [shr iter_pos].
  assert (Hm : shr_m (shr_1 (shr_record_of_loc q l)) = q / 2).
  { destruct q as [|[p|p|]|p]; try lia; destruct l as [|[]]; simpl shr_m.
    all: try (rewrite Pos2Z.inj_xI, Z.mul_comm, Z.div_add_l by lia;
              now rewrite Z.div_small by lia).
    all: rewrite Pos2Z.inj_xO, Z.mul_comm, Z.div_mul by lia; reflexivity. }
  rewrite Hm.
  apply round_finish; [|lia].
  assert (2 ^ 52 <= q / 2 < 2 ^ 53).
  { split; [apply Z.div_le_lower_bound; lia
           | apply Z.div_lt_upper_bound; lia]. }
  destruct (round_nearest_even_step (q / 2)
              (loc_of_shr_record (shr_1 (shr_record_of_loc q l))))
    as [-> | ->]; lia.
Qed.


Lemma of_Z_1000 :
  Num.of_Z 1000 = S754_finite false 8796093022208000 (-43).
Proof. reflexivity. Qed.

Lemma div_eucl_div_mod a b : Z.div_eucl a b = (a / b, a mod b).
Proof. unfold Z.div, Z.modulo. now destruct (Z.div_eucl a b). Qed.

(** The quotient and the remainder the division by 1000 starts from. *)
Lemma div_1000_core m e :
  Zpos (digits2_pos m) = 53 -> -52 <= e <= 0 ->
  SFdiv_core_binary Num.prec Num.emax (Zpos m) e 8796093022208000 (-43)
  = (Zpos m * 2 ^ 53 / 8796093022208000, e - 10,
     if (Zpos m * 2 ^ 53) mod 8796093022208000 =? 0 then loc_Exact
     else loc_Inexact
            (2 * ((Zpos m * 2 ^ 53) mod 8796093022208000)
             ?= 8796093022208000)).
Proof.
  intros Hd He. unfold SFdiv_core_binary. cbn [Zdigits2]. rewrite Hd.
  change (Zpos (digits2_pos 8796093022208000)) with 53.
  unfold fexp, emin, Num.prec, Num.emax.
  replace (Z.min (Z.max (53 + e - (53 + -43) - 53) (3 - 1024 - 53))
             (e - -43)) with (e - 10) by lia.
  replace (e - -43 - (e - 10)) with 53 by lia.
  rewrite div_eucl_div_mod, Z.shiftl_mul_pow2 by lia.
  reflexivity.
Qed.

Lemma shr_1_loc q l :
  0 < q ->
  loc_of_shr_record (shr_1 (shr_record_of_loc q l))
  = match Z.odd q, l with
    | false, loc_Exact => loc_Exact
    | false, loc_Inexact _ => loc_Inexact Lt
    | true, loc_Exact => loc_Inexact Eq
    | true, loc_Inexact _ => loc_Inexact Gt
    end.
Proof.
  intros Hq. destruct q as [|[p|p|]|p]; try lia; now destruct l as [|[]].
Qed.

Lemma shiftl_neg x e : e < 0 -> Z.shiftl x e = x / 2 ^ (- e).
Proof.
  intros He. replace e with (- (- e)) at 1 by lia.
  rewrite Z.shiftl_opp_r. apply Z.shiftr_div_pow2. lia.
Qed.

(** [Math.floor] of a number with a fractional part, written back as a
    binary64 value. *)
Lemma floor_finite s m E :
  E < 0 ->
  Num.floor (S754_finite s m E)
  = Num.of_Z (cond_Zopp s (Zpos m) / 2 ^ (- E)).
Proof.
  intros HE. unfold Num.floor.
  destruct (Z.ltb_spec E 0); [|lia]. now rewrite shiftl_neg.
Qed.

(** The whole seconds of a number of milliseconds: dividing an integer
    of magnitude below 2^53 by 1000 in binary64 and taking the floor
    gives the quotient of the integer division. *)
Lemma floor_div_1000 n :
  Z.abs n < 2 ^ 53 ->
  Num.floor (Num.div (Num.of_Z n) (Num.of_Z 1000)) = Num.of_Z (n / 1000).
Proof.
  intros Hn.
  destruct (Z.eq_dec n 0) as [->|Hn0]; [reflexivity|].
  destruct (of_Z_exact n Hn0 Hn) as (m1 & E1 & V1 & D1 & R1).
  rewrite E1, of_Z_1000. unfold Num.div, SFdiv.
  set (d := Zdigits2 n) in *.
  rewrite div_1000_core by lia.
  rewrite xorb_false_r.
  pose proof (digits2_pos_lower m1) as Hl.
  pose proof (digits2_pos_upper m1) as Hu. rewrite D1 in Hl, Hu.
  set (N := Z.abs n).
  assert (HN : 0 < N) by (unfold N; lia).
  assert (Hm1 : Zpos m1 = N * 2 ^ (53 - d)).
  { unfold N. revert V1. destruct (Z.ltb_spec n 0); cbn [cond_Zopp]; intros V1.
    - rewrite Z.abs_neq by lia. lia.
    - rewrite Z.abs_eq by lia. lia. }
  set (M := 8796093022208000) in *.
  set (q := Zpos m1 * 2 ^ 53 / M). set (r := (Zpos m1 * 2 ^ 53) mod M).
  pose proof (Z.div_mod (Zpos m1 * 2 ^ 53) M ltac:(unfold M; lia)) as Hdm.
  pose proof (Z.mod_pos_bound (Zpos m1 * 2 ^ 53) M ltac:(unfold M; lia))
    as Hr.
  fold q r in Hdm, Hr.
  assert (Hq : 2 ^ 52 <= q < 2 ^ 54).
  { unfold M in *. split.
    - apply Z.div_le_lower_bound; lia.
    - apply Z.div_lt_upper_bound; lia. }
  set (P2 := 2 ^ (63 - d)).
  assert (HP2 : 2 ^ (53 - d) * 2 ^ 53 = P2 * 2 ^ 43).
  { unfold P2. rewrite <- !Z.pow_add_r by lia. f_equal. lia. }
  set (r' := N * P2 - 1000 * q).
  assert (Hr' : r = 2 ^ 43 * r').
  { unfold r'. rewrite Hm1 in Hdm. unfold M in Hdm.
    assert (N * 2 ^ (53 - d) * 2 ^ 53 = N * P2 * 2 ^ 43)
      by (rewrite <- !Z.mul_assoc, HP2; ring).
    lia. }
  assert (Hr'b : 0 <= r' < 1000) by (unfold M in Hr; lia).
  assert (Hloc0 : r' = 0 ->
            (if r =? 0 then loc_Exact
             else loc_Inexact (2 * r ?= M)) = loc_Exact).
  { intros H0. rewrite Hr', H0. reflexivity. }
  assert (Hlocn : r' <> 0 ->
            exists c, (if r =? 0 then loc_Exact
                       else loc_Inexact (2 * r ?= M)) = loc_Inexact c).
  { intros H0. destruct (Z.eqb_spec r 0); [lia|]. eauto. }
  set (loc := if r =? 0 then loc_Exact else loc_Inexact (2 * r ?= M)) in *.
  assert (Hfloor : forall m E E0 M',
            E0 < -1 -> 0 <= E - E0 <= 1 ->
            Zpos m * 2 ^ (E - E0) = M' ->
            cond_Zopp (n <? 0) M' / 2 ^ (- E0) = n / 1000 ->
            Num.floor (S754_finite (n <? 0) m E) = Num.of_Z (n / 1000)).
  { intros m E E0 M' HE0 HE HM HD.
    rewrite floor_finite by lia. f_equal. rewrite <- HD, <- HM.
    rewrite cond_Zopp_mul.
    replace (2 ^ (- E0)) with (2 ^ (- E) * 2 ^ (E - E0))
      by (rewrite <- Z.pow_add_r by lia; f_equal; lia).
    rewrite Z.div_mul_cancel_r; [reflexivity| |];
      apply Z.pow_nonzero; lia. }
  assert (Hsign : forall M' P,
            M' / P = N / 1000 /\ - M' / P = - N / 1000 ->
            cond_Zopp (n <? 0) M' / P = n / 1000).
  { intros M' P [Hp Hm]. unfold N in *.
    destruct (Z.ltb_spec n 0); simpl.
    - rewrite Z.abs_neq in Hm by lia. now rewrite Z.opp_involutive in Hm.
    - now rewrite Z.abs_eq in Hp by lia. }
  destruct (Z.lt_ge_cases q (2 ^ 53)) as [Hq53|Hq54].
  - destruct (binary_round_aux_53 (n <? 0) q (d - 53 - 10) loc
                ltac:(lia) ltac:(lia)) as (m & E & -> & HE & HM).
    apply (Hfloor m E (d - 53 - 10) _ ltac:(lia) HE HM).
    apply Hsign.
    replace (- (d - 53 - 10)) with (63 - d) by lia. fold P2.
    set (dl := round_nearest_even q loc - q).
    replace (round_nearest_even q loc) with (q + dl) by (unfold dl; lia).
    assert (H1 : 1024 <= P2).
    { unfold P2. change 1024 with (2 ^ 10). apply Z.pow_le_mono_r; lia. }
    assert (H2 : N * P2 = 1000 * q + r') by (unfold r'; lia).
    assert (H3 : 0 <= dl <= 1).
    { unfold dl. destruct (round_nearest_even_step q loc); lia. }
    assert (H4 : r' = 0 -> dl = 0).
    { intros H0. unfold dl. rewrite (Hloc0 H0). simpl. lia. }
    exact (floor_round_fine N P2 q r' dl HN H1 H2 Hr'b H3 H4).
  - destruct (binary_round_aux_54 (n <? 0) q (d - 53 - 10) loc
                ltac:(lia) ltac:(lia)) as (m & E & -> & HE & HM).
    rewrite shr_1_loc in HM by lia.
    apply (Hfloor m E (d - 53 - 10 + 1) _ ltac:(lia) HE HM).
    apply Hsign.
    replace (- (d - 53 - 10 + 1)) with (62 - d) by lia.
    set (P := 2 ^ (62 - d)).
    assert (HP : P2 = 2 * P).
    { unfold P2, P. replace (63 - d) with (Z.succ (62 - d)) by lia.
      rewrite Z.pow_succ_r by lia. reflexivity. }
    pose proof (Z.div_mod q 2 ltac:(lia)) as Hq2.
    pose proof (Z.mod_pos_bound q 2 ltac:(lia)) as Hb.
    set (lc := match Z.odd q with
               | true => match loc with
                         | loc_Exact => loc_Inexact Eq
                         | loc_Inexact _ => loc_Inexact Gt
                         end
               | false => match loc with
                          | loc_Exact => loc_Exact
                          | loc_Inexact _ => loc_Inexact Lt
                          end
               end) in *.
    set (dl := round_nearest_even (q / 2) lc - q / 2).
    replace (round_nearest_even (q / 2) lc) with (q / 2 + dl)
      by (unfold dl; lia).
    assert (Hodd : Z.odd q = (q mod 2 =? 1)).
    { rewrite Zmod_odd. now destruct (Z.odd q). }
    assert (H1 : 512 <= P).
    { unfold P. change 512 with (2 ^ 9). apply Z.pow_le_mono_r; lia. }
    assert (H2 : N * (2 * P) = 1000 * q + r')
      by (rewrite <- HP; unfold r'; lia).
    assert (H3 : q = 2 * (q / 2) + q mod 2) by exact Hq2.
    assert (H4 : 0 <= q mod 2 <= 1) by lia.
    assert (H5 : 0 <= dl <= 1).
    { unfold dl. destruct (round_nearest_even_step (q / 2) lc); lia. }
    assert (H6 : dl = 1 -> q mod 2 = 1).
    { unfold dl, lc. rewrite Hodd.
      destruct (Z.eqb_spec (q mod 2) 1); [lia|].
      destruct loc as [|c]; simpl; lia. }
    assert (H7 : q mod 2 = 1 -> r' <> 0 -> dl = 1).
    { intros Hb1 Hr0. unfold dl, lc. rewrite Hodd, Hb1. simpl.
      destruct (Hlocn Hr0) as [c ->]. simpl. lia. }
    exact (floor_round_coarse N P q r' (q / 2) (q mod 2) dl
             HN H1 H2 Hr'b H3 H4 H5 H6 H7).
Qed.

End ElapsedFacts.

(** X9.  The elapsed time is 0 before the start.  Between a start at
    [t0] and an end at [t1], two valid time values less than 2^53
    milliseconds apart, it is the whole seconds of [t1 - t0], whatever
    the clock reads afterwards; while the exam runs it is measured to the
    reading of the clock.  The subtraction and the division are those of
    binary64: over the whole range of time values, which spans more than
    2^53 milliseconds, the count is one more than the integer
    quotient. *)
Theorem getElapsedTime_stamps (now : Z) (e : Exam.t) :
  (Exam.startTime e = None -> Exam.getElapsedTime now e = Num.of_Z 0)
  /\ (forall t0 t1 now',
         Date.inRange t0 -> Date.inRange t1 -> Z.abs (t1 - t0) < 2 ^ 53 ->
         let e' := Exam.end_ t1 (Exam.start t0 e) in
         Exam.getElapsedTime now e' = Num.of_Z ((t1 - t0) / 1000)
         /\ Exam.getElapsedTime now' e' = Exam.getElapsedTime now e'
         /\ 1000 * ((t1 - t0) / 1000) <= t1 - t0
            < 1000 * ((t1 - t0) / 1000) + 1000
         /\ (t0 <= t1 -> 0 <= (t1 - t0) / 1000))
  /\ (forall t0,
         Date.inRange t0 -> Date.inRange now -> Z.abs (now - t0) < 2 ^ 53 ->
         Exam.endTime e = None ->
         Exam.getElapsedTime now (Exam.start t0 e)
         = Num.of_Z ((now - t0) / 1000))
  /\ (forall t0 t1,
         Date.inRange t0 -> Date.inRange t1 -> Z.abs (t1 - t0) < 2 ^ 53 ->
         Exam.endTime e = Some (Date.Valid t1) ->
         Exam.getElapsedTime now (Exam.start t0 e)
         = Num.of_Z ((t1 - t0) / 1000))
  /\ (Exam.getElapsedTime now
        (Exam.end_ (Date.limit - 1) (Exam.start (- Date.limit) e))
      = Num.of_Z 17280000000000
      /\ (Date.limit - 1 - - Date.limit) / 1000 = 17279999999999
      /\ Num.eqb (Num.of_Z 17280000000000) (Num.of_Z 17279999999999)
         = false).
Proof.
  assert (Hrange : forall t, Date.inRange t -> Z.abs t < 2 ^ 53).
  { intros t. unfold Date.inRange, Date.limit.
    change (2 ^ 53) with 9007199254740992. lia. }
  assert (Hgen : forall a b,
            Date.inRange a -> Date.inRange b -> Z.abs (a - b) < 2 ^ 53 ->
            Num.floor (Num.div (Num.sub (Num.of_Z a) (Num.of_Z b))
                               (Num.of_Z 1000))
            = Num.of_Z ((a - b) / 1000)).
  { intros a b Ha Hb Hab.
    rewrite sub_of_Z by auto. now apply floor_div_1000. }
  unfold Exam.getElapsedTime, Exam.startTime, Exam.endTime.
  split; [intros ->; reflexivity|].
  split; [|split; [|split]].
  - intros t0 t1 now' H0 H1 Hd.
    cbn [Exam.end_ Exam.start Exam._startTime Exam._endTime Date.getTime
         double_of_index].
    split; [now apply Hgen|]. split; [reflexivity|].
    pose proof (Z.mod_pos_bound (t1 - t0) 1000 ltac:(lia)).
    pose proof (Z.div_mod (t1 - t0) 1000 ltac:(lia)).
    split; [lia|]. intros Hle. apply Z.div_pos; lia.
  - intros t0 H0 Hn Hd He.
    cbn [Exam.start Exam._startTime Exam._endTime]. rewrite He.
    cbn [Date.getTime double_of_index]. now apply Hgen.
  - intros t0 t1 H0 H1 Hd He.
    cbn [Exam.start Exam._startTime Exam._endTime]. rewrite He.
    cbn [Date.getTime double_of_index]. now apply Hgen.
  - cbn [Exam.end_ Exam.start Exam._startTime Exam._endTime].
    split; [vm_compute; reflexivity|]. split; reflexivity.
Qed.

(** A fresh exam, an exam ended 83.5 seconds after its start, and an
    exam whose clock was set back by as much. *)
Lemma getElapsedTime_stamps_witness :
  Exam.getElapsedTime 0 (Exam.new "Fresh" [Samples.capital] None)
  = Num.of_Z 0
  /\ Exam.getElapsedTime 0
       (Exam.end_ Samples.t1 (Exam.start Samples.t0 Samples.exam3))
     = Num.of_Z 83
  /\ Exam.getElapsedTime 0
       (Exam.end_ Samples.t0 (Exam.start Samples.t1 Samples.exam3))
     = Num.of_Z (-84).
Proof.
  split; [|split].
  - apply (proj1 (getElapsedTime_stamps 0 _)). reflexivity.
  - rewrite (proj1 (proj1 (proj2 (getElapsedTime_stamps 0 Samples.exam3))
                      Samples.t0 Samples.t1 0
                      ltac:(vm_compute; split; discriminate)
                      ltac:(vm_compute; split; discriminate)
                      ltac:(vm_compute; reflexivity))).
    reflexivity.
  - rewrite (proj1 (proj1 (proj2 (getElapsedTime_stamps 0 Samples.exam3))
                      Samples.t1 Samples.t0 0
                      ltac:(vm_compute; split; discriminate)
                      ltac:(vm_compute; split; discriminate)
                      ltac:(vm_compute; reflexivity))).
    reflexivity.
Defined.

Section RemainingFacts.

Lemma binary_round_finite s p :
  Zpos p < 2 ^ 53 ->
  exists m e, binary_round Num.prec Num.emax s p 0 = S754_finite s m e.
Proof.
  intros Hp. unfold binary_round.
  pose proof (NumFacts.digits2_pos_bound p 53 ltac:(lia) Hp) as Hd.
  assert (Hf : fexp Num.prec Num.emax (Zpos (digits2_pos p) + 0)
               = Zpos (digits2_pos p) - 53).
  { unfold fexp, emin, Num.prec, Num.emax. lia. }
  rewrite Hf. unfold shl_align.
  destruct (Zpos (digits2_pos p) - 53 - 0) as [|k|k] eqn:Ek; try lia.
  - eexists _, _. apply NumFacts.binary_round_aux_canonical.
    + unfold canonical_mantissa. apply Z.eqb_eq. rewrite Hf. lia.
    + unfold Num.emax, Num.prec. lia.
  - eexists _, _. apply NumFacts.binary_round_aux_canonical.
    + unfold canonical_mantissa. apply Z.eqb_eq.
      rewrite NumFacts.digits2_pos_iter.
      unfold fexp, emin, Num.prec, Num.emax. lia.
    + unfold Num.emax, Num.prec. lia.
Qed.

(** A non-zero integer of magnitude below 2^53 is a finite binary64
    value. *)
Lemma of_Z_finite_signed z :
  z <> 0 -> - 2 ^ 53 < z < 2 ^ 53 ->
  exists s m e, Num.of_Z z = S754_finite s m e.
Proof.
  intros Hz Hb. destruct z as [|p|p]; [congruence| |].
  - destruct (binary_round_finite false p) as (m & e & H); [lia|].
    exists false, m, e. exact H.
  - destruct (binary_round_finite true p) as (m & e & H); [lia|].
    exists true, m, e. exact H.
Qed.

Lemma div_finite_not_nan sx mx ex sy my ey :
  Num.is_nan (Num.div (S754_finite sx mx ex) (S754_finite sy my ey)) = false.
Proof.
  unfold Num.div, SFdiv.
  destruct (SFdiv_core_binary _ _ _ _ _ _) as [[mz ez] lz] eqn:Ed.
  assert (Hmz : 0 <= mz).
  { unfold SFdiv_core_binary in Ed.
    match type of Ed with
      (let '(q, r) := Z.div_eucl ?a ?b in _) = _ =>
        pose proof (Z.div_pos a b) as Hdiv; unfold Z.div in Hdiv;
        assert (Ha : 0 <= a)
          by (destruct (_ - _ - _); try lia; apply Z.shiftl_nonneg; lia);
        destruct (Z.div_eucl a b) as [q r]
    end.
    injection Ed as <- _ _. apply Hdiv; lia. }
  pose proof (NumFacts.binary_round_aux_not_nan (xorb sx sy) mz ez lz Hmz).
  destruct (binary_round_aux _ _ _ _ _ _); try reflexivity. congruence.
Qed.

Lemma binary_normalize_not_nan m e :
  Num.is_nan (binary_normalize Num.prec Num.emax m e false) = false.
Proof.
  destruct m as [|p|p]; simpl; [reflexivity| |];
    unfold binary_round;
    destruct (shl_align _ _ _) as [mz ez];
    match goal with
    | |- Num.is_nan (binary_round_aux _ _ ?s (Zpos ?m) ?e ?l) = false =>
        pose proof (NumFacts.binary_round_aux_not_nan s (Zpos m) e l
                      ltac:(lia));
        destruct (binary_round_aux Num.prec Num.emax s (Zpos m) e l);
        try reflexivity; congruence
    end.
Qed.

(** A finite value less anything but NaN is not NaN. *)
Lemma sub_finite_not_nan s m e y :
  Num.is_nan y = false ->
  Num.is_nan (Num.sub (S754_finite s m e) y) = false.
Proof.
  destruct y as [sy|sy| |sy my ey]; intros Hy; try discriminate;
    try reflexivity.
  unfold Num.sub, SFsub. apply binary_normalize_not_nan.
Qed.

Lemma div_by_60_not_nan z :
  - 2 ^ 53 < z < 2 ^ 53 ->
  Num.is_nan (Num.div (Num.of_Z z) (Num.of_Z 60)) = false.
Proof.
  intros Hb. destruct (Z.eq_dec z 0) as [->|Hz]; [reflexivity|].
  destruct (of_Z_finite_signed z Hz Hb) as (s & m & e & ->).
  apply div_finite_not_nan.
Qed.

(** [Math.max(0, x)] is NaN for NaN and otherwise at least 0. *)
Lemma max_zero x :
  Num.is_nan (Num.max (Num.of_Z 0) x) = Num.is_nan x
  /\ (Num.is_nan x = false ->
      Num.geb (Num.max (Num.of_Z 0) x) (Num.of_Z 0) = true).
Proof.
  unfold Num.max. change (Num.is_nan (Num.of_Z 0)) with false.
  cbn [orb]. destruct (Num.is_nan x) eqn:En; [split; [reflexivity | discriminate]|].
  unfold Num.ltb, Num.geb, SFltb, SFleb.
  destruct (SFcompare (Num.of_Z 0) x) as [[]|] eqn:E1.
  - destruct (SFcompare x (Num.of_Z 0)) as [[]|] eqn:E2;
      (split; [reflexivity | intros _; reflexivity]).
  - split; [exact En|]. intros _. now rewrite E1.
  - destruct (SFcompare x (Num.of_Z 0)) as [[]|] eqn:E2;
      (split; [reflexivity | intros _; reflexivity]).
  - destruct x; discriminate.
Qed.

(** A number divided by a finite number is a number. *)
Lemma div_not_nan x s m e :
  Num.is_nan x = false ->
  Num.is_nan (Num.div x (S754_finite s m e)) = false.
Proof.
  destruct x as [sx|sx| |sx mx ex]; intros Hx; try discriminate;
    try reflexivity.
  apply div_finite_not_nan.
Qed.

Lemma floor_not_nan x :
  Num.is_nan x = false -> Num.is_nan (Num.floor x) = false.
Proof.
  destruct x as [sx|sx| |sx mx ex]; intros Hx; try discriminate;
    try reflexivity.
  unfold Num.floor. destruct (ex <? 0); [|reflexivity].
  apply binary_normalize_not_nan.
Qed.

(** Between valid time values the elapsed time is a number. *)
Lemma elapsed_not_nan a b :
  Date.inRange a -> Date.inRange b ->
  Num.is_nan
    (Num.floor (Num.div (Num.sub (Num.of_Z a) (Num.of_Z b))
                        (Num.of_Z 1000))) = false.
Proof.
  intros Ha Hb. apply floor_not_nan.
  change (Num.of_Z 1000) with (S754_finite false 8796093022208000 (-43)).
  apply div_not_nan. rewrite sub_of_Z.
  - apply binary_normalize_not_nan.
  - unfold Date.inRange, Date.limit in Ha.
    change (2 ^ 53) with 9007199254740992. lia.
  - unfold Date.inRange, Date.limit in Hb.
    change (2 ^ 53) with 9007199254740992. lia.
Qed.

End RemainingFacts.

(** X10.  [getRemainingTime()] is [Infinity] without a limit, with
    the limit 0 and before the start; with a limit on a started exam it
    is a number and never negative. *)
Theorem getRemainingTime_bounds (now : Z) (e : Exam.t) :
  (Exam.timeLimit e = None \/ Exam.timeLimit e = Some 0
   \/ Exam.startTime e = None ->
   Exam.getRemainingTime now e = Num.infinity)
  /\ (forall limit,
         Exam.timeLimit e = Some limit ->
         limit <> 0 -> - 2 ^ 53 < limit < 2 ^ 53 ->
         Exam.isStarted e = true ->
         Exam.validStamp (Exam.startTime e) ->
         Exam.validStamp (Exam.endTime e) ->
         Date.inRange now ->
         Num.is_nan (Exam.getRemainingTime now e) = false
         /\ Num.geb (Exam.getRemainingTime now e) (Num.of_Z 0) = true).
Proof.
  unfold Exam.getRemainingTime, Exam.timeLimit, Exam.startTime, Exam.endTime,
    Exam.isStarted.
  split.
  - intros [H|[H|H]]; rewrite H; try reflexivity.
    + now destruct (Exam._startTime e).
    + now destruct (Exam._timeLimit e).
  - intros limit Hl Hne Hb Hs Vs Ve Hnow. rewrite Hl.
    destruct (Exam._startTime e) as [st|] eqn:Est; [|discriminate].
    destruct (Z.eqb_spec limit 0) as [|_]; [contradiction|].
    assert (Hx : Num.is_nan
                   (Num.sub (Num.of_Z limit)
                      (Num.div (Exam.getElapsedTime now e)
                               (Num.of_Z 60))) = false).
    { destruct (of_Z_finite_signed limit Hne Hb) as (s & m & ex & ->).
      apply sub_finite_not_nan.
      change (Num.of_Z 60) with (S754_finite false 8444249301319680 (-47)).
      apply div_not_nan.
      unfold Exam.getElapsedTime. rewrite Est.
      destruct st as [t0|]; [|contradiction]. simpl in Vs.
      destruct (Exam._endTime e) as [[t1|]|]; simpl in Ve;
        [| contradiction |];
        cbn [Date.getTime double_of_index]; now apply elapsed_not_nan. }
    destruct (max_zero (Num.sub (Num.of_Z limit)
                (Num.div (Exam.getElapsedTime now e)
                         (Num.of_Z 60)))) as [Hn Hge].
    split; [now rewrite Hn | now apply Hge].
Qed.

(** Thirty minutes, 83.5 seconds used: a little over 28.6 minutes are
    left; once the limit is passed, 0. *)
Lemma getRemainingTime_bounds_witness :
  Exam.getRemainingTime Samples.t1 (Exam.new "Fresh" [] (Some 0))
  = Num.infinity
  /\ Num.geb (Exam.getRemainingTime Samples.t1 Samples.exam3) (Num.of_Z 0)
     = true
  /\ Exam.getRemainingTime Samples.t1 Samples.exam3
     = Num.sub (Num.of_Z 30) (Num.div (Num.of_Z 83) (Num.of_Z 60))
  /\ Exam.getRemainingTime (Samples.t0 + 3600000)
       (Exam.start Samples.t0 (Exam.new "Fresh" [] (Some 30)))
     = Num.of_Z 0.
Proof.
  split; [| split; [| split]].
  - apply (proj1 (getRemainingTime_bounds Samples.t1 _)). right. left.
    reflexivity.
  - apply (proj2 (getRemainingTime_bounds Samples.t1 Samples.exam3) 30);
      try reflexivity; try discriminate; vm_compute; split;
      (reflexivity || discriminate).
  - reflexivity.
  - reflexivity.
Defined.

(** ** Results *)

Section ResultFacts.

Lemma correct_le_answered (qs : list Question.t) :
  (List.length (filter Question.isCorrect qs)
   <= List.length (filter Question.isAnswered qs))%nat.
Proof.
  induction qs as [|q qs IH]; simpl; [lia|].
  pose proof (isCorrect_isAnswered q) as H.
  destruct (Question.isCorrect q).
  - rewrite (H eq_refl). simpl. lia.
  - destruct (Question.isAnswered q); simpl; lia.
Qed.

Lemma compare_Lt_Eq (x y z : spec_float) :
  SFcompare x y = Some Lt -> SFcompare y z = Some Eq ->
  SFcompare x z = Some Lt.
Proof.
  destruct x as [sx|sx| |sx mx ex], y as [sy|sy| |sy my ey],
           z as [sz|sz| |sz mz ez]; simpl;
    try discriminate;
    try (destruct sx; discriminate
         || (destruct sy; discriminate
             || (destruct sz; discriminate || reflexivity)));
    try (destruct sx; discriminate
         || (destruct sz; discriminate
             || (destruct sy; discriminate || reflexivity)));
    try (destruct sy; discriminate
         || (destruct sx; discriminate
             || (destruct sz; discriminate || reflexivity))).
  all: try (destruct sx, sy; simpl; try discriminate; try reflexivity; fail).
  all: try (destruct sy, sz; simpl; try discriminate; try reflexivity; fail).
  all: try (destruct sx, sz; simpl; try discriminate; try reflexivity; fail).
  all: destruct sx, sy, sz; simpl; try discriminate; try reflexivity.
  all: fold (Pos.compare mx my); fold (Pos.compare my mz);
    fold (Pos.compare mx mz).
  all: intros H1 H2; injection H1 as H1; injection H2 as H2; f_equal.
  all: destruct (Z.compare_spec ex ey), (Z.compare_spec ey ez),
         (Z.compare_spec ex ez);
    try discriminate; try lia; try reflexivity.
  all: destruct (Pos.compare_spec mx my), (Pos.compare_spec my mz),
         (Pos.compare_spec mx mz);
    simpl in *; try discriminate; try lia; try reflexivity.
Qed.

(** A percentage that reaches a threshold reaches every lower one. *)
Lemma geb_lower (p a b : Num.double) :
  Num.ltb a b = true -> Num.geb p b = true -> Num.geb p a = true.
Proof.
  unfold Num.ltb, Num.geb, SFltb, SFleb. intros Hab Hbp.
  destruct (SFcompare a b) as [[]|] eqn:E1; try discriminate.
  destruct (SFcompare b p) as [[]|] eqn:E2; try discriminate.
  - now rewrite (compare_Lt_Eq _ _ _ E1 E2).
  - now rewrite (NumFacts.compare_Lt_trans _ _ _ E1 E2).
Qed.

Lemma calculateGrade_F_iff (p : Num.double) :
  ExamResult.calculateGrade p = "F" <-> Num.geb p (Num.of_Z 60) = false.
Proof.
  unfold ExamResult.calculateGrade. split.
  - destruct (Num.geb p (Num.of_Z 90)); [discriminate|].
    destruct (Num.geb p (Num.of_Z 80)); [discriminate|].
    destruct (Num.geb p (Num.of_Z 70)); [discriminate|].
    destruct (Num.geb p (Num.of_Z 60)); [discriminate | reflexivity].
  - intros H60.
    assert (H : forall b, Num.ltb (Num.of_Z 60) b = true ->
                          Num.geb p b = false).
    { intros b Hb. destruct (Num.geb p b) eqn:E; [|reflexivity].
      now rewrite (geb_lower p _ b Hb E) in H60. }
    rewrite (H (Num.of_Z 90) eq_refl), (H (Num.of_Z 80) eq_refl),
      (H (Num.of_Z 70) eq_refl), H60. reflexivity.
Qed.

Lemma calculateGrade_values (p : Num.double) :
  In (ExamResult.calculateGrade p) ["A"; "B"; "C"; "D"; "F"].
Proof.
  unfold ExamResult.calculateGrade.
  destruct (Num.geb p (Num.of_Z 90)); [simpl; tauto|].
  destruct (Num.geb p (Num.of_Z 80)); [simpl; tauto|].
  destruct (Num.geb p (Num.of_Z 70)); [simpl; tauto|].
  destruct (Num.geb p (Num.of_Z 60)); simpl; tauto.
Qed.

Lemma passing_grades now (exam : Exam.t) :
  exists r,
    ExamResult.new now exam = Ok r
    /\ In (ExamResult.grade r) ["A"; "B"; "C"; "D"; "F"]
    /\ (ExamResult.isPassing None r = true <-> ExamResult.grade r <> "F").
Proof.
  destruct (new_total now exam) as (r & Hr & _ & Hg & Hp).
  exists r. split; [exact Hr|].
  unfold ExamResult.grade, ExamResult.isPassing. rewrite Hg.
  split; [apply calculateGrade_values|].
  rewrite calculateGrade_F_iff.
  destruct (Num.geb (ExamResult._percentage r) (Num.of_Z 60));
    split; congruence.
Qed.

End ResultFacts.

(** X11.  In a result the correct and the incorrect count add up to
    the number of questions; no more questions are correct than
    answered, so every unanswered question counts, and is listed, as
    incorrect; the score is the correct count, and the two lists have
    the two counts as their lengths. *)
Theorem result_counts (now : Z) (exam : Exam.t) :
  exists r,
    ExamResult.new now exam = Ok r
    /\ ExamResult.correctCount r + ExamResult.incorrectCount r
       = Z.of_nat (Exam.totalQuestions exam)
    /\ 0 <= ExamResult.correctCount r
         <= Z.of_nat (Exam.getAnsweredCount exam)
    /\ Z.of_nat (Exam.totalQuestions exam) - Z.of_nat (Exam.getAnsweredCount exam)
       <= ExamResult.incorrectCount r
    /\ ExamResult.score r = ExamResult.correctCount r
    /\ Z.of_nat (List.length (ExamResult.getCorrectQuestions r))
       = ExamResult.correctCount r
    /\ Z.of_nat (List.length (ExamResult.getIncorrectQuestions r))
       = ExamResult.incorrectCount r
    /\ (forall q, In q (Exam.questions exam) ->
                  Question.isAnswered q = false ->
                  In q (ExamResult.getIncorrectQuestions r)).
Proof.
  eexists. split; [reflexivity|].
  unfold ExamResult.correctCount, ExamResult.incorrectCount, ExamResult.score,
    ExamResult.getCorrectQuestions, ExamResult.getIncorrectQuestions,
    ExamResult.calculateCorrectCount, Exam.getAnsweredCount,
    Exam.totalQuestions, Exam.questions; simpl.
  pose proof (correct_le_answered (Exam._questions exam)) as Hle.
  pose proof (filter_length Question.isCorrect (Exam._questions exam)) as Hp.
  repeat split; try lia.
  intros q Hin Hq. apply filter_In. split; [exact Hin|].
  destruct (Question.isCorrect q) eqn:E; [|reflexivity].
  apply isCorrect_isAnswered in E. congruence.
Qed.

Lemma result_counts_witness :
  exists r,
    ExamResult.new Samples.t1 Samples.exam3 = Ok r
    /\ ExamResult.correctCount r = 1
    /\ ExamResult.incorrectCount r = 2
    /\ In Samples.loop (ExamResult.getIncorrectQuestions r).
Proof.
  destruct (result_counts Samples.t1 Samples.exam3)
    as (r & Hr & _ & _ & _ & _ & _ & _ & Hun).
  exists r. split; [exact Hr|].
  injection Hr as <-. split; [reflexivity|]. split; [reflexivity|].
  apply Hun; [simpl; tauto | reflexivity].
Defined.

(** X12.  The grade of a result is one of A, B, C, D, F; with the
    default threshold a result passes exactly when its grade is not F,
    and that is what [toJSON] records; the result of an exam without
    questions passes no threshold. *)
Theorem isPassing_grade (now : Z) (exam : Exam.t) :
  exists r,
    ExamResult.new now exam = Ok r
    /\ In (ExamResult.grade r) ["A"; "B"; "C"; "D"; "F"]
    /\ (ExamResult.isPassing None r = true <-> ExamResult.grade r <> "F")
    /\ ExamResult.JSON.isPassing (ExamResult.toJSON r)
       = ExamResult.isPassing None r
    /\ (Exam.totalQuestions exam = 0%nat ->
        forall threshold, ExamResult.isPassing threshold r = false).
Proof.
  destruct (new_total now exam) as (r & Hr & _ & Hg & Hp).
  exists r. split; [exact Hr|].
  unfold ExamResult.grade, ExamResult.isPassing. rewrite Hg.
  split; [apply calculateGrade_values|]. split; [| split; [reflexivity|]].
  - rewrite calculateGrade_F_iff.
    destruct (Num.geb (ExamResult._percentage r) (Num.of_Z 60));
      split; congruence.
  - intros H threshold. rewrite Hp.
    unfold ExamResult.calculateCorrectCount, Exam.questions.
    rewrite (no_questions exam H), H.
    apply NumFacts.nan_geb.
Qed.

Lemma isPassing_grade_witness :
  exists r,
    ExamResult.new Samples.t1 (snd (Exam.answerQuestion 3 0 Samples.exam3))
    = Ok r
    /\ ExamResult.grade r = "D" /\ ExamResult.isPassing None r = true.
Proof.
  destruct (isPassing_grade Samples.t1
              (snd (Exam.answerQuestion 3 0 Samples.exam3)))
    as (r & Hr & _ & Hp & _).
  exists r. split; [exact Hr|].
  assert (Hg : ExamResult.grade r = "D") by (injection Hr as <-; reflexivity).
  split; [exact Hg|]. apply Hp. rewrite Hg. discriminate.
Defined.

(** X13.  The border class of a result is its colour class with
    [border-] for [text-]; the colour is the red one exactly when the
    result does not pass; and two results have the same colour exactly
    when they have the same grade. *)
Theorem grade_colours (now : Z) (exam : Exam.t) :
  exists r,
    ExamResult.new now exam = Ok r
    /\ ExamResult.getGradeBorder r
       = "border-" ++ Str.drop 5 (ExamResult.getGradeColor r)
    /\ (ExamResult.getGradeColor r = "text-[#ff6b6b]"
        <-> ExamResult.isPassing None r = false)
    /\ (forall now' exam' r',
           ExamResult.new now' exam' = Ok r' ->
           (ExamResult.getGradeColor r' = ExamResult.getGradeColor r
            <-> ExamResult.grade r' = ExamResult.grade r)).
Proof.
  destruct (passing_grades now exam) as (r & Hr & Hin & Hp).
  exists r. split; [exact Hr|].
  assert (Hcol : forall r0, In (ExamResult.grade r0) ["A"; "B"; "C"; "D"; "F"] ->
            ExamResult.getGradeBorder r0
            = "border-" ++ Str.drop 5 (ExamResult.getGradeColor r0)
            /\ (ExamResult.getGradeColor r0 = "text-[#ff6b6b]"
                <-> ExamResult.grade r0 = "F")
            /\ forall r1, In (ExamResult.grade r1) ["A"; "B"; "C"; "D"; "F"] ->
               (ExamResult.getGradeColor r1 = ExamResult.getGradeColor r0
                <-> ExamResult.grade r1 = ExamResult.grade r0)).
  { intros r0 H0. unfold ExamResult.getGradeBorder, ExamResult.getGradeColor,
      ExamResult.grade in *.
    simpl in H0.
    destruct H0 as [<-|[<-|[<-|[<-|[<-|[]]]]]]; simpl;
      (split; [reflexivity|]); (split; [split; congruence|]);
      intros r1 H1; simpl in H1;
      destruct H1 as [<-|[<-|[<-|[<-|[<-|[]]]]]]; simpl; split; congruence. }
  destruct (Hcol r Hin) as (Hb & Hf & Hd).
  split; [exact Hb|]. split.
  - rewrite Hf. destruct (ExamResult.isPassing None r).
    + split; [intros H; now apply (proj1 Hp) in H | discriminate].
    + split; [reflexivity|]. intros _.
      destruct (string_dec (ExamResult.grade r) "F") as [E|E]; [exact E|].
      apply Hp in E. discriminate.
  - intros now' exam' r' Hr'. apply Hd.
    destruct (passing_grades now' exam') as (r2 & Hr2 & Hin2 & _).
    rewrite Hr' in Hr2. injection Hr2 as <-. exact Hin2.
Qed.

Lemma grade_colours_witness :
  exists r,
    ExamResult.new Samples.t1 Samples.exam3 = Ok r
    /\ ExamResult.getGradeColor r = "text-[#ff6b6b]"
    /\ ExamResult.getGradeBorder r = "border-[#ff6b6b]".
Proof.
  destruct (grade_colours Samples.t1 Samples.exam3) as (r & Hr & Hb & Hf & _).
  exists r. split; [exact Hr|].
  assert (Hc : ExamResult.getGradeColor r = "text-[#ff6b6b]").
  { apply Hf. injection Hr as <-. reflexivity. }
  split; [exact Hc|]. rewrite Hb, Hc. reflexivity.
Defined.

(** ** The adapter's calls *)

Section AdapterFacts.
Import GeminiAIService.

Lemma includes_app_r (s t x : string) :
  Str.includes t x = true -> Str.includes (s ++ t) x = true.
Proof.
  intros H. induction s as [|c s IH]; [exact H|].
  change (String.prefix x (String c (s ++ t)) || Str.includes (s ++ t) x = true).
  rewrite IH. apply orb_true_r.
Qed.

Lemma lastSegment_app (sep : ascii) (base ext : string) :
  Str.occurs sep ext = false ->
  Str.lastSegment sep (base ++ String sep ext) = ext.
Proof.
  intros He. induction base as [|c base IH].
  - simpl. rewrite He, Ascii.eqb_refl. reflexivity.
  - change (Str.lastSegment sep (String c (base ++ String sep ext)) = ext).
    cbn [Str.lastSegment].
    assert (Ho : Str.occurs sep (base ++ String sep ext) = true).
    { clear IH. induction base as [|d base IHb]; simpl.
      - now rewrite Ascii.eqb_refl.
      - rewrite IHb. apply orb_true_r. }
    now rewrite Ho.
Qed.

Lemma lastSegment_none (sep : ascii) (s : string) :
  Str.occurs sep s = false -> Str.lastSegment sep s = s.
Proof.
  destruct s as [|c s]; [reflexivity|]. intros H.
  change (Ascii.eqb sep c || Str.occurs sep s = false) in H.
  apply orb_false_iff in H as [Hc Hs].
  cbn [Str.lastSegment]. rewrite Hs, Ascii.eqb_sym, Hc. reflexivity.
Qed.

Lemma includes_valid (x : string) :
  includes validMimeTypes x = true <-> In x validMimeTypes.
Proof.
  unfold includes. rewrite existsb_exists. split.
  - intros (y & Hin & E). apply String.eqb_eq in E. now subst.
  - intros H. exists x. split; [exact H | apply String.eqb_refl].
Qed.

(** The three things a [catch] block can throw. *)
Lemma translate_cases rateLimit prefix error :
  translate rateLimit prefix error = Error rateLimit
  \/ translate rateLimit prefix error = Error invalidKey
  \/ translate rateLimit prefix error = Error (prefix ++ message_of error).
Proof.
  unfold translate.
  destruct (Str.includes _ "429"); [now left|].
  destruct (Str.includes _ "API key"); [right; now left | right; now right].
Qed.

End AdapterFacts.

(** X14.  [getMimeType] always answers one of the six supported
    types: the type of the file when that is one of them, otherwise by
    the extension after the last dot, in any case of letters; a [webp]
    extension, like an unknown one, gives [image/png], and a name
    without a dot is its own extension. *)
Theorem getMimeType_supported (file : GeminiAIService.File) :
  In (GeminiAIService.getMimeType file) GeminiAIService.validMimeTypes
  /\ (In (GeminiAIService.type file) GeminiAIService.validMimeTypes ->
      GeminiAIService.getMimeType file = GeminiAIService.type file)
  /\ (~ In (GeminiAIService.type file) GeminiAIService.validMimeTypes ->
      forall base ext,
        GeminiAIService.name file = base ++ String "." ext ->
        Str.occurs "." ext = false ->
        (Str.toLowerCase ext = "pdf" ->
         GeminiAIService.getMimeType file = "application/pdf")
        /\ (Str.toLowerCase ext = "jpg" \/ Str.toLowerCase ext = "jpeg" ->
            GeminiAIService.getMimeType file = "image/jpeg")
        /\ (Str.toLowerCase ext = "gif" ->
            GeminiAIService.getMimeType file = "image/gif")
        /\ (Str.toLowerCase ext = "webp" ->
            GeminiAIService.getMimeType file = "image/png"))
  /\ (~ In (GeminiAIService.type file) GeminiAIService.validMimeTypes ->
      Str.occurs "." (GeminiAIService.name file) = false ->
      Str.toLowerCase (GeminiAIService.name file) = "pdf" ->
      GeminiAIService.getMimeType file = "application/pdf").
Proof.
  unfold GeminiAIService.getMimeType.
  destruct (GeminiAIService.includes GeminiAIService.validMimeTypes
              (GeminiAIService.type file)) eqn:Et.
  - apply includes_valid in Et. repeat split; auto; contradiction.
  - assert (Hn : ~ In (GeminiAIService.type file)
                      GeminiAIService.validMimeTypes).
    { intros H. apply includes_valid in H. congruence. }
    split; [| split; [| split]].
    + destruct (String.eqb _ "pdf"); [simpl; auto 10|].
      destruct (GeminiAIService.includes ["jpg"; "jpeg"] _);
        [simpl; auto 10|].
      destruct (String.eqb _ "png"); [simpl; auto 10|].
      destruct (String.eqb _ "gif"); simpl; auto 10.
    + contradiction.
    + intros _ base ext Hname Hext.
      rewrite Hname, (lastSegment_app "." base ext Hext).
      repeat split.
      * intros ->. reflexivity.
      * intros [-> | ->]; reflexivity.
      * intros ->. reflexivity.
      * intros ->. reflexivity.
    + intros _ Hno Hpdf.
      assert (Hl : Str.lastSegment "." (GeminiAIService.name file)
                   = GeminiAIService.name file).
      { apply lastSegment_none, Hno. }
      rewrite Hl, Hpdf. reflexivity.
Qed.

Lemma getMimeType_supported_witness :
  GeminiAIService.getMimeType
    {| GeminiAIService.name := "scan.final.PDF"; GeminiAIService.type := "" |}
  = "application/pdf"
  /\ GeminiAIService.getMimeType
       {| GeminiAIService.name := "photo.webp";
          GeminiAIService.type := "image/webp" |}
     = "image/webp"
  /\ GeminiAIService.getMimeType
       {| GeminiAIService.name := "photo.webp"; GeminiAIService.type := "" |}
     = "image/png".
Proof.
  assert (Hn : ~ In "" GeminiAIService.validMimeTypes).
  { simpl. intros [H|[H|[H|[H|[H|[H|[]]]]]]]; discriminate. }
  split; [| split].
  - apply (proj1 (proj2 (proj2 (getMimeType_supported
             {| GeminiAIService.name := "scan.final.PDF";
                GeminiAIService.type := "" |}))) Hn "scan.final" "PDF");
      reflexivity.
  - apply (proj1 (proj2 (getMimeType_supported
             {| GeminiAIService.name := "photo.webp";
                GeminiAIService.type := "image/webp" |}))).
    simpl. tauto.
  - apply (proj1 (proj2 (proj2 (getMimeType_supported
             {| GeminiAIService.name := "photo.webp";
                GeminiAIService.type := "" |}))) Hn "photo" "webp");
      reflexivity.
Defined.

Section AdapterRuns.
Import GeminiAIService.
Variable JSON_parse : string -> JSON.parsed.

Lemma parse_parsed responseText data :
  JSON_parse (cleanResponse responseText) = JSON.Parsed data ->
  parseQuestionsFromResponse JSON_parse responseText
  = ([], match data with
         | JSON.Array items => mapFrom 0 items
         | _ => Throw notAnArray
         end).
Proof.
  intros H. unfold parseQuestionsFromResponse, parseData. now rewrite H.
Qed.

Lemma mapFrom_app good shapes : forall index tail,
  Shape.elements good shapes ->
  mapFrom index (good ++ tail)
  = bind (mapFrom (index + List.length good) tail)
         (fun qs => Ok (Shape.questionsFrom index shapes ++ qs)%list).
Proof.
  intros index tail H. revert index.
  induction H as [|item [[text options] answer] good shapes He _ IH];
    intros index; simpl.
  - rewrite Nat.add_0_r. now destruct (mapFrom index tail).
  - rewrite (toQuestion_element index item _ _ _ He). simpl.
    rewrite IH. rewrite <- Nat.add_succ_comm.
    now destruct (mapFrom (S index + List.length good) tail).
Qed.

Lemma toQuestion_lacksAnswer index item :
  Shape.lacksAnswer item ->
  exists m, toQuestion index item = Throw (TypeError m)
            /\ Str.includes m "429" = false
            /\ Str.includes m "API key" = false.
Proof.
  intros [-> | (v & Hv & Hs)].
  - eexists. split; [reflexivity|]. split; vm_compute; reflexivity.
  - unfold toQuestion. rewrite Hv. simpl.
    destruct v as [[| | |s| |]|];
      try (eexists; split; [reflexivity|]; split; vm_compute; reflexivity).
    now destruct (Hs s).
Qed.

End AdapterRuns.

(** X15.  A response that parses to something else than an array is
    refused with "Invalid response format: expected array of questions";
    nothing is logged by the parser, and the two calls log the message
    and wrap it in their "Failed to ..." error. *)
Theorem parse_not_an_array (JSON_parse : string -> JSON.parsed)
    (responseText : string) (data : JSON.value) :
  JSON_parse (GeminiAIService.cleanResponse responseText) = JSON.Parsed data ->
  (forall items, data <> JSON.Array items) ->
  GeminiAIService.parseQuestionsFromResponse JSON_parse responseText
  = ([], Throw (Error "Invalid response format: expected array of questions"))
  /\ GeminiAIService.analyzeDocument JSON_parse (Ok responseText)
     = ([GeminiAIService.LogError "Error analyzing document:"
           "Invalid response format: expected array of questions"],
        Throw (Error ("Failed to analyze document: "
                        ++ "Invalid response format: expected array of questions")))
  /\ GeminiAIService.generateQuestions JSON_parse (Ok responseText)
     = ([GeminiAIService.LogError "Error generating questions:"
           "Invalid response format: expected array of questions"],
        Throw (Error ("Failed to generate questions: "
                        ++ "Invalid response format: expected array of questions"))).
Proof.
  intros Hp Hn.
  assert (H : GeminiAIService.parseQuestionsFromResponse JSON_parse responseText
              = ([], Throw GeminiAIService.notAnArray)).
  { rewrite (parse_parsed JSON_parse responseText data Hp).
    destruct data; try reflexivity. now destruct (Hn items). }
  split; [exact H|].
  unfold GeminiAIService.analyzeDocument, GeminiAIService.generateQuestions,
    GeminiAIService.guarded.
  rewrite H. split; reflexivity.
Qed.

Lemma parse_not_an_array_witness :
  GeminiAIService.parseQuestionsFromResponse JSONRef.parse
    ("{" ++ Samples.quoted "questions" ++ ": []}")
  = ([], Throw (Error "Invalid response format: expected array of questions")).
Proof.
  apply (proj1 (parse_not_an_array JSONRef.parse
                  ("{" ++ Samples.quoted "questions" ++ ": []}")
                  (JSON.Object [("questions", JSON.Array [])])
                  eq_refl ltac:(discriminate))).
Defined.

(** X16.  A response that parses to the empty array is no error of
    the adapter: both calls return no questions.  The service then
    throws ("No questions found in the document", "Failed to generate
    questions") and keeps the exam it had. *)
Theorem empty_array_no_exam (JSON_parse : string -> JSON.parsed)
    (responseText : string) :
  JSON_parse (GeminiAIService.cleanResponse responseText)
    = JSON.Parsed (JSON.Array []) ->
  GeminiAIService.analyzeDocument JSON_parse (Ok responseText) = ([], Ok [])
  /\ GeminiAIService.generateQuestions JSON_parse (Ok responseText)
     = ([], Ok [])
  /\ (forall now title s,
         ExamService.createExamFromFile
           (snd (GeminiAIService.analyzeDocument JSON_parse (Ok responseText)))
           now title s
         = (Throw (Error "No questions found in the document"), s))
  /\ (forall now topic title s,
         ExamService.createExamFromTopic
           (snd (GeminiAIService.generateQuestions JSON_parse (Ok responseText)))
           now topic title s
         = (Throw (Error "Failed to generate questions"), s)).
Proof.
  intros Hp.
  unfold GeminiAIService.analyzeDocument, GeminiAIService.generateQuestions,
    GeminiAIService.guarded.
  rewrite (parse_parsed JSON_parse responseText _ Hp). simpl.
  repeat split.
Qed.

Lemma empty_array_no_exam_witness :
  ExamService.createExamFromFile
    (snd (GeminiAIService.analyzeDocument JSONRef.parse
            (Ok (Shape.fenced GeminiAIService.fence_json (Shape.arrayText "")))))
    Samples.t0 "Test Bank Exam" (ExamService.mk (Some Samples.exam3))
  = (Throw (Error "No questions found in the document"),
     ExamService.mk (Some Samples.exam3)).
Proof.
  apply (proj1 (proj2 (proj2 (empty_array_no_exam JSONRef.parse
    (Shape.fenced GeminiAIService.fence_json (Shape.arrayText "")) eq_refl)))).
Defined.

(** X17.  An element without a text under [correctAnswer], after any
    number of well-shaped elements, makes the parser throw a
    [TypeError]; no question of the response is returned, and
    [analyzeDocument] reports it as "Failed to analyze document: ..."
    with the message of the [TypeError]. *)
Theorem element_without_answer (JSON_parse : string -> JSON.parsed)
    (responseText : string) (good : list JSON.value)
    (shapes : list (string * list string * string))
    (item : JSON.value) (rest : list JSON.value) :
  JSON_parse (GeminiAIService.cleanResponse responseText)
    = JSON.Parsed (JSON.Array (good ++ item :: rest)) ->
  Shape.elements good shapes ->
  Shape.lacksAnswer item ->
  exists m,
    GeminiAIService.parseQuestionsFromResponse JSON_parse responseText
    = ([], Throw (TypeError m))
    /\ GeminiAIService.analyzeDocument JSON_parse (Ok responseText)
       = ([GeminiAIService.LogError "Error analyzing document:" m],
          Throw (Error ("Failed to analyze document: " ++ m))).
Proof.
  intros Hp Hg Hbad.
  destruct (toQuestion_lacksAnswer (0 + List.length good) item Hbad)
    as (m & Hm & H429 & Hkey).
  exists m.
  assert (H : GeminiAIService.parseQuestionsFromResponse JSON_parse responseText
              = ([], Throw (TypeError m))).
  { rewrite (parse_parsed JSON_parse responseText _ Hp).
    rewrite (mapFrom_app good shapes 0 (item :: rest) Hg). simpl.
    simpl in Hm. now rewrite Hm. }
  split; [exact H|].
  unfold GeminiAIService.analyzeDocument, GeminiAIService.guarded.
  rewrite H. unfold GeminiAIService.translate. simpl message_of.
  now rewrite H429, Hkey.
Qed.

Lemma element_without_answer_witness :
  GeminiAIService.analyzeDocument JSONRef.parse
    (Ok Samples.missingAnswerResponse)
  = ([GeminiAIService.LogError "Error analyzing document:"
        "Cannot read properties of undefined (reading 'toUpperCase')"],
     Throw (Error ("Failed to analyze document: "
                     ++ "Cannot read properties of undefined (reading "
                     ++ "'toUpperCase')"))).
Proof.
  assert (Hp : { items |
      JSONRef.parse (GeminiAIService.cleanResponse
                       Samples.missingAnswerResponse)
      = JSON.Parsed (JSON.Array items) }).
  { eexists. vm_compute. reflexivity. }
  destruct Hp as [items Hp].
  pose proof Hp as Hp'. vm_compute in Hp'. injection Hp' as Hi.
  destruct items as [|good [|item rest]]; try discriminate.
  injection Hi as Hg Hitem Hrest.
  destruct (element_without_answer JSONRef.parse Samples.missingAnswerResponse
              [good]
              [("Which option is right?",
                Samples.fourOptions "one" "two" "three" "four", "a")]
              item rest Hp) as (m & Hparse & Hdoc).
  - subst good. repeat constructor; try (eexists; split; reflexivity).
  - right. subst item. exists None. split; [reflexivity | discriminate].
  - rewrite Hdoc.
    assert (Hm : m = "Cannot read properties of undefined (reading 'toUpperCase')").
    { unfold GeminiAIService.parseQuestionsFromResponse,
        GeminiAIService.parseData in Hparse.
      rewrite Hp in Hparse. subst. vm_compute in Hparse.
      now injection Hparse. }
    now rewrite Hm.
Defined.

Section TranslationFacts.
Import GeminiAIService.

Lemma includes_invalidJSON_429 m :
  Str.includes ("Invalid JSON response from AI. Please try again. Error: "
                  ++ m) "429"
  = Str.includes m "429".
Proof. reflexivity. Qed.

Lemma includes_invalidJSON_key m :
  Str.includes ("Invalid JSON response from AI. Please try again. Error: "
                  ++ m) "API key"
  = Str.includes m "API key".
Proof. reflexivity. Qed.

End TranslationFacts.

(** X18.  What the two calls throw for a response that [JSON.parse]
    rejects and the salvage does not rescue is decided by the message of
    [JSON.parse]: the rate-limit text when it contains "429" (a
    position, say), the invalid-key text when it contains "API key",
    and otherwise "Failed to ...: Invalid JSON response from AI. Please
    try again. Error: " followed by the message. *)
Theorem rejected_response_report (JSON_parse : string -> JSON.parsed)
    (responseText m : string) :
  JSON_parse (GeminiAIService.cleanResponse responseText) = JSON.Rejected m ->
  (forall a, Str.arrayMatch (GeminiAIService.cleanResponse responseText)
             = Some a ->
             exists m', JSON_parse a = JSON.Rejected m') ->
  let report rateLimit prefix :=
    Throw (Error
      (if Str.includes m "429" then rateLimit
       else if Str.includes m "API key" then GeminiAIService.invalidKey
       else prefix ++ "Invalid JSON response from AI. Please try again. "
                   ++ "Error: " ++ m)) in
  snd (GeminiAIService.analyzeDocument JSON_parse (Ok responseText))
  = report GeminiAIService.rateLimit_analyze "Failed to analyze document: "
  /\ snd (GeminiAIService.generateQuestions JSON_parse (Ok responseText))
     = report GeminiAIService.rateLimit_generate
              "Failed to generate questions: ".
Proof.
  intros Hp Hretry report.
  assert (H : GeminiAIService.parseQuestionsFromResponse JSON_parse
                responseText
              = ([GeminiAIService.LogError "JSON Parse Error:" m;
                  GeminiAIService.LogText "Raw Response:" responseText;
                  GeminiAIService.LogText "Cleaned JSON Text:"
                    (GeminiAIService.cleanResponse responseText)],
                 Throw (GeminiAIService.invalidJSON m))).
  { unfold GeminiAIService.parseQuestionsFromResponse,
      GeminiAIService.parseData.
    rewrite Hp.
    destruct (Str.arrayMatch _) as [a|] eqn:Ea; [|reflexivity].
    destruct (Hretry a eq_refl) as [m' Hm']. now rewrite Hm'. }
  unfold GeminiAIService.analyzeDocument, GeminiAIService.generateQuestions,
    GeminiAIService.guarded, report.
  rewrite H. unfold GeminiAIService.translate, GeminiAIService.invalidJSON.
  cbn [snd message_of].
  rewrite includes_invalidJSON_429, includes_invalidJSON_key.
  destruct (Str.includes m "429"); [split; reflexivity|].
  destruct (Str.includes m "API key"); split; reflexivity.
Qed.

Lemma rejected_response_report_witness :
  JSONRef.parse Samples.strayAt429
  = JSON.Rejected "Unexpected token x in JSON at position 429"
  /\ snd (GeminiAIService.analyzeDocument JSONRef.parse
            (Ok Samples.strayAt429))
     = Throw (Error GeminiAIService.rateLimit_analyze).
Proof.
  assert (Hp : JSONRef.parse (GeminiAIService.cleanResponse Samples.strayAt429)
               = JSON.Rejected "Unexpected token x in JSON at position 429")
    by (vm_compute; reflexivity).
  split; [vm_compute; reflexivity|].
  rewrite (proj1 (rejected_response_report JSONRef.parse Samples.strayAt429 _
                    Hp ltac:(intros a Ha; vm_compute in Ha; discriminate))).
  reflexivity.
Defined.

Section SessionFacts.

Lemma answerQuestion_frame questionId answerIndex (e : Exam.t) :
  Exam.totalQuestions (snd (Exam.answerQuestion questionId answerIndex e))
  = Exam.totalQuestions e
  /\ Exam.startTime (snd (Exam.answerQuestion questionId answerIndex e))
     = Exam.startTime e
  /\ Exam.endTime (snd (Exam.answerQuestion questionId answerIndex e))
     = Exam.endTime e.
Proof.
  unfold Exam.answerQuestion.
  destruct (find (fun q => Question.id q =? questionId) (Exam._questions e))
    as [q|] eqn:Ef.
  - destruct (answerFirst_some questionId answerIndex _ q Ef)
      as (qs' & Ha & _ & Hm & _).
    rewrite Ha. simpl. repeat split.
    unfold Exam.totalQuestions. simpl.
    rewrite <- (length_map Question.id qs'), Hm. apply length_map.
  - apply (answerFirst_none questionId answerIndex) in Ef. rewrite Ef.
    repeat split.
Qed.

Lemma started_ready now title (questions : list Question.t) :
  Date.inRange now ->
  (List.length questions =? 0)%nat = false ->
  Session.ready
    (ExamService.mk (Some (Exam.start now (Exam.new title questions None)))).
Proof.
  intros Hnow H. apply Nat.eqb_neq in H. unfold Session.ready. simpl.
  split; [unfold Exam.totalQuestions; simpl; lia|].
  split; [now exists now | exact I].
Qed.

Lemma step_ready s s' : Session.ready s -> Session.step s s' -> Session.ready s'.
Proof.
  intros Hr Hs. destruct Hs as [analysis now title s Hnow
                               |generation now topic title s Hnow
                               |now s Hnow
                               |questionId answerIndex s
                               |now s Hnow
                               |s
                               |questionId answerIndex s exam H
                               |now s exam Hnow H].
  - unfold ExamService.createExamFromFile.
    destruct analysis as [questions| |]; try exact Hr.
    destruct (List.length questions =? 0)%nat eqn:E; [exact Hr|].
    now apply started_ready.
  - unfold ExamService.createExamFromTopic.
    destruct generation as [questions| |]; try exact Hr.
    destruct (List.length questions =? 0)%nat eqn:E; [exact Hr|].
    now apply started_ready.
  - unfold ExamService.startExam, Session.ready in *.
    destruct (ExamService.currentExam s) as [exam|] eqn:E; simpl;
      [|now rewrite E].
    destruct Hr as (Hn & _ & He). split; [exact Hn|].
    split; [now exists now | exact He].
  - unfold ExamService.submitAnswer, Session.ready in *.
    destruct (ExamService.currentExam s) as [exam|] eqn:E; simpl;
      [|now rewrite E].
    pose proof (answerQuestion_frame questionId answerIndex exam)
      as (Hn & Hs & He).
    destruct (Exam.answerQuestion questionId answerIndex exam) as [r exam'].
    simpl in *. now rewrite Hn, Hs, He.
  - unfold ExamService.completeExam, Session.ready in *.
    destruct (ExamService.currentExam s) as [exam|] eqn:E; simpl;
      [|now rewrite E].
    destruct (negb (Exam.canSubmit exam)); simpl; [now rewrite E|].
    destruct Hr as (Hn & Hs & _). split; [exact Hn|].
    split; [exact Hs | exact Hnow].
  - exact I.
  - unfold Session.ready in *. rewrite H in Hr. simpl.
    pose proof (answerQuestion_frame questionId answerIndex exam)
      as (Hn & Hs & He).
    now rewrite Hn, Hs, He.
  - unfold Session.ready in *. rewrite H in Hr. simpl.
    destruct Hr as (Hn & Hs & _). split; [exact Hn|].
    split; [exact Hs | exact Hnow].
Qed.

Lemma of_nat_percentage_not_nan (c t : nat) :
  (c <= t)%nat -> (0 < t)%nat -> Z.of_nat t < 2 ^ 53 ->
  Num.is_nan (Num.mul (Num.div (Num.of_nat c) (Num.of_nat t)) (Num.of_Z 100))
  = false.
Proof.
  intros Hc Ht Hb. unfold Num.of_nat.
  apply NumFacts.percentage_not_nan; lia.
Qed.

End SessionFacts.

(** X19.  In every state a session can reach, the exam in progress
    has a question and valid stamps.  So its progress percentage is a
    number and its elapsed time is a number, and the result
    [completeExam()] returns has numbers as percentage and as
    completion time; the completion time is the whole seconds from the
    start to the call when the two are less than 2^53 milliseconds
    apart. *)
Theorem session_numbers (s : ExamService.t) :
  Session.reachable s ->
  Session.ready s
  /\ (forall exam,
        ExamService.currentExam s = Some exam ->
        Z.of_nat (Exam.totalQuestions exam) < 2 ^ 53 ->
        Num.is_nan (ExamService.percentage (ExamService.getProgress s)) = false
        /\ (forall now,
              Date.inRange now ->
              Num.is_nan (Exam.getElapsedTime now exam) = false)
        /\ (forall now result,
              Date.inRange now ->
              fst (ExamService.completeExam now s) = Ok result ->
              Num.is_nan (ExamResult.percentage result) = false
              /\ Num.is_nan (ExamResult.completionTime result) = false
              /\ exists t0,
                   Exam.startTime exam = Some (Date.Valid t0)
                   /\ Date.inRange t0
                   /\ (Z.abs (now - t0) < 2 ^ 53 ->
                       ExamResult.completionTime result
                       = Num.of_Z ((now - t0) / 1000)))).
Proof.
  intros Hreach.
  assert (Hr : Session.ready s).
  { induction Hreach as [|s s' _ IH Hstep]; [exact I|].
    exact (step_ready s s' IH Hstep). }
  split; [exact Hr|].
  intros exam Hexam Hbound. unfold Session.ready in Hr. rewrite Hexam in Hr.
  destruct Hr as (Hn & (t0 & Hs & H0) & He).
  unfold Exam.startTime, Exam.endTime in *.
  split; [|split].
  - unfold ExamService.getProgress. rewrite Hexam. simpl.
    apply of_nat_percentage_not_nan; auto using getAnsweredCount_le.
  - intros now Hnow. unfold Exam.getElapsedTime. rewrite Hs.
    destruct (Exam._endTime exam) as [[t1|]|]; simpl in He;
      [| contradiction |];
      cbn [Date.getTime double_of_index]; now apply elapsed_not_nan.
  - intros now result Hnow. unfold ExamService.completeExam. rewrite Hexam.
    destruct (negb (Exam.canSubmit exam)); cbn [fst]; [discriminate|].
    intros Hres.
    destruct (new_total now (Exam.end_ now exam)) as (r & Hnew & _ & _ & Hp).
    rewrite Hnew in Hres. injection Hres as <-.
    assert (Ht : ExamResult.completionTime r
                 = Num.floor
                     (Num.div (Num.sub (Num.of_Z now) (Num.of_Z t0))
                              (Num.of_Z 1000))).
    { unfold ExamResult.new in Hnew. injection Hnew as <-.
      unfold ExamResult.completionTime, Exam.getElapsedTime.
      cbn [ExamResult._completionTime Exam.end_ Exam._startTime
           Exam._endTime].
      rewrite Hs. reflexivity. }
    split; [|split].
    + unfold ExamResult.percentage. rewrite Hp. unfold Num.of_nat.
      pose proof (calculateCorrectCount_bounds (Exam.end_ now exam)) as Hc.
      rewrite end_totalQuestions in *.
      apply NumFacts.percentage_not_nan; lia.
    + rewrite Ht. now apply elapsed_not_nan.
    + exists t0. split; [exact Hs|]. split; [exact H0|].
      intros Hd. rewrite Ht, sub_of_Z.
      * now apply floor_div_1000.
      * unfold Date.inRange, Date.limit in Hnow.
        change (2 ^ 53) with 9007199254740992. lia.
      * unfold Date.inRange, Date.limit in H0.
        change (2 ^ 53) with 9007199254740992. lia.
Qed.

(** A session of two questions, both answered, completed 83.5 seconds
    after its start. *)
Lemma session_numbers_witness :
  let s := snd (ExamService.createExamFromFile
                  (Ok [Samples.capital; Samples.output]) Samples.t0
                  "Test Bank Exam" (ExamService.mk None)) in
  let s := snd (ExamService.submitAnswer 1 2 s) in
  let s := snd (ExamService.submitAnswer 2 0 s) in
  Session.ready s
  /\ option_map ExamResult.completionTime
       (match fst (ExamService.completeExam Samples.t1 s) with
        | Ok r => Some r
        | _ => None
        end)
     = Some (Num.of_Z 83).
Proof.
  intros s0 s1 s.
  assert (Ht0 : Date.inRange Samples.t0)
    by (vm_compute; split; discriminate).
  assert (Ht1 : Date.inRange Samples.t1)
    by (vm_compute; split; discriminate).
  assert (Hreach : Session.reachable s).
  { apply (Session.after s1); [|apply Session.submit].
    apply (Session.after s0); [|apply Session.submit].
    apply (Session.after (ExamService.mk None)); [apply Session.initial|].
    apply Session.createFromFile. exact Ht0. }
  destruct (session_numbers s Hreach) as [Hr Hn]. split; [exact Hr|].
  destruct (ExamService.currentExam s) as [exam|] eqn:E;
    [|vm_compute in E; discriminate].
  destruct (Hn exam eq_refl) as (_ & _ & Hc).
  { vm_compute in E. injection E as <-. vm_compute. reflexivity. }
  destruct (fst (ExamService.completeExam Samples.t1 s)) as [r| |] eqn:Er;
    try (vm_compute in Er; discriminate).
  destruct (Hc Samples.t1 r Ht1) as (_ & _ & t0 & Hs & _ & Ht).
  { exact Er. }
  simpl. vm_compute in E. injection E as <-.
  vm_compute in Hs. injection Hs as <-.
  rewrite Ht by (vm_compute; reflexivity). reflexivity.
Defined.

Section FreshExam.

Lemma questionsFrom_unanswered shapes : forall index,
  filter Question.isAnswered (Shape.questionsFrom index shapes) = [].
Proof.
  induction shapes as [|[[text options] correctAnswer] shapes IH];
    intros index; simpl; [reflexivity | apply IH].
Qed.

Lemma questionsFrom_length shapes : forall index,
  List.length (Shape.questionsFrom index shapes) = List.length shapes.
Proof.
  induction shapes as [|[[text options] correctAnswer] shapes IH];
    intros index; simpl; [reflexivity | now rewrite IH].
Qed.

Lemma zero_percent (t : nat) :
  (0 < t)%nat -> Z.of_nat t < 2 ^ 53 ->
  Num.mul (Num.div (Num.of_nat 0) (Num.of_nat t)) (Num.of_Z 100)
  = Num.of_Z 0.
Proof.
  intros Ht Hb. unfold Num.of_nat.
  destruct (Z.of_nat t) as [|p|p] eqn:E; try lia.
  destruct (NumFacts.of_Z_finite p Hb) as (m & e & ->). reflexivity.
Qed.

Lemma NoDup_map_of_nat (l : list nat) : NoDup l -> NoDup (map Z.of_nat l).
Proof.
  induction 1 as [|x l Hx _ IH]; simpl; constructor; [|exact IH].
  intros Hin. apply in_map_iff in Hin. destruct Hin as (y & Hy & Hin).
  apply Nat2Z.inj in Hy. now subst.
Qed.

End FreshExam.

(** X20.  From a response of well-shaped elements [createExamFromFile]
    makes the exam the service then holds: the questions of the parser
    with identifiers that differ, the title given, no limit, started at
    the reading of the clock and not ended.  Nothing is answered: the
    progress is 0 of the number of elements, 0 percent, and
    [completeExam()] throws "Not all questions have been answered". *)
Theorem created_exam_unanswered (JSON_parse : string -> JSON.parsed)
    (responseText : string) (items : list JSON.value)
    (shapes : list (string * list string * string))
    (now : Z) (title : string) (s : ExamService.t) :
  JSON_parse (GeminiAIService.cleanResponse responseText)
    = JSON.Parsed (JSON.Array items) ->
  Shape.elements items shapes ->
  shapes <> [] ->
  Z.of_nat (List.length shapes) < 2 ^ 53 ->
  let r :=
    ExamService.createExamFromFile
      (snd (GeminiAIService.analyzeDocument JSON_parse (Ok responseText)))
      now title s in
  exists exam,
    fst r = Ok exam
    /\ ExamService.getCurrentExam (snd r) = Some exam
    /\ Exam.questions exam = Shape.questionsFrom 0 shapes
    /\ NoDup (map Question.id (Exam.questions exam))
    /\ Exam.title exam = title
    /\ Exam.timeLimit exam = None
    /\ Exam.startTime exam = Some (Date.Valid now)
    /\ Exam.endTime exam = None
    /\ ExamService.getProgress (snd r)
       = {| ExamService.answered := 0;
            ExamService.total := Z.of_nat (List.length shapes);
            ExamService.percentage := Num.of_Z 0 |}
    /\ (forall later,
          ExamService.completeExam later (snd r)
          = (Throw (Error "Not all questions have been answered"), snd r)).
Proof.
  intros Hp He Hne Hb r.
  assert (Ha : GeminiAIService.analyzeDocument JSON_parse (Ok responseText)
               = ([], Ok (Shape.questionsFrom 0 shapes))).
  { unfold GeminiAIService.analyzeDocument, GeminiAIService.guarded.
    now rewrite (parse_elements JSON_parse responseText items shapes Hp He). }
  assert (Hlen : (0 < List.length shapes)%nat).
  { destruct shapes; [congruence | simpl; lia]. }
  set (exam := Exam.start now
                (Exam.new title (Shape.questionsFrom 0 shapes) None)).
  assert (Hr : r = (Ok exam, ExamService.mk (Some exam))).
  { subst r. rewrite Ha. unfold ExamService.createExamFromFile. simpl snd.
    cbv iota beta. rewrite questionsFrom_length.
    destruct (Nat.eqb_spec (List.length shapes) 0) as [E|_]; [lia|].
    reflexivity. }
  rewrite Hr. exists exam. simpl.
  split; [reflexivity|]. split; [reflexivity|]. split; [reflexivity|].
  split.
  { unfold Exam.questions; simpl. rewrite questionsFrom_ids.
    apply NoDup_map_of_nat, seq_NoDup. }
  do 4 (split; [reflexivity|]).
  split.
  - unfold ExamService.getProgress, Exam.getProgressPercentage,
      Exam.getAnsweredCount, Exam.totalQuestions; simpl.
    rewrite questionsFrom_unanswered, questionsFrom_length. simpl.
    f_equal. now apply zero_percent.
  - intros later. unfold ExamService.completeExam, Exam.canSubmit,
      Exam.getAnsweredCount, Exam.totalQuestions; simpl.
    rewrite questionsFrom_unanswered, questionsFrom_length. simpl.
    destruct (List.length shapes); [lia | reflexivity].
Qed.

Lemma created_exam_unanswered_witness :
  let r :=
    ExamService.createExamFromFile
      (snd (GeminiAIService.analyzeDocument JSONRef.parse
              (Ok Samples.fencedResponse)))
      Samples.t0 "Test Bank Exam" (ExamService.mk None) in
  ExamService.percentage (ExamService.getProgress (snd r)) = Num.of_Z 0
  /\ fst (ExamService.completeExam Samples.t1 (snd r))
     = Throw (Error "Not all questions have been answered").
Proof.
  intros r.
  assert (Hp : { items |
      JSONRef.parse (GeminiAIService.cleanResponse Samples.fencedResponse)
      = JSON.Parsed (JSON.Array items) }).
  { eexists. vm_compute. reflexivity. }
  destruct Hp as [items Hp].
  assert (He : Shape.elements items
      [("What is the capital of Spain?",
        Samples.fourOptions "Berlin" "Madrid" "Paris" "Rome", "B");
       ("Which planet is the largest?",
        Samples.fourOptions "Mars" "Venus" "Earth" "Jupiter", "D")]).
  { vm_compute in Hp. injection Hp as Hp. subst items.
    repeat constructor; try (eexists; split; reflexivity). }
  destruct (created_exam_unanswered JSONRef.parse Samples.fencedResponse
              items _ Samples.t0 "Test Bank Exam" (ExamService.mk None)
              Hp He ltac:(discriminate) ltac:(vm_compute; reflexivity))
    as (exam & _ & _ & _ & _ & _ & _ & _ & _ & Hprog & Hdone).
  fold r in Hprog, Hdone. rewrite Hprog, (Hdone Samples.t1).
  split; reflexivity.
Defined.

(** X21.  A [submitAnswer] that throws leaves the service as it was,
    and throws one of three errors: "No exam in progress" without an
    exam, "Question with id N not found" when no question has the
    identifier, and "Invalid answer index" when the first question with
    the identifier has no option at the index. *)
Theorem submitAnswer_failure (questionId answerIndex : Z)
    (s : ExamService.t) (e : exn) :
  fst (ExamService.submitAnswer questionId answerIndex s) = Throw e ->
  snd (ExamService.submitAnswer questionId answerIndex s) = s
  /\ match ExamService.currentExam s with
     | None => e = Error "No exam in progress"
     | Some exam =>
         match Exam.getQuestion questionId exam with
         | None =>
             e = Error ("Question with id " ++ string_of_Z questionId
                          ++ " not found")
         | Some q =>
             e = Error "Invalid answer index"
             /\ ~ (0 <= answerIndex
                   < Z.of_nat (List.length (Question.options q)))
         end
     end.
Proof.
  unfold ExamService.submitAnswer.
  destruct s as [[exam|]]; simpl.
  - unfold Exam.getQuestion, Exam.answerQuestion.
    destruct (find _ (Exam._questions exam)) as [q|] eqn:Ef.
    + destruct (answerFirst_some questionId answerIndex _ q Ef)
        as (qs' & Ha & _ & _ & _ & Hsame & _).
      rewrite Ha. simpl.
      destruct (Z.le_gt_cases 0 answerIndex) as [H0|H0];
        [destruct (Z.lt_ge_cases answerIndex
                     (Z.of_nat (List.length (Question.options q))))
           as [H1|H1]|].
      * rewrite (setUserAnswer_in_range q answerIndex (conj H0 H1)).
        discriminate.
      * rewrite (setUserAnswer_out_of_range q answerIndex) in * by lia.
        simpl in *. intros He. injection He as <-.
        rewrite (Hsame eq_refl). split; [now destruct exam|].
        split; [reflexivity | lia].
      * rewrite (setUserAnswer_out_of_range q answerIndex) in * by lia.
        simpl in *. intros He. injection He as <-.
        rewrite (Hsame eq_refl). split; [now destruct exam|].
        split; [reflexivity | lia].
    + apply (answerFirst_none questionId answerIndex) in Ef. rewrite Ef.
      simpl. intros He. injection He as <-. split; reflexivity.
  - intros He. injection He as <-. split; reflexivity.
Qed.

Lemma submitAnswer_failure_witness :
  ExamService.submitAnswer 3 4 (ExamService.mk (Some Samples.exam3))
  = (Throw (Error "Invalid answer index"),
     ExamService.mk (Some Samples.exam3)).
Proof.
  destruct (submitAnswer_failure 3 4 (ExamService.mk (Some Samples.exam3))
              (Error "Invalid answer index") eq_refl) as [Hs _].
  rewrite (surjective_pairing (ExamService.submitAnswer 3 4 _)), Hs.
  reflexivity.
Defined.

(** X22.  The position shown stays a position of a question under
    [handleNext] and [handleBack]: next stops at the last question, back
    at the first, and otherwise they move by one; at such a position the
    view reads the answer of a question of the exam.  At any other
    position, the first position of an exam without questions for one,
    reading [currentQuestion.userAnswer] throws a [TypeError]. *)
Theorem navigation_in_range (exam : Exam.t) (currentQuestionIndex : Z) :
  let total := Z.of_nat (List.length (Exam.questions exam)) in
  let next := ExamView.handleNext exam currentQuestionIndex in
  let back := ExamView.handleBack currentQuestionIndex in
  (0 <= currentQuestionIndex < total ->
   0 <= next < total
   /\ 0 <= back < total
   /\ (next = currentQuestionIndex <-> currentQuestionIndex = total - 1)
   /\ (next <> currentQuestionIndex -> next = currentQuestionIndex + 1)
   /\ (back = currentQuestionIndex <-> currentQuestionIndex = 0)
   /\ (back <> currentQuestionIndex -> back = currentQuestionIndex - 1)
   /\ exists q,
        In q (Exam.questions exam)
        /\ ExamView.currentQuestion exam currentQuestionIndex = Some q
        /\ ExamView.selectedOption exam currentQuestionIndex
           = Ok (Question.userAnswer q))
  /\ (~ 0 <= currentQuestionIndex < total ->
      ExamView.selectedOption exam currentQuestionIndex
      = Throw (TypeError ("Cannot read properties of undefined (reading "
                            ++ "'userAnswer')"))).
Proof.
  intros total next back. subst total next back.
  unfold ExamView.handleNext, ExamView.handleBack, ExamView.selectedOption,
    ExamView.currentQuestion.
  split.
  - intros Hr.
    destruct (Z.ltb_spec currentQuestionIndex
                (Z.of_nat (List.length (Exam.questions exam)) - 1));
      destruct (Z.ltb_spec 0 currentQuestionIndex);
      (repeat (split; try lia));
      destruct (array_get_in_range (Exam.questions exam)
                  currentQuestionIndex Hr) as [q Hq];
      exists q; rewrite Hq; (split; [|split; reflexivity]);
      unfold array_get in Hq;
      (destruct (currentQuestionIndex <? 0); [discriminate|]);
      now apply nth_error_In in Hq.
  - intros Hout. unfold array_get.
    destruct (Z.ltb_spec currentQuestionIndex 0) as [|H0]; [reflexivity|].
    destruct (nth_error _ _) as [q|] eqn:E; [|reflexivity].
    assert (nth_error (Exam.questions exam) (Z.to_nat currentQuestionIndex)
            <> None) as Hn by congruence.
    apply nth_error_Some in Hn. lia.
Qed.

Lemma navigation_in_range_witness :
  ExamView.handleNext Samples.exam3 2 = 2
  /\ ExamView.handleBack 0 = 0
  /\ ExamView.selectedOption Samples.emptyExam 0
     = Throw (TypeError ("Cannot read properties of undefined (reading "
                           ++ "'userAnswer')")).
Proof.
  destruct (navigation_in_range Samples.exam3 2) as [H _].
  destruct (H ltac:(vm_compute; split; [discriminate | reflexivity]))
    as (_ & _ & Hn & _).
  destruct (navigation_in_range Samples.exam3 0) as [H0 _].
  destruct (H0 ltac:(vm_compute; split; [discriminate | reflexivity]))
    as (_ & _ & _ & _ & Hb & _).
  destruct (navigation_in_range Samples.emptyExam 0) as [_ He].
  split; [apply (proj2 Hn); reflexivity|].
  split; [apply (proj2 Hb); reflexivity|].
  apply He. vm_compute. intros [_ Hlt]. discriminate.
Defined.

(** X23.  [handleSubmit] calls [onSubmit] exactly when every question
    is answered or the user confirms.  An exam with unanswered questions
    that [completeExam()] refuses is thus ended and graded by the views
    once the user confirms, each unanswered question counting as
    incorrect. *)
Theorem handleSubmit_gate (confirmed : bool) (exam : Exam.t) (now : Z) :
  ExamView.handleSubmit confirmed exam = Exam.canSubmit exam || confirmed
  /\ (Exam.canSubmit exam = false ->
      fst (ExamService.completeExam now (ExamService.mk (Some exam)))
      = Throw (Error "Not all questions have been answered")
      /\ exists ended result,
           App.handleExamSubmit now (Some exam) = Some ended
           /\ App.results now ended = Ok result
           /\ 0 < Z.of_nat (Exam.totalQuestions exam)
                  - Z.of_nat (Exam.getAnsweredCount exam)
                <= ExamResult.incorrectCount result).
Proof.
  pose proof (getAnsweredCount_le exam) as Hle.
  split.
  - unfold ExamView.handleSubmit, Exam.canSubmit.
    destruct (Nat.eqb_spec (Exam.getAnsweredCount exam)
                (Exam.totalQuestions exam)) as [E|E];
      destruct (Z.ltb_spec 0 (Z.of_nat (Exam.totalQuestions exam)
                              - Z.of_nat (Exam.getAnsweredCount exam)));
      try reflexivity; lia.
  - intros Hc. unfold ExamService.completeExam; simpl. rewrite Hc.
    split; [reflexivity|].
    exists (Exam.end_ now exam). eexists.
    split; [reflexivity|]. split; [reflexivity|].
    unfold ExamResult.incorrectCount, ExamResult.calculateCorrectCount; simpl.
    unfold Exam.canSubmit in Hc. apply Nat.eqb_neq in Hc.
    pose proof (correct_le_answered (Exam._questions exam)) as Hca.
    unfold Exam.getAnsweredCount, Exam.totalQuestions, Exam.questions in *.
    simpl. lia.
Qed.

Lemma handleSubmit_gate_witness :
  ExamView.handleSubmit true Samples.exam3 = true
  /\ ExamView.handleSubmit false Samples.exam3 = false
  /\ fst (ExamService.completeExam Samples.t1
            (ExamService.mk (Some Samples.exam3)))
     = Throw (Error "Not all questions have been answered").
Proof.
  split; [rewrite (proj1 (handleSubmit_gate true Samples.exam3 0));
          reflexivity|].
  split; [rewrite (proj1 (handleSubmit_gate false Samples.exam3 0));
          reflexivity|].
  apply (proj2 (handleSubmit_gate true Samples.exam3 Samples.t1)).
  reflexivity.
Defined.

Section OptionChange.

Lemma answerFirst_nth i (qs : list Question.t) : forall n q,
  NoDup (map Question.id qs) ->
  nth_error qs n = Some q ->
  exists qs',
    Exam.answerFirst (Question.id q) i qs
    = Some (fst (Question.setUserAnswer i q), qs')
    /\ nth_error qs' n = Some (snd (Question.setUserAnswer i q))
    /\ forall m, m <> n -> nth_error qs' m = nth_error qs m.
Proof.
  induction qs as [|q0 qs IH]; intros [|n] q Hnd Hn; simpl in *;
    try discriminate.
  - injection Hn as ->. rewrite Z.eqb_refl.
    destruct (Question.setUserAnswer i q) as [r q']. eexists.
    split; [reflexivity|]. split; [reflexivity|].
    intros [|m] Hm; [congruence | reflexivity].
  - inversion Hnd as [|x l Hnotin Hnd']; subst.
    destruct (Z.eqb_spec (Question.id q0) (Question.id q)) as [E|_].
    + exfalso. apply Hnotin. rewrite E. apply in_map.
      now apply nth_error_In in Hn.
    + destruct (IH n q Hnd' Hn) as (qs' & Ha & Hq & Ho). rewrite Ha.
      exists (q0 :: qs'). split; [reflexivity|]. split; [exact Hq|].
      intros [|m] Hm; [reflexivity|]. simpl. apply Ho. congruence.
Qed.

End OptionChange.

(** X24.  When the identifiers of the questions differ, choosing an
    option of the question shown answers that question: the call
    succeeds, the view then reads the chosen option at the position
    shown, the questions at the other positions are untouched, and the
    navigation is unchanged. *)
Theorem handleOptionChange_shown (optionIndex currentQuestionIndex : Z)
    (exam : Exam.t) (q : Question.t) :
  NoDup (map Question.id (Exam.questions exam)) ->
  ExamView.currentQuestion exam currentQuestionIndex = Some q ->
  0 <= optionIndex < Z.of_nat (List.length (Question.options q)) ->
  let r := ExamView.handleOptionChange optionIndex currentQuestionIndex exam in
  fst r = Ok tt
  /\ ExamView.selectedOption (snd r) currentQuestionIndex
     = Ok (Some optionIndex)
  /\ (forall other, 0 <= other -> other <> currentQuestionIndex ->
        ExamView.currentQuestion (snd r) other
        = ExamView.currentQuestion exam other)
  /\ ExamView.handleNext (snd r) currentQuestionIndex
     = ExamView.handleNext exam currentQuestionIndex.
Proof.
  intros Hnd Hq Hopt r. subst r.
  unfold ExamView.handleOptionChange, ExamView.selectedOption,
    ExamView.handleNext. rewrite Hq.
  unfold ExamView.currentQuestion, array_get, Exam.questions in *.
  destruct (Z.ltb_spec currentQuestionIndex 0) as [|H0]; [discriminate|].
  destruct (answerFirst_nth optionIndex _ _ q Hnd Hq)
    as (qs' & Ha & Hn & Ho).
  assert (Hlen : List.length qs' = List.length (Exam._questions exam)).
  { destruct (Nat.lt_trichotomy (List.length qs')
                (List.length (Exam._questions exam))) as [Hl|[Hl|Hl]];
      [|exact Hl|]; exfalso.
    - assert (Hm : List.length qs' <> Z.to_nat currentQuestionIndex).
      { intros E. rewrite <- E in Hn.
        assert (nth_error qs' (List.length qs') = None)
          by (apply nth_error_None; lia). congruence. }
      pose proof (Ho _ Hm) as Hx.
      assert (nth_error qs' (List.length qs') = None)
        by (apply nth_error_None; lia).
      assert (nth_error (Exam._questions exam) (List.length qs') <> None)
        by (apply nth_error_Some; lia). congruence.
    - assert (Hm : List.length (Exam._questions exam)
                   <> Z.to_nat currentQuestionIndex).
      { intros E. rewrite <- E in Hq.
        assert (nth_error (Exam._questions exam)
                  (List.length (Exam._questions exam)) = None)
          by (apply nth_error_None; lia). congruence. }
      pose proof (Ho _ Hm) as Hx.
      assert (nth_error (Exam._questions exam)
                (List.length (Exam._questions exam)) = None)
        by (apply nth_error_None; lia).
      assert (nth_error qs' (List.length (Exam._questions exam)) <> None)
        by (apply nth_error_Some; lia). congruence. }
  unfold Exam.answerQuestion. rewrite Ha.
  rewrite (setUserAnswer_in_range q optionIndex Hopt) in *. simpl.
  split; [reflexivity|]. rewrite Hn. split; [reflexivity|].
  split.
  - intros other Hpos Hne.
    destruct (Z.ltb_spec other 0); [reflexivity|].
    apply Ho. lia.
  - now rewrite Hlen.
Qed.

Lemma handleOptionChange_shown_witness :
  ExamView.selectedOption
    (snd (ExamView.handleOptionChange 1 2 Samples.exam3)) 2
  = Ok (Some 1).
Proof.
  apply (handleOptionChange_shown 1 2 Samples.exam3 Samples.loop).
  - vm_compute. repeat constructor; simpl; intuition discriminate.
  - reflexivity.
  - vm_compute. split; [discriminate | reflexivity].
Defined.

(** X25.  An exam created from a topic never has an empty title: the
    title is the one given unless that is absent or empty, in which case
    it is the topic followed by " - Exam".  The exam holds the generated
    questions, at least one, is the one the service then holds, and is
    the exam [createExamFromFile] makes of the same questions under that
    title. *)
Theorem createExamFromTopic_title (generation : outcome (list Question.t))
    (now : Z) (topic : string) (title : option string)
    (s : ExamService.t) (exam : Exam.t) :
  fst (ExamService.createExamFromTopic generation now topic title s)
  = Ok exam ->
  Exam.title exam <> ""
  /\ (Exam.title exam = topic ++ " - Exam"
      <-> title = None \/ title = Some "" \/ title = Some (topic ++ " - Exam"))
  /\ (title <> None -> title <> Some "" -> title = Some (Exam.title exam))
  /\ generation = Ok (Exam.questions exam)
  /\ Exam.questions exam <> []
  /\ fst (ExamService.createExamFromFile generation now (Exam.title exam) s)
     = Ok exam
  /\ ExamService.getCurrentExam
       (snd (ExamService.createExamFromTopic generation now topic title s))
     = Some exam.
Proof.
  unfold ExamService.createExamFromTopic, ExamService.createExamFromFile.
  destruct generation as [questions| |]; try discriminate.
  destruct (List.length questions =? 0)%nat eqn:El; [discriminate|].
  simpl. intros H. injection H as <-. simpl.
  assert (Hne : topic ++ " - Exam" <> "") by (destruct topic; discriminate).
  assert (Hq : questions <> []) by (intros ->; discriminate).
  destruct title as [t|]; [destruct (String.eqb_spec t "") as [->|Ht]|].
  - split; [exact Hne|]. split; [split; auto|].
    split; [congruence|]. repeat split; auto.
  - split; [exact Ht|]. split.
    + split; [intros ->; auto | intros [H|[H|H]]; congruence].
    + repeat split; auto.
  - split; [exact Hne|]. split; [split; auto|].
    split; [congruence|]. repeat split; auto.
Qed.

Lemma createExamFromTopic_title_witness :
  option_map Exam.title
    (match fst (ExamService.createExamFromTopic (Ok [Samples.capital])
                  Samples.t0 "Geography" (Some "") (ExamService.mk None)) with
     | Ok exam => Some exam
     | _ => None
     end)
  = Some "Geography - Exam".
Proof.
  destruct (fst (ExamService.createExamFromTopic (Ok [Samples.capital])
                   Samples.t0 "Geography" (Some "") (ExamService.mk None)))
    as [exam| |] eqn:E; try (vm_compute in E; discriminate).
  simpl. f_equal.
  apply (proj1 (proj2 (createExamFromTopic_title _ _ _ _ _ exam E))).
  right. left. reflexivity.
Defined.

Section TrimFacts.

Lemma trimEnd_cons_kept c s :
  Str.is_space c = false -> Str.trimEnd (String c s) = String c (Str.trimEnd s).
Proof. intros H. simpl. destruct (Str.trimEnd s); now rewrite ?H. Qed.

Lemma trimEnd_idem s : Str.trimEnd (Str.trimEnd s) = Str.trimEnd s.
Proof.
  induction s as [|c s IH]; [reflexivity|].
  simpl. destruct (Str.trimEnd s) as [|k kept] eqn:E.
  - destruct (Str.is_space c) eqn:Ec; [reflexivity|].
    simpl. now rewrite Ec.
  - change (Str.trimEnd (String c (String k kept)))
      with (match Str.trimEnd (String k kept) with
            | EmptyString =>
                if Str.is_space c then EmptyString else String c EmptyString
            | kept' => String c kept'
            end).
    now rewrite IH.
Qed.

Lemma trimStart_head s :
  Str.trimStart s = EmptyString
  \/ exists c s', Str.trimStart s = String c s' /\ Str.is_space c = false.
Proof.
  induction s as [|c s IH]; [now left|].
  simpl. destruct (Str.is_space c) eqn:E; [exact IH|].
  right. now exists c, s.
Qed.

Lemma trim_idem s : Str.trim (Str.trim s) = Str.trim s.
Proof.
  unfold Str.trim.
  destruct (trimStart_head s) as [->|(c & s' & -> & Hc)]; [reflexivity|].
  rewrite (trimEnd_cons_kept c s' Hc). simpl Str.trimStart. rewrite Hc.
  rewrite (trimEnd_cons_kept c _ Hc). now rewrite trimEnd_idem.
Qed.

Lemma prefix_app_l a b : forall s,
  String.prefix (a ++ b) s = true -> String.prefix a s = true.
Proof.
  induction a as [|x a IH]; intros s H; [now destruct s|].
  destruct s as [|y s]; [discriminate|]. simpl in *.
  destruct (ascii_dec x y); [now apply IH | discriminate].
Qed.

End TrimFacts.

(** X26.  A response that, trimmed, does not start with a fence is
    handed to [JSON.parse] trimmed and otherwise unchanged; cleaning it
    again changes nothing, and the outcome of the parser does not depend
    on the white space around the response. *)
Theorem cleanResponse_unfenced (responseText : string) :
  Str.startsWith (Str.trim responseText) GeminiAIService.fence = false ->
  GeminiAIService.cleanResponse responseText = Str.trim responseText
  /\ GeminiAIService.cleanResponse (GeminiAIService.cleanResponse responseText)
     = GeminiAIService.cleanResponse responseText
  /\ forall JSON_parse,
       snd (GeminiAIService.parseQuestionsFromResponse JSON_parse
              (Str.trim responseText))
       = snd (GeminiAIService.parseQuestionsFromResponse JSON_parse
                responseText).
Proof.
  intros Hf.
  assert (Hj : Str.startsWith (Str.trim responseText)
                 GeminiAIService.fence_json = false).
  { destruct (Str.startsWith _ GeminiAIService.fence_json) eqn:E;
      [|reflexivity].
    unfold Str.startsWith in *.
    change GeminiAIService.fence_json
      with (GeminiAIService.fence ++ "json") in E.
    apply prefix_app_l in E. congruence. }
  assert (Hc : forall t, Str.trim t = Str.trim responseText ->
                         GeminiAIService.cleanResponse t
                         = Str.trim responseText).
  { intros t Ht. unfold GeminiAIService.cleanResponse.
    rewrite Ht, Hj, Hf. apply trim_idem. }
  split; [now apply Hc|]. split.
  - rewrite (Hc responseText eq_refl). apply Hc, trim_idem.
  - intros JSON_parse. unfold GeminiAIService.parseQuestionsFromResponse.
    rewrite (Hc responseText eq_refl), (Hc _ (trim_idem responseText)).
    unfold GeminiAIService.parseData.
    destruct (JSON_parse (Str.trim responseText)); reflexivity.
Qed.

Lemma cleanResponse_unfenced_witness :
  GeminiAIService.cleanResponse
    ("  " ++ Samples.letterEResponse ++ String Str.LF " ")
  = Samples.letterEResponse.
Proof.
  rewrite (proj1 (cleanResponse_unfenced
                    ("  " ++ Samples.letterEResponse ++ String Str.LF " ")
                    eq_refl)).
  reflexivity.
Defined.
